(** * Tello: a shallow embedding of [src/tello.py]

    The Python class [Tello] is embedded function by function.  Python
    integers are [Z]; a [bytes] object is a [list byte]; a Python list of
    integers is a [list Z]; a Python [float] is a binary64 [spec_float]; a
    raised exception is the [Raise] branch of [result]; the attributes of
    [self] form the record [tello].  The two threads of the program, the
    caller's and the receive loop's, are functions on that record: a run
    of the program interleaves their calls. *)

From Stdlib Require Import String Ascii.
From Stdlib Require Import ZArith List Bool Lia.
From Stdlib Require Import Strings.Byte.
From Stdlib Require Import Floats.SpecFloat.
From Stdlib Require Import DecimalString.
Import ListNotations.

#[local] Open Scope Z_scope.

(** ** Exceptions and the error monad *)

Inductive exn : Type :=
| IndexError
| KeyError
| OverflowError
| ValueError
| StructError
| UnicodeDecodeError
| ZeroDivisionError
| OSError.

(** Every exception the embedding raises derives from Python's
    [Exception]; [except Exception] therefore catches each of them. *)
Definition is_Exception (e : exn) : bool :=
  match e with
  | IndexError | KeyError | OverflowError | ValueError | StructError
  | UnicodeDecodeError | ZeroDivisionError | OSError => true
  end.

Inductive result (A : Type) : Type :=
| Ok (a : A)
| Raise (e : exn).

Arguments Ok {A} a.
Arguments Raise {A} e.

Definition bind {A B} (m : result A) (k : A -> result B) : result B :=
  match m with
  | Ok a => k a
  | Raise e => Raise e
  end.

Declare Scope py_scope.
Delimit Scope py_scope with py.
Notation "x <- m ;; k" := (bind m (fun x => k))
  (at level 61, m at next level, right associativity) : py_scope.
#[local] Open Scope py_scope.

(** ** Python sequences *)

Module Py.

Definition len {A} (l : list A) : Z := Z.of_nat (length l).

(** [l[i]]: a negative index counts from the end; out of range raises. *)
Definition index (n i : Z) : option nat :=
  if 0 <=? i then (if i <? n then Some (Z.to_nat i) else None)
  else if 0 <=? n + i then Some (Z.to_nat (n + i)) else None.

Definition getitem {A} (l : list A) (i : Z) : result A :=
  match index (len l) i with
  | Some k => match nth_error l k with
              | Some a => Ok a
              | None => Raise IndexError
              end
  | None => Raise IndexError
  end.

Definition setitem {A} (l : list A) (i : Z) (v : A) : result (list A) :=
  match index (len l) i with
  | Some k => Ok (firstn k l ++ v :: skipn (S k) l)
  | None => Raise IndexError
  end.

(** Slice bounds are clamped to the sequence; [None] is an omitted bound. *)
Definition clamp (n i : Z) : nat :=
  if i <? 0 then Z.to_nat (Z.max 0 (n + i)) else Z.to_nat (Z.min i n).

Definition lower (n : Z) (i : option Z) : nat :=
  match i with Some i => clamp n i | None => 0%nat end.

Definition upper (n : Z) (j : option Z) : nat :=
  match j with Some j => clamp n j | None => Z.to_nat n end.

(** [l[i:j]] *)
Definition slice {A} (l : list A) (i j : option Z) : list A :=
  let lo := lower (len l) i in
  let hi := upper (len l) j in
  firstn (hi - lo) (skipn lo l).

(** [l[i:j] = v] *)
Definition setslice {A} (l : list A) (i j : option Z) (v : list A) : list A :=
  let lo := lower (len l) i in
  let hi := upper (len l) j in
  firstn lo l ++ v ++ skipn (Nat.max lo hi) l.

End Py.

(** ** Bytes *)

Definition Z_of_byte (b : byte) : Z := Z.of_N (Byte.to_N b).

Definition byte_of_Z (z : Z) : byte :=
  match Byte.of_N (Z.to_N (z mod 256)) with
  | Some b => b
  | None => x00
  end.

(** [list(b)] for a bytes object [b]; also what [struct.unpack] of
    ['!' + 'B'*len(b)] returns, as a tuple. *)
Definition list_of_bytes (b : list byte) : list Z := map Z_of_byte b.

(** [bytes(l)] for a list of integers: every element must be in
    [range(256)]. *)
Fixpoint bytes (l : list Z) : result (list byte) :=
  match l with
  | [] => Ok []
  | z :: l' =>
      if (0 <=? z) && (z <? 256)
      then (bs <- bytes l' ;; Ok (byte_of_Z z :: bs))
      else Raise ValueError
  end.

Fixpoint le_digits (n : nat) (z : Z) : list byte :=
  match n with
  | O => []
  | S n' => byte_of_Z z :: le_digits n' (z / 256)
  end.

(** [z.to_bytes(n, 'little')]: unsigned, raises when [z] is negative or
    does not fit in [n] bytes. *)
Definition to_bytes (z : Z) (n : nat) : result (list byte) :=
  if (0 <=? z) && (z <? 256 ^ Z.of_nat n)
  then Ok (le_digits n z)
  else Raise OverflowError.

(** The value a little-endian byte list stands for. *)
Fixpoint le_value (l : list Z) : Z :=
  match l with
  | [] => 0
  | b :: l' => b + 256 * le_value l'
  end.

(** ** The two checksums

    [crcmod.mkCrcFun(poly, rev=True, initCrc=i, xorOut=0)] is the
    reflected CRC: the register starts at [i], each input byte is xored
    into its low bits, and it is shifted right eight times, the reflected
    polynomial being xored in whenever a one is shifted out. *)

Module Crc.

Definition step (rpoly : Z) (crc : Z) : Z :=
  if Z.testbit crc 0
  then Z.lxor (Z.shiftr crc 1) rpoly
  else Z.shiftr crc 1.

Definition update (rpoly : Z) (crc : Z) (b : byte) : Z :=
  Nat.iter 8 (step rpoly) (Z.lxor crc (Z_of_byte b)).

Definition run (rpoly init : Z) (data : list byte) : Z :=
  fold_left (update rpoly) data init.

End Crc.

(** [0x131] without its top bit, reflected over 8 bits, is [0x8C];
    [0x11021] without its top bit, reflected over 16 bits, is [0x8408]. *)
Definition CRC8_FUNC (data : list byte) : Z := Crc.run 0x8C 0x77 data.
Definition CRC16_FUNC (data : list byte) : Z := Crc.run 0x8408 0x3692 data.

(** ** The frame encoder *)

Definition build_packet (pac_type cmd_id seq_id : Z) (data : list Z)
  : result (list Z) :=
  let size := 11 + Py.len data in
  let packet := repeat 0 (Z.to_nat size) in
  packet <- Py.setitem packet 0 0xcc ;;
  b <- to_bytes (Z.shiftl size 3) 2 ;;
  let packet := Py.setslice packet (Some 1) (Some 3) (list_of_bytes b) in
  hdr <- bytes (Py.slice packet (Some 0) (Some 3)) ;;
  packet <- Py.setitem packet 3 (CRC8_FUNC hdr) ;;
  packet <- Py.setitem packet 4 pac_type ;;
  b <- to_bytes cmd_id 2 ;;
  let packet := Py.setslice packet (Some 5) (Some 7) (list_of_bytes b) in
  b <- to_bytes seq_id 2 ;;
  let packet := Py.setslice packet (Some 7) (Some 9) (list_of_bytes b) in
  let packet := Py.setslice packet (Some 9) (Some (-2)) data in
  body <- bytes (Py.slice packet (Some 0) (Some (-2))) ;;
  let crc16 := CRC16_FUNC body in
  b <- to_bytes crc16 2 ;;
  Ok (Py.setslice packet (Some (-2)) None (list_of_bytes b)).


(** [Struct(f'!{len(packet)}B').pack( *packet)]: one unsigned byte per item;
    an item outside [0, 255] raises [struct.error]. *)
Fixpoint packet_to_binary (packet : list Z) : result (list byte) :=
  match packet with
  | [] => Ok []
  | z :: l' =>
      if (0 <=? z) && (z <? 256)
      then (bs <- packet_to_binary l' ;; Ok (byte_of_Z z :: bs))
      else Raise StructError
  end.

(** ** Strings

    A Python [str] is represented by its UTF-8 encoding, a [string]. *)

(** [str(z)] and [f'{z}'] for an integer. *)
Definition py_str (z : Z) : string := NilZero.string_of_int (Z.to_int z).

(** [int(s)], on the strings this program passes to it: a non-empty run
    of decimal digits.  Anything else raises [ValueError] here. *)
Definition py_int (s : string) : result Z :=
  match s with
  | EmptyString => Raise ValueError
  | _ => match NilEmpty.uint_of_string s with
         | Some d => Ok (Z.of_uint d)
         | None => Raise ValueError
         end
  end.

(** Well-formed UTF-8, by the byte ranges of the Unicode standard: no
    overlong form, no surrogate, nothing above U+10FFFF. *)
Module Utf8.

Definition between (lo hi z : Z) : bool := (lo <=? z) && (z <=? hi).
Definition cont (z : Z) : bool := between 0x80 0xBF z.

Fixpoint valid (l : list Z) : bool :=
  match l with
  | [] => true
  | b0 :: r0 =>
      if b0 <? 0x80 then valid r0
      else match r0 with
      | [] => false
      | b1 :: r1 =>
          if between 0xC2 0xDF b0 then cont b1 && valid r1
          else match r1 with
          | [] => false
          | b2 :: r2 =>
              if between 0xE0 0xEF b0 then
                (if b0 =? 0xE0 then between 0xA0 0xBF b1
                 else if b0 =? 0xED then between 0x80 0x9F b1
                 else cont b1)
                && cont b2 && valid r2
              else match r2 with
              | [] => false
              | b3 :: r3 =>
                  if between 0xF0 0xF4 b0 then
                    (if b0 =? 0xF0 then between 0x90 0xBF b1
                     else if b0 =? 0xF4 then between 0x80 0x8F b1
                     else cont b1)
                    && cont b2 && cont b3 && valid r3
                  else false
              end
          end
      end
  end.

End Utf8.

(** [b.decode('utf-8')] *)
Definition decode_utf8 (b : list byte) : result string :=
  if Utf8.valid (list_of_bytes b)
  then Ok (string_of_list_byte b)
  else Raise UnicodeDecodeError.

(** ** Floating point

    A Python [float] is an IEEE 754 binary64 number: [spec_float] at
    precision 53 and maximal exponent 1024, rounding to nearest, ties to
    even. *)

Module Float.

Definition prec : Z := 53.
Definition emax : Z := 1024.

Definition add : spec_float -> spec_float -> spec_float := SFadd prec emax.
Definition div : spec_float -> spec_float -> spec_float := SFdiv prec emax.

(** An integer as an exact, not yet normalised, mantissa. *)
Definition exact (z : Z) : spec_float :=
  match z with
  | Z0 => S754_zero false
  | Zpos p => S754_finite false p 0
  | Zneg p => S754_finite true p 0
  end.

(** [float(z)], for [|z| < 2^1024]. *)
Definition of_int (z : Z) : spec_float := binary_normalize prec emax z 0 false.

(** The binary64 number nearest to [a / b]. *)
Definition ratio (a b : Z) : spec_float := div (exact a) (exact b).

(** The integer nearest to [m * 2^e], ties to even. *)
Definition nearest_int (m : positive) (e : Z) : Z :=
  match e with
  | Zneg p =>
      let d := 2 ^ Zpos p in
      let q := Zpos m / d in
      let r := Zpos m mod d in
      match 2 * r ?= d with
      | Lt => q
      | Gt => q + 1
      | Eq => if Z.even q then q else q + 1
      end
  | _ => Zpos m * 2 ^ e
  end.

End Float.

(** [a / b] on integers: the correctly rounded quotient. *)
Definition py_truediv (a b : Z) : result spec_float :=
  if b =? 0 then Raise ZeroDivisionError
  else match Float.ratio a b with
       | S754_infinity _ => Raise OverflowError
       | q => Ok q
       end.

(** [round(f)]: the nearest integer, ties to even. *)
Definition py_round (f : spec_float) : result Z :=
  match f with
  | S754_zero _ => Ok 0
  | S754_finite s m e =>
      let k := Float.nearest_int m e in Ok (if s then - k else k)
  | S754_infinity _ => Raise OverflowError
  | S754_nan => Raise ValueError
  end.

(** [round(f, 1)]: [f] rounded to one decimal, ties to even on the exact
    value of [f], then the binary64 number nearest to that decimal. *)
Definition py_round1 (f : spec_float) : spec_float :=
  match f with
  | S754_finite s m e =>
      match Float.nearest_int (m * 10) e with
      | Zpos k => Float.div (S754_finite s k 0) (Float.exact 10)
      | _ => S754_zero s
      end
  | _ => f
  end.

(** ** The attributes of a [Tello] object *)

(** [x], [y] and [z] hold the integer literal [0] after [init_state] and
    [cie_reset], and a float once a telemetry frame has been added. *)
Inductive coord : Type :=
| CZero
| CFloat (f : spec_float).

(** [get_command] holds the integer literal [0] until the first telemetry
    frame, and a string afterwards. *)
Inductive echo : Type :=
| EZero
| EStr (s : string).

Record tello : Type := mkTello {
  sequence : Z;
  speed : Z;
  ssid : string;
  uptime : Z;
  height : Z;
  x : coord;
  y : coord;
  z : coord;
  vx : Z;
  vy : Z;
  vz : Z;
  flytime : Z;
  battery : Z;
  wifi : Z;
  get_command : echo;
  rec_command_id : Z;
  (** [self.sock]: the datagrams handed to [sendto], oldest first, and
      whether [close] has been called. *)
  sock_sent : list (list byte);
  sock_closed : bool;
  (** what the receive loop has printed *)
  printed : list exn
}.

(** ** Stateful code: state threaded through, kept when an exception is
    raised *)

Definition M (A : Type) : Type := tello -> result A * tello.

Definition ret {A} (a : A) : M A := fun t => (Ok a, t).

Definition bindM {A B} (m : M A) (k : A -> M B) : M B :=
  fun t => match m t with
           | (Ok a, t') => k a t'
           | (Raise e, t') => (Raise e, t')
           end.

Definition lift {A} (r : result A) : M A := fun t => (r, t).
Definition gets {A} (f : tello -> A) : M A := fun t => (Ok (f t), t).
Definition modify (f : tello -> tello) : M unit := fun t => (Ok tt, f t).

Notation "x <~ m ;; k" := (bindM m (fun x => k))
  (at level 61, m at next level, right associativity) : py_scope.
Notation "m ;;; k" := (bindM m (fun _ => k))
  (at level 61, right associativity) : py_scope.

(** Attribute assignment, one setter per attribute. *)

Definition set_sequence (v : Z) (t : tello) : tello :=
  mkTello v (speed t) (ssid t) (uptime t) (height t) (x t) (y t) (z t)
    (vx t) (vy t) (vz t) (flytime t) (battery t) (wifi t) (get_command t)
    (rec_command_id t) (sock_sent t) (sock_closed t) (printed t).

Definition set_speed (v : Z) (t : tello) : tello :=
  mkTello (sequence t) v (ssid t) (uptime t) (height t) (x t) (y t) (z t)
    (vx t) (vy t) (vz t) (flytime t) (battery t) (wifi t) (get_command t)
    (rec_command_id t) (sock_sent t) (sock_closed t) (printed t).

Definition set_ssid (v : string) (t : tello) : tello :=
  mkTello (sequence t) (speed t) v (uptime t) (height t) (x t) (y t) (z t)
    (vx t) (vy t) (vz t) (flytime t) (battery t) (wifi t) (get_command t)
    (rec_command_id t) (sock_sent t) (sock_closed t) (printed t).

Definition set_uptime (v : Z) (t : tello) : tello :=
  mkTello (sequence t) (speed t) (ssid t) v (height t) (x t) (y t) (z t)
    (vx t) (vy t) (vz t) (flytime t) (battery t) (wifi t) (get_command t)
    (rec_command_id t) (sock_sent t) (sock_closed t) (printed t).

Definition set_height (v : Z) (t : tello) : tello :=
  mkTello (sequence t) (speed t) (ssid t) (uptime t) v (x t) (y t) (z t)
    (vx t) (vy t) (vz t) (flytime t) (battery t) (wifi t) (get_command t)
    (rec_command_id t) (sock_sent t) (sock_closed t) (printed t).

Definition set_x (v : coord) (t : tello) : tello :=
  mkTello (sequence t) (speed t) (ssid t) (uptime t) (height t) v (y t)
    (z t) (vx t) (vy t) (vz t) (flytime t) (battery t) (wifi t)
    (get_command t) (rec_command_id t) (sock_sent t) (sock_closed t)
    (printed t).

Definition set_y (v : coord) (t : tello) : tello :=
  mkTello (sequence t) (speed t) (ssid t) (uptime t) (height t) (x t) v
    (z t) (vx t) (vy t) (vz t) (flytime t) (battery t) (wifi t)
    (get_command t) (rec_command_id t) (sock_sent t) (sock_closed t)
    (printed t).

Definition set_z (v : coord) (t : tello) : tello :=
  mkTello (sequence t) (speed t) (ssid t) (uptime t) (height t) (x t) (y t)
    v (vx t) (vy t) (vz t) (flytime t) (battery t) (wifi t) (get_command t)
    (rec_command_id t) (sock_sent t) (sock_closed t) (printed t).

Definition set_vx (v : Z) (t : tello) : tello :=
  mkTello (sequence t) (speed t) (ssid t) (uptime t) (height t) (x t) (y t)
    (z t) v (vy t) (vz t) (flytime t) (battery t) (wifi t) (get_command t)
    (rec_command_id t) (sock_sent t) (sock_closed t) (printed t).

Definition set_vy (v : Z) (t : tello) : tello :=
  mkTello (sequence t) (speed t) (ssid t) (uptime t) (height t) (x t) (y t)
    (z t) (vx t) v (vz t) (flytime t) (battery t) (wifi t) (get_command t)
    (rec_command_id t) (sock_sent t) (sock_closed t) (printed t).

Definition set_vz (v : Z) (t : tello) : tello :=
  mkTello (sequence t) (speed t) (ssid t) (uptime t) (height t) (x t) (y t)
    (z t) (vx t) (vy t) v (flytime t) (battery t) (wifi t) (get_command t)
    (rec_command_id t) (sock_sent t) (sock_closed t) (printed t).

Definition set_flytime (v : Z) (t : tello) : tello :=
  mkTello (sequence t) (speed t) (ssid t) (uptime t) (height t) (x t) (y t)
    (z t) (vx t) (vy t) (vz t) v (battery t) (wifi t) (get_command t)
    (rec_command_id t) (sock_sent t) (sock_closed t) (printed t).

Definition set_battery (v : Z) (t : tello) : tello :=
  mkTello (sequence t) (speed t) (ssid t) (uptime t) (height t) (x t) (y t)
    (z t) (vx t) (vy t) (vz t) (flytime t) v (wifi t) (get_command t)
    (rec_command_id t) (sock_sent t) (sock_closed t) (printed t).

Definition set_wifi (v : Z) (t : tello) : tello :=
  mkTello (sequence t) (speed t) (ssid t) (uptime t) (height t) (x t) (y t)
    (z t) (vx t) (vy t) (vz t) (flytime t) (battery t) v (get_command t)
    (rec_command_id t) (sock_sent t) (sock_closed t) (printed t).

Definition set_get_command (v : echo) (t : tello) : tello :=
  mkTello (sequence t) (speed t) (ssid t) (uptime t) (height t) (x t) (y t)
    (z t) (vx t) (vy t) (vz t) (flytime t) (battery t) (wifi t) v
    (rec_command_id t) (sock_sent t) (sock_closed t) (printed t).

Definition set_rec_command_id (v : Z) (t : tello) : tello :=
  mkTello (sequence t) (speed t) (ssid t) (uptime t) (height t) (x t) (y t)
    (z t) (vx t) (vy t) (vz t) (flytime t) (battery t) (wifi t)
    (get_command t) v (sock_sent t) (sock_closed t) (printed t).

Definition set_sock_sent (v : list (list byte)) (t : tello) : tello :=
  mkTello (sequence t) (speed t) (ssid t) (uptime t) (height t) (x t) (y t)
    (z t) (vx t) (vy t) (vz t) (flytime t) (battery t) (wifi t)
    (get_command t) (rec_command_id t) v (sock_closed t) (printed t).

Definition set_sock_closed (v : bool) (t : tello) : tello :=
  mkTello (sequence t) (speed t) (ssid t) (uptime t) (height t) (x t) (y t)
    (z t) (vx t) (vy t) (vz t) (flytime t) (battery t) (wifi t)
    (get_command t) (rec_command_id t) (sock_sent t) v (printed t).

Definition set_printed (v : list exn) (t : tello) : tello :=
  mkTello (sequence t) (speed t) (ssid t) (uptime t) (height t) (x t) (y t)
    (z t) (vx t) (vy t) (vz t) (flytime t) (battery t) (wifi t)
    (get_command t) (rec_command_id t) (sock_sent t) (sock_closed t) v.

(** ** The command catalogue *)

Definition CMD_LIST : list (string * Z) :=
  [("takeoff", 84); ("land", 85); ("stick", 80); ("get_ssid", 17)]%string.

Definition PAC_TYPE_LIST : list (string * Z) :=
  [("takeoff", 0x68); ("land", 0x68); ("stick", 0x60); ("get_ssid", 0x48)]%string.

Definition VIDEO_PORT : Z := 6038.

(** [d[k]] for a dictionary with string keys. *)
Fixpoint dict_get (d : list (string * Z)) (k : string) : result Z :=
  match d with
  | [] => Raise KeyError
  | (k', v) :: d' => if String.eqb k k' then Ok v else dict_get d' k
  end.

(** ** The clock *)

(** What [datetime.datetime.now()] returns, as far as the program reads it. *)
Record datetime : Type := mkDatetime {
  hour : Z;
  minute : Z;
  second : Z;
  microsecond : Z
}.

(** [now] is the value [datetime.datetime.now()] returned. *)
Definition get_current_time (now : datetime) : result (list Z) :=
  let h := hour now in
  let m := minute now in
  let s := second now in
  q <- py_truediv (microsecond now) 1000 ;;
  ms <- py_round q ;;
  b <- to_bytes ms 2 ;;
  Ok ([h; m; s] ++ list_of_bytes b).

(** ** Outbound commands *)

(** [spd] is [self.speed], [now] the clock reading of the
    [get_current_time] call. *)
Definition move_to (spd : Z) (now : datetime) (move : list Z) : result (list Z) :=
  let data := repeat 0 11%nat in
  m0 <- Py.getitem move 0 ;;
  m1 <- Py.getitem move 1 ;;
  m2 <- Py.getitem move 2 ;;
  m3 <- Py.getitem move 3 ;;
  let stick_data :=
    Z.shiftl spd 44 + Z.shiftl m0 33 + Z.shiftl m1 22 + Z.shiftl m2 11 + m3 in
  b <- to_bytes stick_data 6 ;;
  let data := Py.setslice data None (Some 6) (list_of_bytes b) in
  t <- get_current_time now ;;
  Ok (Py.setslice data (Some 6) None t).

(** [self.sock.sendto(b, self.ADDRESS)] *)
Definition sendto (b : list byte) : M unit :=
  fun t => if sock_closed t then (Raise OSError, t)
           else (Ok tt, set_sock_sent (sock_sent t ++ [b]) t).

Definition send_to (now : datetime) (cmd : string) (move : list Z) : M unit :=
  data <~ (if String.eqb cmd "land" then ret [0x00]
           else if String.eqb cmd "stick" then
             modify (set_sequence 0) ;;;
             spd <~ gets speed ;;
             lift (move_to spd now move)
           else ret []) ;;
  pac_type <~ lift (dict_get PAC_TYPE_LIST cmd) ;;
  cmd_id <~ lift (dict_get CMD_LIST cmd) ;;
  seq_id <~ gets sequence ;;
  packet <~ lift (build_packet pac_type cmd_id seq_id data) ;;
  b <~ lift (packet_to_binary packet) ;;
  sendto b ;;;
  modify (fun t => set_sequence (sequence t + 1) t).

(** The default of [move]: [[1024]*4]. *)
Definition default_move : list Z := repeat 1024 4%nat.

Definition speed_switch (t : tello) : tello :=
  set_speed (if speed t =? 0 then 1 else 0) t.

Definition cie_reset (t : tello) : tello :=
  set_z CZero (set_y CZero (set_x CZero t)).

Definition stop (t : tello) : tello := set_sock_closed true t.

(** ** Construction and handshake *)

Definition init_state (t : tello) : tello :=
  set_rec_command_id 0 (set_get_command EZero (set_wifi 0 (set_battery 0
  (set_flytime 0 (set_vz 0 (set_vy 0 (set_vx 0 (set_z CZero (set_y CZero
  (set_x CZero (set_height 0 (set_uptime 0 (set_ssid "unknown"
  (set_speed 0 t)))))))))))))).

(** The object when [__init__] reaches [self.connect()]: a fresh socket,
    [self.sequence = 1], then [init_state]. *)
Definition fresh : tello :=
  init_state
    (mkTello 1 0 "" 0 0 CZero CZero CZero 0 0 0 0 0 0 EZero 0 [] false []).

Definition connect (now : datetime) : M unit :=
  port <~ lift (to_bytes VIDEO_PORT 2) ;;
  sendto (list_byte_of_string "conn_req:" ++ port) ;;;
  send_to now "get_ssid" default_move.

Definition init (now : datetime) : result unit * tello := connect now fresh.

(** ** Inbound telemetry *)

(** [self.c += round(v / 100, 1)] for a coordinate [c]: the integer [0]
    is converted to a float by the addition. *)
Definition coord_float (c : coord) : spec_float :=
  match c with
  | CZero => Float.of_int 0
  | CFloat f => f
  end.

Definition integrate (c : coord) (v : Z) : result coord :=
  q <- py_truediv v 100 ;;
  Ok (CFloat (Float.add (coord_float c) (py_round1 q))).

Definition parse_data (rec : list Z) : M unit :=
  r7 <~ lift (Py.getitem rec 7) ;;
  r8 <~ lift (Py.getitem rec 8) ;;
  modify (set_uptime (r7 + 255 * r8)) ;;;
  r9 <~ lift (Py.getitem rec 9) ;;
  r10 <~ lift (Py.getitem rec 10) ;;
  modify (set_height (r9 - r10)) ;;;
  r11 <~ lift (Py.getitem rec 11) ;;
  r12 <~ lift (Py.getitem rec 12) ;;
  modify (set_vy (r11 - r12)) ;;;
  r13 <~ lift (Py.getitem rec 13) ;;
  r14 <~ lift (Py.getitem rec 14) ;;
  modify (set_vx (r13 - r14)) ;;;
  r15 <~ lift (Py.getitem rec 15) ;;
  r16 <~ lift (Py.getitem rec 16) ;;
  modify (set_vz (- (r15 - r16))) ;;;
  x0 <~ gets x ;;
  v <~ gets vx ;;
  x1 <~ lift (integrate x0 v) ;;
  modify (set_x x1) ;;;
  y0 <~ gets y ;;
  v <~ gets vy ;;
  y1 <~ lift (integrate y0 v) ;;
  modify (set_y y1) ;;;
  z0 <~ gets z ;;
  v <~ gets vz ;;
  z1 <~ lift (integrate z0 v) ;;
  modify (set_z z1) ;;;
  r17 <~ lift (Py.getitem rec 17) ;;
  r18 <~ lift (Py.getitem rec 18) ;;
  modify (set_flytime (r17 * r18)) ;;;
  r21 <~ lift (Py.getitem rec 21) ;;
  modify (set_battery r21) ;;;
  r26 <~ lift (Py.getitem rec 26) ;;
  r27 <~ lift (Py.getitem rec 27) ;;
  modify (set_get_command (EStr (py_str r26 ++ " " ++ py_str r27))).

(** What one call of [self.sock.recvfrom(1518)] does: it returns a
    datagram, cut to the buffer size as a POSIX socket cuts it, or
    raises. *)
Inductive recv_event : Type :=
| Datagram (payload : list byte)
| RecvFailure.

Definition recvfrom (ev : recv_event) (bufsize : nat) : M (list byte) :=
  match ev with
  | Datagram payload => ret (firstn bufsize payload)
  | RecvFailure => lift (Raise OSError)
  end.

(** [int(f'{hi}{lo}')] *)
Definition concat_decimal (hi lo : Z) : result Z :=
  py_int (py_str hi ++ py_str lo).

(** The body of the [try] in [receive_data]. *)
Definition receive_body (ev : recv_event) : M unit :=
  data <~ recvfrom ev 1518 ;;
  let rec := list_of_bytes data in
  r6 <~ lift (Py.getitem rec 6) ;;
  r5 <~ lift (Py.getitem rec 5) ;;
  id <~ lift (concat_decimal r6 r5) ;;
  modify (set_rec_command_id id) ;;;
  cid <~ gets rec_command_id ;;
  if cid =? 17 then
    s <~ lift (decode_utf8 (Py.slice data (Some 11) (Some (-2)))) ;;
    modify (set_ssid s)
  else if cid =? 26 then
    r10 <~ lift (Py.getitem rec 10) ;;
    r9 <~ lift (Py.getitem rec 9) ;;
    w <~ lift (concat_decimal r10 r9) ;;
    modify (set_wifi w)
  else if cid =? 86 then
    parse_data rec
  else ret tt.

(** [print(f'Error receiving data: {e}')] *)
Definition print_error (e : exn) (t : tello) : tello :=
  set_printed (printed t ++ [e]) t.

(** The receive loop, run on the events its [recvfrom] calls meet.  The
    loop has no exit of its own: [None] says it is still running after the
    events, [Some e] that exception [e] left it. *)
Fixpoint receive_data (evs : list recv_event) (t : tello) : option exn * tello :=
  match evs with
  | [] => (None, t)
  | ev :: evs' =>
      match receive_body ev t with
      | (Ok _, t') => receive_data evs' t'
      | (Raise e, t') =>
          if is_Exception e then receive_data evs' (print_error e t')
          else (Some e, t')
      end
  end.

(** ** The snapshot *)

(** The values the snapshot holds: integers, strings, coordinates and the
    command echo. *)
Inductive pyval : Type :=
| VInt (v : Z)
| VStr (s : string)
| VCoord (c : coord)
| VEcho (e : echo).

(** The dictionary [get_drone_data] builds, in the order of its keys. *)
Definition get_drone_data (t : tello) : list (string * pyval) :=
  [("ssid", VStr (ssid t));
   ("height", VInt (height t));
   ("vx", VInt (vx t));
   ("vy", VInt (vy t));
   ("vz", VInt (vz t));
   ("x", VCoord (x t));
   ("y", VCoord (y t));
   ("z", VCoord (z t));
   ("flytime", VInt (flytime t));
   ("battery", VInt (battery t));
   ("wifi", VInt (wifi t));
   ("humei", VEcho (get_command t));
   ("rec_command_id", VInt (rec_command_id t))]%string.

(** [d[k]] on such a dictionary. *)
Fixpoint dict_lookup {V} (d : list (string * V)) (k : string) : result V :=
  match d with
  | [] => Raise KeyError
  | (k', v) :: d' => if String.eqb k k' then Ok v else dict_lookup d' k
  end.

(** * Vocabulary of the statements

    Nothing below adds to the program: these are the predicates and
    reference values the statements are written with, and names for parts
    of its functions. *)

(** ** Bytes and the frame format *)

Definition is_byte (v : Z) : Prop := 0 <= v < 256.

(** The two bytes of [v], low byte first. *)
Definition le16 (v : Z) : list Z := [v mod 256; v / 256].

Module Wire.

(** The frame of a packet type, command id, sequence number and payload as
    the format lays it out: marker, length shifted by three, header
    checksum, type, id, sequence, payload, frame checksum. *)
Definition frame (pac_type cmd_id seq_id : Z) (payload : list Z) : list Z :=
  let s := Z.shiftl (11 + Py.len payload) 3 in
  let hdr := [0xcc; s mod 256; s / 256] in
  let c8 := CRC8_FUNC (map byte_of_Z hdr) in
  let body :=
    hdr ++ [c8; pac_type; cmd_id mod 256; cmd_id / 256;
            seq_id mod 256; seq_id / 256] ++ payload in
  let c16 := CRC16_FUNC (map byte_of_Z body) in
  body ++ [c16 mod 256; c16 / 256].

(** Byte 3 is the 8-bit checksum of bytes 0 to 2. *)
Definition crc8_valid (d : list byte) : bool :=
  match nth_error d 3 with
  | Some c => Z_of_byte c =? CRC8_FUNC (firstn 3 d)
  | None => false
  end.

(** The last two bytes are the 16-bit checksum of all bytes before them,
    low byte first. *)
Definition crc16_valid (d : list byte) : bool :=
  let n := (length d - 2)%nat in
  match skipn n d with
  | [lo; hi] => Z_of_byte lo + 256 * Z_of_byte hi =? CRC16_FUNC (firstn n d)
  | _ => false
  end.

(** A datagram a checking decoder would accept. *)
Definition authentic (d : list byte) : bool :=
  (11 <=? Py.len d) && crc8_valid d && crc16_valid d.

End Wire.

(** The inputs the encoder can serialise: one byte of type, two bytes of
    command id and of sequence number, payload bytes, and a total length
    whose eightfold fits the two length bytes. *)
Record encodable (pac_type cmd_id seq_id : Z) (data : list Z) : Prop := {
  enc_type : is_byte pac_type;
  enc_id : 0 <= cmd_id < 65536;
  enc_seq : 0 <= seq_id < 65536;
  enc_data : Forall is_byte data;
  enc_len : Py.len data <= 8180
}.

(** The datagram of a frame. *)
Definition datagram (pac_type cmd_id seq_id : Z) (data : list Z) : list byte :=
  map byte_of_Z (Wire.frame pac_type cmd_id seq_id data).

(** What the bytes of a datagram carry: type at byte 4, command id in
    bytes 5-6, sequence number in bytes 7-8, payload from byte 9 to the
    frame checksum. *)
Definition wire_type (d : list byte) : option Z :=
  option_map Z_of_byte (nth_error d 4).

Definition wire_le16 (d : list byte) (i : nat) : option Z :=
  match nth_error d i, nth_error d (S i) with
  | Some lo, Some hi => Some (Z_of_byte lo + 256 * Z_of_byte hi)
  | _, _ => None
  end.

Definition wire_command (d : list byte) : option Z := wire_le16 d 5.
Definition wire_sequence (d : list byte) : option Z := wire_le16 d 7.

Definition wire_payload (d : list byte) : list byte :=
  Py.slice d (Some 9) (Some (-2)).

(** ** Commands *)

(** What [datetime.now()] can return. *)
Record valid_datetime (now : datetime) : Prop := {
  vd_hour : 0 <= hour now < 24;
  vd_minute : 0 <= minute now < 60;
  vd_second : 0 <= second now < 60;
  vd_microsecond : 0 <= microsecond now < 1000000
}.

(** An analog channel: 11 bits. *)
Definition is_channel (c : Z) : Prop := 0 <= c <= 2047.

(** The packed integer of the stick command, as the format words it. *)
Definition packed_sticks (spd c0 c1 c2 c3 : Z) : Z :=
  Z.lor (Z.lor (Z.lor (Z.lor (Z.shiftl spd 44) (Z.shiftl c0 33))
                  (Z.shiftl c1 22)) (Z.shiftl c2 11)) c3.

(** The sum [move_to] serialises. *)
Definition stick_sum (spd c0 c1 c2 c3 : Z) : Z :=
  Z.shiftl spd 44 + Z.shiftl c0 33 + Z.shiftl c1 22 + Z.shiftl c2 11 + c3.

(** The commands of the catalogue other than [stick]. *)
Definition non_stick (cmd : string) : Prop :=
  cmd = "takeoff"%string \/ cmd = "land"%string \/ cmd = "get_ssid"%string.

(** Their type, id and payload. *)
Definition plain_frame (cmd : string) : Z * Z * list Z :=
  if String.eqb cmd "takeoff" then (0x68, 84, [])
  else if String.eqb cmd "land" then (0x68, 85, [0x00])
  else (0x48, 17, []).

(** A caller issuing the commands one after the other, going on after a
    send that raised. *)
Fixpoint send_each (now : datetime) (cmds : list string) (t : tello) : tello :=
  match cmds with
  | [] => t
  | cmd :: cmds' => send_each now cmds' (snd (send_to now cmd default_move t))
  end.

(** ** Received datagrams *)

(** The number of decimal digits of a byte. *)
Definition decimal_width (v : Z) : Z :=
  if v <? 10 then 1 else if v <? 100 then 2 else 3.

(** [concat_decimal] has a closed form on the two bytes [hi] and [lo]. *)
Definition concat_agrees (hi lo : Z) : bool :=
  match concat_decimal hi lo with
  | Ok v => v =? hi * 10 ^ decimal_width lo + lo
  | Raise _ => false
  end.

Definition byte_values : list Z := map Z.of_nat (seq 0 256).

(** The id the receive path gives a datagram: the closed form of
    [int(f'{rec[6]}{rec[5]}')] on the bytes received. *)
Definition received_id (d : list byte) : Z :=
  let rec := list_of_bytes (firstn 1518 d) in
  nth 6 rec 0 * 10 ^ decimal_width (nth 5 rec 0) + nth 5 rec 0.

(** The [match] statement of [receive_data], entered with
    [rec_command_id] already assigned. *)
Definition dispatch (data : list byte) : M unit :=
  let rec := list_of_bytes data in
  cid <~ gets rec_command_id ;;
  if cid =? 17 then
    s <~ lift (decode_utf8 (Py.slice data (Some 11) (Some (-2)))) ;;
    modify (set_ssid s)
  else if cid =? 26 then
    r10 <~ lift (Py.getitem rec 10) ;;
    r9 <~ lift (Py.getitem rec 9) ;;
    w <~ lift (concat_decimal r10 r9) ;;
    modify (set_wifi w)
  else if cid =? 86 then
    parse_data rec
  else ret tt.

(** A statement keeps [f] when, raising or not, it leaves [f] of the state
    as it found it. *)
Definition keeps {A B} (f : tello -> B) (m : M A) : Prop :=
  forall t, f (snd (m t)) = f t.

(** ** Telemetry *)

(** The quotient by 100 is a number, not an infinity. *)
Definition finite_ratio (v : Z) : bool :=
  match Float.ratio v 100 with
  | S754_infinity _ => false
  | _ => true
  end.

(** The state once [parse_data] has integrated the velocities. *)
Definition integrated (rec : list Z) (t : tello) : tello :=
  let b k := nth k rec 0 in
  let vx' := b 13%nat - b 14%nat in
  let vy' := b 11%nat - b 12%nat in
  let vz' := - (b 15%nat - b 16%nat) in
  let step c v := CFloat (Float.add (coord_float c) (py_round1 (Float.ratio v 100))) in
  mkTello (sequence t) (speed t) (ssid t)
    (b 7%nat + 255 * b 8%nat)
    (b 9%nat - b 10%nat)
    (step (x t) vx') (step (y t) vy') (step (z t) vz')
    vx' vy' vz'
    (flytime t) (battery t) (wifi t) (get_command t)
    (rec_command_id t) (sock_sent t) (sock_closed t) (printed t).

(** The statements of [parse_data] after the integration. *)
Definition telemetry_tail (rec : list Z) : M unit :=
  r17 <~ lift (Py.getitem rec 17) ;;
  r18 <~ lift (Py.getitem rec 18) ;;
  modify (set_flytime (r17 * r18)) ;;;
  r21 <~ lift (Py.getitem rec 21) ;;
  modify (set_battery r21) ;;;
  r26 <~ lift (Py.getitem rec 26) ;;
  r27 <~ lift (Py.getitem rec 27) ;;
  modify (set_get_command (EStr (py_str r26 ++ " " ++ py_str r27))).

(** The state a complete telemetry frame leaves, attribute by attribute. *)
Definition reduced (rec : list Z) (t : tello) : tello :=
  let b k := nth k rec 0 in
  let vx' := b 13%nat - b 14%nat in
  let vy' := b 11%nat - b 12%nat in
  let vz' := - (b 15%nat - b 16%nat) in
  let step c v := CFloat (Float.add (coord_float c) (py_round1 (Float.ratio v 100))) in
  mkTello (sequence t) (speed t) (ssid t)
    (b 7%nat + 255 * b 8%nat)
    (b 9%nat - b 10%nat)
    (step (x t) vx') (step (y t) vy') (step (z t) vz')
    vx' vy' vz'
    (b 17%nat * b 18%nat)
    (b 21%nat)
    (wifi t)
    (EStr (py_str (b 26%nat) ++ " " ++ py_str (b 27%nat)))
    (rec_command_id t) (sock_sent t) (sock_closed t) (printed t).

(** A telemetry frame whose bytes 13 and 14 give [vx = 100]. *)
Definition steady (d : list byte) : Prop :=
  17 <= Py.len d /\ received_id d = 86 /\
  nth 13 (list_of_bytes d) 0 - nth 14 (list_of_bytes d) 0 = 100.

(** A 29-byte telemetry frame: id bytes 86 and 0, [vx] bytes 100 and 0. *)
Definition sample_telemetry : list byte :=
  map byte_of_Z
    [0xcc; 0xe8; 0x00; 0x00; 0x88; 86; 0; 1; 2; 30; 10; 7; 2; 100; 0; 9; 4;
     5; 6; 0; 0; 77; 0; 0; 0; 0; 3; 4; 0].

(** A mantissa [m] shifted left by [n] bits. *)
Definition shl (m : positive) (n : nat) : positive := Nat.iter n xO m.

(** ** Runs of the object *)

(** One call on the object: a method the caller invokes, or one turn of
    the receive loop.  A caller goes on after a call that raised. *)
Inductive call : Type :=
| CallSend (now : datetime) (cmd : string) (move : list Z)
| CallSpeedSwitch
| CallReset
| CallStop
| Receive (ev : recv_event).

Definition step (c : call) (t : tello) : tello :=
  match c with
  | CallSend now cmd move => snd (send_to now cmd move t)
  | CallSpeedSwitch => speed_switch t
  | CallReset => cie_reset t
  | CallStop => stop t
  | Receive ev => snd (receive_data [ev] t)
  end.

(** The calls of the two threads, in the order in which they take
    effect. *)
Definition run (cs : list call) (t : tello) : tello :=
  fold_left (fun t c => step c t) cs t.

(** The sequence number a send of [cmd] puts into its frame. *)
Definition carried (cmd : string) (t : tello) : Z :=
  if String.eqb cmd "stick" then 0 else sequence t.

(** The payload a send of [cmd] builds. *)
Definition payload (now : datetime) (cmd : string) (move : list Z) (t : tello)
  : result (list Z) :=
  if String.eqb cmd "land" then Ok [0x00]
  else if String.eqb cmd "stick" then move_to (speed t) now move
  else Ok [].

(** The state a send of [cmd] that raised leaves. *)
Definition after_failed_send (cmd : string) (t : tello) : tello :=
  if String.eqb cmd "stick" then set_sequence 0 t else t.

(** The names the two dictionaries have an entry for. *)
Definition in_catalogue (cmd : string) : bool :=
  existsb (String.eqb cmd) (map fst CMD_LIST).

(** The sum [move_to] serialises for the first four items of [move]. *)
Definition move_sum (spd : Z) (move : list Z) : Z :=
  stick_sum spd (nth 0 move 0) (nth 1 move 0) (nth 2 move 0) (nth 3 move 0).

(** How a send ends, read off its arguments and the state. *)
Definition send_result (cmd : string) (move : list Z) (t : tello) : result unit :=
  if String.eqb cmd "stick" then
    if Py.len move <? 4 then Raise IndexError
    else if negb ((0 <=? move_sum (speed t) move) &&
                  (move_sum (speed t) move <? 2 ^ 48)) then Raise OverflowError
    else if sock_closed t then Raise OSError
    else Ok tt
  else if negb (in_catalogue cmd) then Raise KeyError
  else if negb ((0 <=? sequence t) && (sequence t <? 65536)) then Raise OverflowError
  else if sock_closed t then Raise OSError
  else Ok tt.

(** The frames of the catalogue: name, packet type, command id, length in
    bytes. *)
Definition catalogue_frames : list (string * Z * Z * Z) :=
  [("takeoff", 0x68, 84, 11); ("land", 0x68, 85, 12);
   ("stick", 0x60, 80, 22); ("get_ssid", 0x48, 17, 11)]%string.

(** The state [parse_data] has reached when a frame of fewer than 28
    bytes makes it raise: every attribute whose bytes the frame has is
    assigned, the later ones are not. *)
Definition torn (rec : list Z) (t : tello) : tello :=
  let n := Py.len rec in
  let b k := nth k rec 0 in
  let t1 := if 9 <=? n then set_uptime (b 7%nat + 255 * b 8%nat) t else t in
  let t2 := if 11 <=? n then set_height (b 9%nat - b 10%nat) t1 else t1 in
  let t3 := if 13 <=? n then set_vy (b 11%nat - b 12%nat) t2 else t2 in
  let t4 := if 15 <=? n then set_vx (b 13%nat - b 14%nat) t3 else t3 in
  let t5 := if 17 <=? n then integrated rec t else t4 in
  let t6 := if 19 <=? n then set_flytime (b 17%nat * b 18%nat) t5 else t5 in
  if 22 <=? n then set_battery (b 21%nat) t6 else t6.

(** The calls of the commanding thread that are not a position reset. *)
Definition sender_call (c : call) : bool :=
  match c with
  | CallSend _ _ _ | CallSpeedSwitch | CallStop => true
  | CallReset | Receive _ => false
  end.

(** The keys of the snapshot. *)
Definition snapshot_keys : list string :=
  ["ssid"; "height"; "vx"; "vy"; "vz"; "x"; "y"; "z"; "flytime"; "battery";
   "wifi"; "humei"; "rec_command_id"]%string.

(** The connection request: the text [conn_req:] and the video port, low
    byte first. *)
Definition conn_req : list byte :=
  list_byte_of_string "conn_req:" ++ map byte_of_Z (le16 VIDEO_PORT).

(** The bounds the integer attributes of the drone state have when they
    come from bytes. *)
Definition telemetry_in_range (t : tello) : Prop :=
  0 <= uptime t <= 65280 /\
  -255 <= height t <= 255 /\
  -255 <= vx t <= 255 /\
  -255 <= vy t <= 255 /\
  -255 <= vz t <= 255 /\
  0 <= flytime t <= 65025 /\
  0 <= battery t <= 255 /\
  0 <= wifi t <= 255255 /\
  0 <= rec_command_id t <= 255255.

(** ** Rounding to one decimal

    What [round(v / 100, 1)] is for a byte difference [v], in tenths.  Off
    the ties it is the nearest tenth.  A tie, [v] ending in 5, goes the
    way the binary64 quotient lies from the decimal: the list gives the
    tenths for each of them; [round] is odd, so the list is for
    [|v|]. *)
Definition rounded_ties : list (Z * Z) :=
  [(5, 1); (15, 1); (25, 2); (35, 3); (45, 5); (55, 6); (65, 7); (75, 8);
   (85, 8); (95, 9); (105, 11); (115, 11); (125, 12); (135, 14); (145, 14);
   (155, 16); (165, 16); (175, 18); (185, 19); (195, 19); (205, 20);
   (215, 21); (225, 22); (235, 24); (245, 25); (255, 25)].

Definition tenths (v : Z) : Z :=
  let a := Z.abs v in
  Z.sgn v *
  match find (fun p => fst p =? a) rounded_ties with
  | Some p => snd p
  | None => (a + 5) / 10
  end.

(** The binary64 number of [k] tenths; no tenths of a negative [v] is the
    negative zero. *)
Definition tenth (v k : Z) : spec_float :=
  if k =? 0 then S754_zero (v <? 0) else Float.ratio k 10.

Definition same_float (a b : spec_float) : bool :=
  match a, b with
  | S754_zero s, S754_zero s' => Bool.eqb s s'
  | S754_infinity s, S754_infinity s' => Bool.eqb s s'
  | S754_nan, S754_nan => true
  | S754_finite s m e, S754_finite s' m' e' =>
      Bool.eqb s s' && Pos.eqb m m' && Z.eqb e e'
  | _, _ => false
  end.

(** [round(v / 100, 1)] is [tenths v] tenths, and that is a nearest
    tenth. *)
Definition rounds_as_listed (v : Z) : bool :=
  same_float (py_round1 (Float.ratio v 100)) (tenth v (tenths v)) &&
  (-5 <=? 10 * tenths v - v) && (10 * tenths v - v <=? 5).

(** The differences of two bytes. *)
Definition byte_differences : list Z :=
  map (fun n => Z.of_nat n - 255) (seq 0 511).

(** An attribute no assignment of the receive path touches. *)
Definition receive_leaves {B} (f : tello -> B) : Prop :=
  (forall v t, f (set_rec_command_id v t) = f t) /\
  (forall v t, f (set_ssid v t) = f t) /\
  (forall v t, f (set_wifi v t) = f t) /\
  (forall v t, f (set_uptime v t) = f t) /\
  (forall v t, f (set_height v t) = f t) /\
  (forall v t, f (set_vx v t) = f t) /\
  (forall v t, f (set_vy v t) = f t) /\
  (forall v t, f (set_vz v t) = f t) /\
  (forall v t, f (set_x v t) = f t) /\
  (forall v t, f (set_y v t) = f t) /\
  (forall v t, f (set_z v t) = f t) /\
  (forall v t, f (set_flytime v t) = f t) /\
  (forall v t, f (set_battery v t) = f t) /\
  (forall v t, f (set_get_command v t) = f t) /\
  (forall v t, f (set_printed v t) = f t).

(** * Properties *)

(** ** Bytes and little-endian digits *)

Lemma Z_of_byte_range (b : byte) : 0 <= Z_of_byte b < 256.
Proof.
  unfold Z_of_byte. pose proof (Byte.to_N_bounded b). lia.
Qed.

Lemma Z_of_byte_of_Z (v : Z) : Z_of_byte (byte_of_Z v) = v mod 256.
Proof.
  unfold Z_of_byte, byte_of_Z.
  pose proof (Z.mod_pos_bound v 256 ltac:(lia)) as Hm.
  destruct (Byte.of_N (Z.to_N (v mod 256))) as [b|] eqn:E.
  - apply Byte.to_of_N in E. rewrite E. lia.
  - apply Byte.of_N_None_iff in E. lia.
Qed.

Lemma byte_of_Z_of_byte (b : byte) : byte_of_Z (Z_of_byte b) = b.
Proof.
  unfold byte_of_Z, Z_of_byte.
  pose proof (Byte.to_N_bounded b).
  rewrite Z.mod_small by lia.
  rewrite N2Z.id, Byte.of_to_N. reflexivity.
Qed.

Lemma is_byte_test (v : Z) : is_byte v -> (0 <=? v) && (v <? 256) = true.
Proof. unfold is_byte. intros. apply andb_true_intro. split; [apply Z.leb_le|apply Z.ltb_lt]; lia. Qed.

Lemma list_of_bytes_map (l : list Z) :
  Forall is_byte l -> list_of_bytes (map byte_of_Z l) = l.
Proof.
  induction 1 as [|v l Hv _ IH]; simpl; [reflexivity|].
  rewrite Z_of_byte_of_Z, Z.mod_small by exact Hv. f_equal. exact IH.
Qed.

Lemma list_of_bytes_is_byte (b : list byte) : Forall is_byte (list_of_bytes b).
Proof.
  induction b; simpl; constructor; [apply Z_of_byte_range|assumption].
Qed.

Lemma bytes_ok (l : list Z) : Forall is_byte l -> bytes l = Ok (map byte_of_Z l).
Proof.
  induction 1 as [|v l Hv _ IH]; simpl; [reflexivity|].
  rewrite (is_byte_test v Hv), IH. reflexivity.
Qed.

Lemma packet_to_binary_ok (l : list Z) :
  Forall is_byte l -> packet_to_binary l = Ok (map byte_of_Z l).
Proof.
  induction 1 as [|v l Hv _ IH]; simpl; [reflexivity|].
  rewrite (is_byte_test v Hv), IH. reflexivity.
Qed.

Lemma to_bytes_2 (v : Z) :
  0 <= v < 65536 ->
  to_bytes v 2 = Ok [byte_of_Z v; byte_of_Z (v / 256)].
Proof.
  intros H. unfold to_bytes.
  replace ((0 <=? v) && (v <? 256 ^ Z.of_nat 2)) with true; [reflexivity|].
  symmetry. apply andb_true_intro. split; [apply Z.leb_le|apply Z.ltb_lt]; simpl; lia.
Qed.

Lemma to_bytes_overflow (v : Z) (n : nat) :
  v < 0 \/ 256 ^ Z.of_nat n <= v -> to_bytes v n = Raise OverflowError.
Proof.
  intros H. unfold to_bytes.
  destruct (0 <=? v) eqn:E1; [|reflexivity].
  destruct (v <? 256 ^ Z.of_nat n) eqn:E2; [|reflexivity].
  apply Z.leb_le in E1. apply Z.ltb_lt in E2. lia.
Qed.

Lemma le_pair (v : Z) :
  0 <= v < 65536 ->
  list_of_bytes [byte_of_Z v; byte_of_Z (v / 256)] = [v mod 256; v / 256].
Proof.
  intros H. simpl. rewrite !Z_of_byte_of_Z.
  rewrite (Z.mod_small (v / 256)); [reflexivity|].
  split; [apply Z.div_pos; lia|apply Z.div_lt_upper_bound; lia].
Qed.

Lemma is_byte_mod (v : Z) : is_byte (v mod 256).
Proof. apply Z.mod_pos_bound. lia. Qed.

Lemma is_byte_div (v : Z) : 0 <= v < 65536 -> is_byte (v / 256).
Proof.
  intros H. split; [apply Z.div_pos; lia|apply Z.div_lt_upper_bound; lia].
Qed.

Lemma le_value_pair (v : Z) : le_value [v mod 256; v / 256] = v.
Proof.
  cbn [le_value]. pose proof (Z.div_mod v 256 ltac:(lia)). lia.
Qed.

(** ** The checksums stay in their registers *)

Lemma lxor_below (n a b : Z) :
  0 <= n -> 0 <= a < 2 ^ n -> 0 <= b < 2 ^ n -> 0 <= Z.lxor a b < 2 ^ n.
Proof.
  intros Hn Ha Hb. split.
  - apply Z.lxor_nonneg. lia.
  - destruct (Z.eq_dec (Z.lxor a b) 0) as [E|E].
    + rewrite E. apply Z.pow_pos_nonneg; lia.
    + assert (0 <= Z.lxor a b) by (apply Z.lxor_nonneg; lia).
      assert (0 < n).
      { destruct (Z.eq_dec n 0) as [->|]; [|lia].
        change (2 ^ 0) with 1 in *.
        assert (a = 0) by lia. assert (b = 0) by lia. subst. now elim E. }
      apply Z.log2_lt_pow2; [lia|].
      pose proof (Z.log2_lxor a b ltac:(lia) ltac:(lia)) as Hl.
      assert (Z.log2 a < n).
      { destruct (Z.eq_dec a 0) as [->|]; [simpl; lia|]. apply Z.log2_lt_pow2; lia. }
      assert (Z.log2 b < n).
      { destruct (Z.eq_dec b 0) as [->|]; [simpl; lia|]. apply Z.log2_lt_pow2; lia. }
      lia.
Qed.

Section CrcRange.

Variables (w rpoly : Z).
Hypothesis Hw : 8 <= w.
Hypothesis Hpoly : 0 <= rpoly < 2 ^ w.

Lemma crc_step_range (c : Z) :
  0 <= c < 2 ^ w -> 0 <= Crc.step rpoly c < 2 ^ w.
Proof.
  intros Hc. unfold Crc.step.
  assert (0 <= Z.shiftr c 1 < 2 ^ w).
  { rewrite Z.shiftr_div_pow2 by lia. change (2 ^ 1) with 2.
    split; [apply Z.div_pos; lia|].
    apply Z.div_lt_upper_bound; lia. }
  destruct (Z.testbit c 0); [apply lxor_below; lia|assumption].
Qed.

Lemma crc_update_range (c : Z) (b : byte) :
  0 <= c < 2 ^ w -> 0 <= Crc.update rpoly c b < 2 ^ w.
Proof.
  intros Hc. unfold Crc.update.
  assert (H0 : 0 <= Z.lxor c (Z_of_byte b) < 2 ^ w).
  { apply lxor_below; [lia|lia|].
    pose proof (Z_of_byte_range b).
    assert (2 ^ 8 <= 2 ^ w) by (apply Z.pow_le_mono_r; lia).
    change (2 ^ 8) with 256 in *. lia. }
  generalize dependent (Z.lxor c (Z_of_byte b)). intros c0 H0.
  simpl. do 8 apply crc_step_range. exact H0.
Qed.

Lemma crc_run_range (data : list byte) (c : Z) :
  0 <= c < 2 ^ w -> 0 <= Crc.run rpoly c data < 2 ^ w.
Proof.
  unfold Crc.run. revert c.
  induction data as [|b data IH]; intros c Hc; simpl; [exact Hc|].
  apply IH. apply crc_update_range. exact Hc.
Qed.

End CrcRange.

Lemma CRC8_FUNC_range (data : list byte) : 0 <= CRC8_FUNC data < 256.
Proof.
  change 256 with (2 ^ 8). apply crc_run_range; simpl; lia.
Qed.

Lemma CRC16_FUNC_range (data : list byte) : 0 <= CRC16_FUNC data < 65536.
Proof.
  change 65536 with (2 ^ 16). apply crc_run_range; simpl; lia.
Qed.

(** ** Python indexing and slicing on lists of known length *)

Lemma len_cons {A} (a : A) (l : list A) : Py.len (a :: l) = 1 + Py.len l.
Proof. unfold Py.len. simpl length. lia. Qed.

Lemma len_app {A} (l1 l2 : list A) : Py.len (l1 ++ l2) = Py.len l1 + Py.len l2.
Proof. unfold Py.len. rewrite length_app. lia. Qed.

Lemma len_nil {A} : Py.len (@nil A) = 0.
Proof. reflexivity. Qed.

Lemma len_repeat {A} (a : A) (n : nat) : Py.len (repeat a n) = Z.of_nat n.
Proof. unfold Py.len. now rewrite repeat_length. Qed.

Lemma len_nonneg {A} (l : list A) : 0 <= Py.len l.
Proof. unfold Py.len. lia. Qed.

Create Rewrite HintDb pylen.
#[local] Hint Rewrite @len_cons @len_app @len_nil @len_repeat : pylen.

Lemma index_nonneg (n i : Z) : 0 <= i < n -> Py.index n i = Some (Z.to_nat i).
Proof.
  intros H. unfold Py.index.
  destruct (Z.leb_spec 0 i); [|lia]. destruct (Z.ltb_spec i n); [reflexivity|lia].
Qed.

Lemma index_beyond (n i : Z) : 0 <= n <= i -> Py.index n i = None.
Proof.
  intros H. unfold Py.index.
  destruct (Z.leb_spec 0 i); [|lia]. destruct (Z.ltb_spec i n); [lia|reflexivity].
Qed.

Lemma getitem_nth {A} (l : list A) (i : Z) (a : A) :
  0 <= i -> nth_error l (Z.to_nat i) = Some a -> Py.getitem l i = Ok a.
Proof.
  intros Hi Hn. unfold Py.getitem.
  assert (Z.to_nat i < length l)%nat by (apply nth_error_Some; congruence).
  rewrite index_nonneg by (unfold Py.len; lia). now rewrite Hn.
Qed.

Lemma getitem_beyond {A} (l : list A) (i : Z) :
  Py.len l <= i -> Py.getitem l i = Raise IndexError.
Proof.
  intros H. unfold Py.getitem. pose proof (len_nonneg l).
  now rewrite index_beyond by lia.
Qed.

Lemma getitem_inv {A} (l : list A) (i : Z) (a : A) :
  0 <= i -> Py.getitem l i = Ok a -> nth_error l (Z.to_nat i) = Some a.
Proof.
  intros Hi. unfold Py.getitem, Py.index.
  destruct (Z.leb_spec 0 i); [|lia].
  destruct (i <? Py.len l); [|discriminate].
  destruct (nth_error l (Z.to_nat i)); [congruence|discriminate].
Qed.

Lemma setitem_ok {A} (l : list A) (i : Z) (v : A) :
  0 <= i < Py.len l ->
  Py.setitem l i v = Ok (firstn (Z.to_nat i) l ++ v :: skipn (S (Z.to_nat i)) l).
Proof.
  intros H. unfold Py.setitem. now rewrite index_nonneg.
Qed.

Lemma clamp_nonneg (n i : Z) : 0 <= i <= n -> Py.clamp n i = Z.to_nat i.
Proof.
  intros H. unfold Py.clamp. destruct (Z.ltb_spec i 0); [lia|].
  now rewrite Z.min_l by lia.
Qed.

Lemma clamp_beyond (n i : Z) : 0 <= n <= i -> Py.clamp n i = Z.to_nat n.
Proof.
  intros H. unfold Py.clamp. destruct (Z.ltb_spec i 0); [lia|].
  now rewrite Z.min_r by lia.
Qed.

Lemma clamp_neg (n i : Z) : i < 0 -> 0 <= n + i -> Py.clamp n i = Z.to_nat (n + i).
Proof.
  intros H1 H2. unfold Py.clamp. destruct (Z.ltb_spec i 0); [|lia].
  now rewrite Z.max_r by lia.
Qed.

Lemma clamp_neg_low (n i : Z) : i < 0 -> n + i <= 0 -> Py.clamp n i = 0%nat.
Proof.
  intros H1 H2. unfold Py.clamp. destruct (Z.ltb_spec i 0); [|lia].
  now rewrite Z.max_l by lia.
Qed.

Lemma setslice_mid {A} (l v : list A) (i j : Z) :
  0 <= i <= j -> j <= Py.len l ->
  Py.setslice l (Some i) (Some j) v =
  firstn (Z.to_nat i) l ++ v ++ skipn (Z.to_nat j) l.
Proof.
  intros H1 H2. unfold Py.setslice, Py.lower, Py.upper.
  rewrite !clamp_nonneg by lia. now rewrite Nat.max_r by lia.
Qed.

Lemma setslice_upto {A} (l v : list A) (i k : Z) (m : nat) :
  0 <= i -> k < 0 -> Py.len l + k = Z.of_nat m -> i <= Z.of_nat m ->
  Py.setslice l (Some i) (Some k) v = firstn (Z.to_nat i) l ++ v ++ skipn m l.
Proof.
  intros H1 H2 H3 H4. unfold Py.setslice, Py.lower, Py.upper.
  rewrite (clamp_nonneg _ i), (clamp_neg _ k) by lia.
  rewrite H3, Nat2Z.id. now rewrite Nat.max_r by lia.
Qed.

Lemma setslice_last {A} (l v : list A) (k : Z) (m : nat) :
  k < 0 -> Py.len l + k = Z.of_nat m ->
  Py.setslice l (Some k) None v = firstn m l ++ v.
Proof.
  intros H1 H2. unfold Py.setslice, Py.lower, Py.upper.
  rewrite clamp_neg by lia. rewrite H2, Nat2Z.id.
  rewrite Nat.max_r by (unfold Py.len in *; lia).
  unfold Py.len. rewrite Nat2Z.id, skipn_all. now rewrite app_nil_r.
Qed.

Lemma setslice_from {A} (l v : list A) (i : Z) :
  0 <= i <= Py.len l ->
  Py.setslice l (Some i) None v = firstn (Z.to_nat i) l ++ v.
Proof.
  intros H. unfold Py.setslice, Py.lower, Py.upper.
  rewrite clamp_nonneg by lia. rewrite Nat.max_r by lia.
  unfold Py.len. rewrite Nat2Z.id, skipn_all. now rewrite app_nil_r.
Qed.

Lemma setslice_to {A} (l v : list A) (j : Z) :
  0 <= j <= Py.len l ->
  Py.setslice l None (Some j) v = v ++ skipn (Z.to_nat j) l.
Proof.
  intros H. unfold Py.setslice, Py.lower, Py.upper.
  rewrite clamp_nonneg by lia. now rewrite Nat.max_r by lia.
Qed.

Lemma slice_to {A} (l : list A) (j : Z) :
  0 <= j <= Py.len l -> Py.slice l (Some 0) (Some j) = firstn (Z.to_nat j) l.
Proof.
  intros H. unfold Py.slice, Py.lower, Py.upper.
  rewrite !clamp_nonneg by lia. simpl. now rewrite Nat.sub_0_r.
Qed.

Lemma slice_mid {A} (l : list A) (i j : Z) :
  0 <= i <= j -> j <= Py.len l ->
  Py.slice l (Some i) (Some j) = firstn (Z.to_nat j - Z.to_nat i) (skipn (Z.to_nat i) l).
Proof.
  intros H1 H2. unfold Py.slice, Py.lower, Py.upper.
  now rewrite !clamp_nonneg by lia.
Qed.

Lemma slice_upto {A} (l : list A) (i k : Z) (m : nat) :
  0 <= i -> k < 0 -> Py.len l + k = Z.of_nat m -> i <= Z.of_nat m ->
  Py.slice l (Some i) (Some k) = firstn (m - Z.to_nat i) (skipn (Z.to_nat i) l).
Proof.
  intros H1 H2 H3 H4. unfold Py.slice, Py.lower, Py.upper.
  rewrite (clamp_nonneg _ i), (clamp_neg _ k) by lia.
  now rewrite H3, Nat2Z.id.
Qed.

Lemma slice_last {A} (l : list A) (k : Z) (m : nat) :
  k < 0 -> Py.len l + k = Z.of_nat m ->
  Py.slice l (Some k) None = skipn m l.
Proof.
  intros H1 H2. unfold Py.slice, Py.lower, Py.upper.
  rewrite clamp_neg by lia. rewrite H2, Nat2Z.id.
  apply firstn_all2. rewrite length_skipn. unfold Py.len. lia.
Qed.

Lemma repeat_frame (n : nat) :
  repeat 0 (Z.to_nat (11 + Z.of_nat n)) =
  [0; 0; 0; 0; 0; 0; 0; 0; 0] ++ repeat 0 n ++ [0; 0].
Proof.
  replace (Z.to_nat (11 + Z.of_nat n)) with (9 + (n + 2))%nat by lia.
  rewrite !repeat_app. reflexivity.
Qed.

Ltac len_tac := autorewrite with pylen; try unfold Py.len; lia.

(** Closed positions become numerals, then [firstn] and [skipn] run. *)
Ltac positions :=
  repeat match goal with
    | |- context [Z.to_nat ?c] =>
        lazymatch c with
        | Z0 => idtac
        | Zpos ?p => idtac
        end;
        let k := eval compute in (Z.to_nat c) in
        change (Z.to_nat c) with k
    end;
  cbn [firstn skipn app Nat.add Nat.sub].

Lemma build_packet_frame (pac_type cmd_id seq_id : Z) (data : list Z) :
  encodable pac_type cmd_id seq_id data ->
  build_packet pac_type cmd_id seq_id data =
  Ok (Wire.frame pac_type cmd_id seq_id data).
Proof.
  intros [Hty Hid Hseq Hdata Hlen].
  unfold build_packet, Wire.frame.
  set (n := length data). assert (Hn : Py.len data = Z.of_nat n) by reflexivity.
  rewrite Hn in *. rewrite repeat_frame.
  set (s := Z.shiftl (11 + Z.of_nat n) 3).
  assert (Hs : 0 <= s < 65536).
  { unfold s. rewrite Z.shiftl_mul_pow2 by lia. change (2 ^ 3) with 8. lia. }
  rewrite setitem_ok by len_tac. cbn [bind]. positions.
  rewrite (to_bytes_2 s Hs). cbn [bind]. rewrite (le_pair s Hs).
  rewrite (setslice_mid _ _ 1 3) by len_tac. positions.
  rewrite (slice_to _ 3) by len_tac. positions.
  rewrite bytes_ok.
  2: { repeat apply Forall_cons; try apply Forall_nil;
       [unfold is_byte; lia|apply is_byte_mod|now apply is_byte_div]. }
  cbn [bind]. set (c8 := CRC8_FUNC _).
  rewrite (setitem_ok _ 3) by len_tac. cbn [bind]. positions.
  rewrite (setitem_ok _ 4) by len_tac. cbn [bind]. positions.
  rewrite (to_bytes_2 cmd_id Hid). cbn [bind]. rewrite (le_pair cmd_id Hid).
  rewrite (setslice_mid _ _ 5 7) by len_tac. positions.
  rewrite (to_bytes_2 seq_id Hseq). cbn [bind]. rewrite (le_pair seq_id Hseq).
  rewrite (setslice_mid _ _ 7 9) by len_tac. positions.
  rewrite (setslice_upto _ _ 9 (-2) (9 + n)) by len_tac. positions.
  rewrite (skipn_app n), repeat_length, Nat.sub_diag, skipn_all2
    by (rewrite repeat_length; lia).
  cbn [skipn app].
  rewrite (slice_upto _ 0 (-2) (9 + n)) by len_tac. positions.
  assert (Hfn : firstn n (data ++ [0; 0]) = data).
  { rewrite firstn_app. subst n. rewrite Nat.sub_diag, firstn_all.
    apply app_nil_r. }
  rewrite Hfn.
  rewrite bytes_ok.
  2: { repeat apply Forall_cons; try assumption;
       [unfold is_byte; lia|apply is_byte_mod|now apply is_byte_div
       |apply CRC8_FUNC_range|apply is_byte_mod|now apply is_byte_div
       |apply is_byte_mod|now apply is_byte_div]. }
  cbn [bind]. set (c16 := CRC16_FUNC _).
  pose proof (CRC16_FUNC_range
    (map byte_of_Z (204 :: s mod 256 :: s / 256 :: c8 :: pac_type
       :: cmd_id mod 256 :: cmd_id / 256 :: seq_id mod 256 :: seq_id / 256
       :: data))) as Hc16.
  fold c16 in Hc16.
  rewrite (to_bytes_2 c16 Hc16). cbn [bind]. rewrite (le_pair c16 Hc16).
  rewrite (setslice_last _ _ (-2) (9 + n)) by len_tac. positions.
  rewrite Hfn. reflexivity.
Qed.

Lemma firstn_length_app {A} (l1 l2 : list A) : firstn (length l1) (l1 ++ l2) = l1.
Proof.
  rewrite firstn_app, Nat.sub_diag, firstn_all. apply app_nil_r.
Qed.

Lemma skipn_length_app {A} (l1 l2 : list A) : skipn (length l1) (l1 ++ l2) = l2.
Proof.
  rewrite skipn_app, Nat.sub_diag, skipn_all. reflexivity.
Qed.

Section FrameFacts.

Variables (pac_type cmd_id seq_id : Z) (data : list Z).
Hypothesis Henc : encodable pac_type cmd_id seq_id data.

Let s := Z.shiftl (11 + Py.len data) 3.
Let hdr := map byte_of_Z [0xcc; s mod 256; s / 256].
Let c8 := CRC8_FUNC hdr.
Let body := [0xcc; s mod 256; s / 256; c8; pac_type; cmd_id mod 256;
             cmd_id / 256; seq_id mod 256; seq_id / 256] ++ data.
Let c16 := CRC16_FUNC (map byte_of_Z body).
Let packet := Wire.frame pac_type cmd_id seq_id data.

Lemma frame_shape : packet = body ++ le16 c16.
Proof. reflexivity. Qed.

Lemma frame_length : Py.len packet = 11 + Py.len data.
Proof. rewrite frame_shape. unfold body, le16. len_tac. Qed.

Lemma frame_s_range : 0 <= s < 65536.
Proof.
  destruct Henc. unfold s. pose proof (len_nonneg data).
  rewrite Z.shiftl_mul_pow2 by lia. change (2 ^ 3) with 8. lia.
Qed.

Lemma frame_is_bytes : Forall is_byte packet.
Proof.
  destruct Henc. pose proof frame_s_range.
  rewrite frame_shape. apply Forall_app. split.
  - unfold body. apply Forall_app. split; [|assumption].
    repeat apply Forall_cons; try apply Forall_nil;
      try apply is_byte_mod; try (now apply is_byte_div);
      [unfold is_byte; lia|apply CRC8_FUNC_range|assumption].
  - unfold le16. repeat apply Forall_cons; try apply Forall_nil;
      [apply is_byte_mod|apply is_byte_div, CRC16_FUNC_range].
Qed.

Lemma frame_body : Py.slice packet (Some 0) (Some (-2)) = body.
Proof.
  rewrite (slice_upto _ 0 (-2) (length body)).
  - rewrite Nat.sub_0_r. cbn [Z.to_nat skipn]. rewrite frame_shape.
    apply firstn_length_app.
  - lia.
  - lia.
  - rewrite frame_shape. unfold le16. autorewrite with pylen. unfold Py.len. lia.
  - lia.
Qed.

Lemma frame_trailer : Py.slice packet (Some (-2)) None = le16 c16.
Proof.
  rewrite (slice_last _ (-2) (length body)).
  - rewrite frame_shape. apply skipn_length_app.
  - lia.
  - rewrite frame_shape. unfold le16. autorewrite with pylen. unfold Py.len. lia.
Qed.

Lemma frame_payload : Py.slice packet (Some 9) (Some (-2)) = data.
Proof.
  rewrite (slice_upto _ 9 (-2) (9 + length data)).
  - replace (9 + length data - Z.to_nat 9)%nat with (length data) by lia.
    change (Z.to_nat 9) with 9%nat. unfold packet, Wire.frame.
    cbn [app skipn]. apply firstn_length_app.
  - lia.
  - lia.
  - rewrite frame_length. unfold Py.len. lia.
  - lia.
Qed.

Lemma frame_binary :
  packet_to_binary packet = Ok (map byte_of_Z body ++ map byte_of_Z (le16 c16)).
Proof.
  rewrite (packet_to_binary_ok _ frame_is_bytes), frame_shape.
  now rewrite map_app.
Qed.

Lemma frame_authentic :
  Wire.authentic (map byte_of_Z body ++ map byte_of_Z (le16 c16)) = true.
Proof.
  unfold Wire.authentic. rewrite !andb_true_iff. repeat split.
  - apply Z.leb_le. unfold Py.len, body.
    rewrite length_app, !length_map, length_app. cbn [length le16]. lia.
  - unfold Wire.crc8_valid, body. cbn [map app nth_error firstn].
    rewrite Z_of_byte_of_Z, Z.mod_small by apply CRC8_FUNC_range.
    apply Z.eqb_refl.
  - unfold Wire.crc16_valid.
    replace (length (map byte_of_Z body ++ map byte_of_Z (le16 c16)) - 2)%nat
      with (length (map byte_of_Z body))
      by (rewrite length_app; cbn [le16 map length]; lia).
    rewrite skipn_length_app, firstn_length_app. cbn [le16 map].
    rewrite !Z_of_byte_of_Z.
    pose proof (CRC16_FUNC_range (map byte_of_Z body)) as Hr. fold c16 in Hr.
    rewrite Z.mod_mod by lia.
    rewrite (Z.mod_small (c16 / 256)) by (apply is_byte_div; exact Hr).
    apply Z.eqb_eq. pose proof (Z.div_mod c16 256 ltac:(lia)). lia.
Qed.

End FrameFacts.

(** ** The encoder *)

(** C1: on every encodable input [build_packet] returns a frame of
    [11 + len(payload)] bytes: byte 0 is [0xCC], bytes 1-2 the length
    shifted left by 3, low byte first, byte 3 the CRC8 of bytes 0-2, byte 4
    the packet type, bytes 5-6 the command id, bytes 7-8 the sequence
    number, both low byte first, then the payload, and in the last two bytes
    the CRC16 of everything before them, low byte first; both checksums of
    the transmitted bytes validate. *)
Theorem build_packet_layout (pac_type cmd_id seq_id : Z) (data : list Z) :
  encodable pac_type cmd_id seq_id data ->
  exists packet hdr body wire,
    build_packet pac_type cmd_id seq_id data = Ok packet /\
    Py.len packet = 11 + Py.len data /\
    Py.getitem packet 0 = Ok 0xcc /\
    Py.slice packet (Some 1) (Some 3) = le16 (Z.shiftl (Py.len packet) 3) /\
    bytes (Py.slice packet (Some 0) (Some 3)) = Ok hdr /\
    Py.getitem packet 3 = Ok (CRC8_FUNC hdr) /\
    Py.getitem packet 4 = Ok pac_type /\
    Py.slice packet (Some 5) (Some 7) = le16 cmd_id /\
    Py.slice packet (Some 7) (Some 9) = le16 seq_id /\
    Py.slice packet (Some 9) (Some (-2)) = data /\
    bytes (Py.slice packet (Some 0) (Some (-2))) = Ok body /\
    Py.slice packet (Some (-2)) None = le16 (CRC16_FUNC body) /\
    packet_to_binary packet = Ok wire /\
    Wire.authentic wire = true.
Proof.
  intros Henc.
  pose proof (frame_length pac_type cmd_id seq_id data) as Hlen.
  pose proof (frame_s_range _ _ _ _ Henc) as Hs.
  pose proof (frame_is_bytes _ _ _ _ Henc) as Hbytes.
  set (s := Z.shiftl (11 + Py.len data) 3) in *.
  set (hdr := [0xcc; s mod 256; s / 256]).
  eexists (Wire.frame pac_type cmd_id seq_id data), (map byte_of_Z hdr), _, _.
  split; [apply build_packet_frame; exact Henc|].
  split; [exact Hlen|].
  assert (Hmid : forall i j, 0 <= i <= j -> j <= 9 ->
            Py.slice (Wire.frame pac_type cmd_id seq_id data) (Some i) (Some j) =
            firstn (Z.to_nat j - Z.to_nat i)
              (skipn (Z.to_nat i) (Wire.frame pac_type cmd_id seq_id data))).
  { intros i j Hi Hj. apply slice_mid; [lia|]. rewrite Hlen.
    pose proof (len_nonneg data). lia. }
  split; [apply getitem_nth; [lia|reflexivity]|].
  split; [rewrite Hlen, Hmid by lia; reflexivity|].
  split.
  { rewrite Hmid by lia. apply bytes_ok.
    repeat apply Forall_cons; try apply Forall_nil;
      [unfold is_byte; lia|apply is_byte_mod|now apply is_byte_div]. }
  split; [apply getitem_nth; [lia|reflexivity]|].
  split; [apply getitem_nth; [lia|reflexivity]|].
  split; [rewrite Hmid by lia; reflexivity|].
  split; [rewrite Hmid by lia; reflexivity|].
  split; [apply (frame_payload pac_type cmd_id seq_id data)|].
  split.
  { rewrite (frame_body pac_type cmd_id seq_id data). apply bytes_ok.
    apply Forall_app in Hbytes. exact (proj1 Hbytes). }
  split; [apply (frame_trailer pac_type cmd_id seq_id data)|].
  split; [apply (frame_binary _ _ _ _ Henc)|].
  apply (frame_authentic pac_type cmd_id seq_id data).
Qed.

(** An instance: the landing frame with sequence number 7. *)
Lemma build_packet_layout_witness :
  exists packet hdr body wire,
    build_packet 0x68 85 7 [0x00] = Ok packet /\
    Py.len packet = 11 + Py.len [0x00] /\
    Py.getitem packet 0 = Ok 0xcc /\
    Py.slice packet (Some 1) (Some 3) = le16 (Z.shiftl (Py.len packet) 3) /\
    bytes (Py.slice packet (Some 0) (Some 3)) = Ok hdr /\
    Py.getitem packet 3 = Ok (CRC8_FUNC hdr) /\
    Py.getitem packet 4 = Ok 0x68 /\
    Py.slice packet (Some 5) (Some 7) = le16 85 /\
    Py.slice packet (Some 7) (Some 9) = le16 7 /\
    Py.slice packet (Some 9) (Some (-2)) = [0x00] /\
    bytes (Py.slice packet (Some 0) (Some (-2))) = Ok body /\
    Py.slice packet (Some (-2)) None = le16 (CRC16_FUNC body) /\
    packet_to_binary packet = Ok wire /\
    Wire.authentic wire = true.
Proof.
  apply (build_packet_layout 0x68 85 7 [0x00]).
  split.
  - unfold is_byte. lia.
  - lia.
  - lia.
  - apply Forall_cons; [unfold is_byte; lia|apply Forall_nil].
  - vm_compute. discriminate.
Defined.

(** The take-off and landing frames of the protocol, byte for byte. *)
Example build_packet_takeoff :
  build_packet 0x68 84 0x01e4 [] =
  Ok [0xcc; 0x58; 0x00; 0x7c; 0x68; 0x54; 0x00; 0xe4; 0x01; 0xc2; 0x16].
Proof. vm_compute. reflexivity. Qed.

Example build_packet_land :
  build_packet 0x68 85 0x01e5 [0x00] =
  Ok [0xcc; 0x60; 0x00; 0x27; 0x68; 0x55; 0x00; 0xe5; 0x01; 0x00; 0xba; 0xc7].
Proof. vm_compute. reflexivity. Qed.

(** ** Binary64 rounding: results stay where their inputs put them *)

Module FloatFacts.

Import Float.

Lemma digits2_size (p : positive) : digits2_pos p = Pos.size p.
Proof. induction p; simpl; congruence. Qed.

Lemma digits2_lower (p : positive) : 2 ^ Zpos (digits2_pos p) <= 2 * Zpos p.
Proof.
  rewrite digits2_size. pose proof (Pos.size_le p) as H.
  apply Pos2Z.pos_le_pos in H. rewrite Pos2Z.inj_pow in H. exact H.
Qed.

Lemma digits2_upper (p : positive) : Zpos p < 2 ^ Zpos (digits2_pos p).
Proof.
  rewrite digits2_size. pose proof (Pos.size_gt p) as H.
  apply Pos2Z.pos_lt_pos in H. rewrite Pos2Z.inj_pow in H. exact H.
Qed.

Lemma Zdigits2_le (m B : Z) : 0 <= m < 2 ^ B -> 0 <= B -> Zdigits2 m <= B.
Proof.
  intros Hm HB. destruct m as [|p|p]; simpl; [assumption| |lia].
  pose proof (digits2_lower p) as H.
  assert (2 ^ Zpos (digits2_pos p) < 2 ^ (B + 1)).
  { rewrite Z.pow_add_r by lia. change (2 ^ 1) with 2. lia. }
  apply Z.pow_lt_mono_r_iff in H0; lia.
Qed.

Lemma iter_pos_invariant {A} (P : A -> Prop) (f : A -> A) :
  (forall a, P a -> P (f a)) -> forall p a, P a -> P (iter_pos f p a).
Proof.
  intros Hf. induction p; intros a Ha; simpl; auto.
Qed.

Lemma shr_1_below (M : Z) (r : shr_record) :
  0 <= shr_m r <= M -> 0 <= shr_m (shr_1 r) <= M.
Proof.
  destruct r as [m r s]. simpl.
  destruct m as [|[p|p|]|[p|p|]]; simpl; lia.
Qed.

Lemma shr_below (r : shr_record) (e n : Z) :
  0 <= shr_m r ->
  0 <= shr_m (fst (shr r e n)) <= shr_m r /\
  snd (shr r e n) = Z.max e (e + n).
Proof.
  intros H. unfold shr. destruct n as [|p|p]; simpl.
  - split; lia.
  - split; [|lia].
    apply (iter_pos_invariant (fun a => 0 <= shr_m a <= shr_m r)); [|lia].
    intros a. apply shr_1_below.
  - split; lia.
Qed.

Lemma shr_m_of_loc (m : Z) (l : location) : shr_m (shr_record_of_loc m l) = m.
Proof. destruct l as [|[]]; reflexivity. Qed.

Lemma shr_fexp_below (m e : Z) (l : location) :
  0 <= m ->
  0 <= shr_m (fst (shr_fexp prec emax m e l)) <= m /\
  snd (shr_fexp prec emax m e l) = Z.max e (fexp prec emax (Zdigits2 m + e)).
Proof.
  intros H. unfold shr_fexp.
  destruct (shr_below (shr_record_of_loc m l) e
              (fexp prec emax (Zdigits2 m + e) - e)) as [H1 H2].
  - now rewrite shr_m_of_loc.
  - rewrite shr_m_of_loc in H1. split; [exact H1|]. rewrite H2. f_equal. lia.
Qed.

Lemma round_nearest_even_below (m : Z) (l : location) :
  m <= round_nearest_even m l <= m + 1.
Proof.
  destruct l as [|[]]; simpl; try lia. destruct (Z.even m); lia.
Qed.

(** A mantissa below [2^B] at an exponent below [E1] rounds to zero or to
    a finite number whose mantissa has grown by at most one and whose
    exponent is bounded. *)
Lemma binary_round_aux_bounded (sx : bool) (mx ex : Z) (lx : location)
      (B E1 E2 : Z) :
  0 <= B -> 0 <= mx -> mx + 1 < 2 ^ B ->
  ex <= E1 -> fexp prec emax (B + ex) <= E1 ->
  E1 <= E2 -> fexp prec emax (B + E1) <= E2 -> E2 <= emax - prec ->
  binary_round_aux prec emax sx mx ex lx = S754_zero sx \/
  exists m e,
    binary_round_aux prec emax sx mx ex lx = S754_finite sx m e /\
    Zpos m <= mx + 1 /\ e <= E2.
Proof.
  intros HB Hmx HmB Hex HE1 H12 HE2 Hmax.
  unfold binary_round_aux.
  destruct (shr_fexp_below mx ex lx Hmx) as [Ha Hb].
  destruct (shr_fexp prec emax mx ex lx) as [mrs' e'] eqn:E. simpl in Ha, Hb.
  pose proof (round_nearest_even_below (shr_m mrs') (loc_of_shr_record mrs')) as Hr.
  set (m2 := round_nearest_even (shr_m mrs') (loc_of_shr_record mrs')) in *.
  destruct (shr_fexp_below m2 e' loc_Exact ltac:(lia)) as [Hc Hd].
  destruct (shr_fexp prec emax m2 e' loc_Exact) as [mrs'' e''] eqn:E'.
  simpl in Hc, Hd.
  assert (Zdigits2 mx <= B) by (apply Zdigits2_le; lia).
  assert (Zdigits2 m2 <= B) by (apply Zdigits2_le; lia).
  assert (He' : e' <= E1).
  { rewrite Hb. unfold fexp in *. lia. }
  assert (He'' : e'' <= E2).
  { rewrite Hd. unfold fexp in *. lia. }
  destruct (shr_m mrs'') as [|m|m] eqn:Em; [left; reflexivity| |lia].
  right. exists m, e''.
  replace (e'' <=? emax - prec) with true by (symmetry; apply Z.leb_le; lia).
  repeat split; lia.
Qed.

(** Dividing a number below [2^20] by 1000. *)
Lemma ratio_1000 (p : positive) :
  Zpos p < 2 ^ 20 ->
  ratio (Zpos p) 1000 = S754_zero false \/
  exists m e,
    ratio (Zpos p) 1000 = S754_finite false m e /\
    Zpos m <= 2 ^ 54 /\ e <= -41.
Proof.
  intros Hp. unfold ratio, div, exact, SFdiv, SFdiv_core_binary.
  change (Zdigits2 1000) with 10. cbn [Zdigits2 xorb].
  pose proof (digits2_lower p) as Hlo.
  pose proof (digits2_upper p) as Hup.
  set (d := Zpos (digits2_pos p)) in *.
  assert (Hd : 1 <= d <= 20).
  { split; [unfold d; lia|].
    assert (2 ^ d < 2 ^ 21) by (change (2 ^ 21) with (2 * 2 ^ 20); lia).
    apply Z.pow_lt_mono_r_iff in H; lia. }
  replace (Z.min (fexp prec emax (d + 0 - (10 + 0))) (0 - 0)) with (d - 63)
    by (unfold fexp, emin, prec, emax; lia).
  replace (0 - 0 - (d - 63)) with (63 - d) by lia.
  destruct (63 - d) as [|k|k] eqn:Ek; try lia.
  rewrite Z.shiftl_mul_pow2 by lia.
  pose proof (Z_div_mod (Zpos p * 2 ^ Zpos k) 1000 ltac:(lia)) as Hdm.
  destruct (Z.div_eucl (Zpos p * 2 ^ Zpos k) 1000) as [q r].
  destruct Hdm as [Hq Hr].
  assert (Hpk : Zpos p * 2 ^ Zpos k < 2 ^ 63).
  { replace 63 with (d + Zpos k) by lia. rewrite Z.pow_add_r by lia.
    apply Z.mul_lt_mono_pos_r; [apply Z.pow_pos_nonneg; lia|exact Hup]. }
  assert (0 < 2 ^ Zpos k) by (apply Z.pow_pos_nonneg; lia).
  change (2 ^ 63) with 9223372036854775808 in Hpk.
  assert (Hq0 : 0 <= q) by nia.
  assert (Hq1 : q + 1 < 2 ^ 54) by (change (2 ^ 54) with 18014398509481984; nia).
  destruct (binary_round_aux_bounded false q (d - 63) (new_location 1000 r)
              54 (-42) (-41)) as [Hz|(m & e & He & Hm & Hexp)];
    try (unfold fexp, emin, prec, emax; lia).
  - left. exact Hz.
  - right. exists m, e. repeat split; [exact He|lia|exact Hexp].
Qed.

Lemma nearest_int_bounds (m : positive) (e : Z) :
  e < 0 ->
  Zpos m / 2 ^ (- e) <= nearest_int m e <= Zpos m / 2 ^ (- e) + 1.
Proof.
  intros He. destruct e as [|k|k]; try lia.
  unfold nearest_int. change (- Zneg k) with (Zpos k).
  destruct (2 * (Zpos m mod 2 ^ Zpos k) ?= 2 ^ Zpos k); try lia.
  destruct (Z.even (Zpos m / 2 ^ Zpos k)); lia.
Qed.

End FloatFacts.

(** ** The clock reading always serialises *)

Lemma millisecond_ok (us : Z) :
  0 <= us < 1000000 ->
  exists q ms, py_truediv us 1000 = Ok q /\ py_round q = Ok ms /\ 0 <= ms < 65536.
Proof.
  intros Hus. unfold py_truediv. change (1000 =? 0) with false. cbv iota.
  destruct us as [|p|p]; [| |lia].
  - exists (S754_zero false), 0. repeat split; lia.
  - destruct (FloatFacts.ratio_1000 p) as [Hz|(m & e & He & Hm & Hexp)].
    + change (2 ^ 20) with 1048576. lia.
    + rewrite Hz. exists (S754_zero false), 0. repeat split; lia.
    + rewrite He. exists (S754_finite false m e), (Float.nearest_int m e).
      split; [reflexivity|]. split; [reflexivity|].
      pose proof (FloatFacts.nearest_int_bounds m e ltac:(lia)) as Hn.
      assert (0 < 2 ^ (- e)) by (apply Z.pow_pos_nonneg; lia).
      assert (2 ^ 41 <= 2 ^ (- e)) by (apply Z.pow_le_mono_r; lia).
      assert (0 <= Zpos m / 2 ^ (- e)) by (apply Z.div_pos; lia).
      assert (Zpos m / 2 ^ (- e) < 2 ^ 14).
      { apply Z.div_lt_upper_bound; [lia|].
        change (2 ^ 54) with (2 ^ 14 * 2 ^ 40) in Hm.
        change (2 ^ 41) with (2 * 2 ^ 40) in *.
        assert (0 < 2 ^ 40) by (apply Z.pow_pos_nonneg; lia).
        assert (0 < 2 ^ 14) by (apply Z.pow_pos_nonneg; lia).
        nia. }
      change (2 ^ 14) with 16384 in *. lia.
Qed.

Lemma get_current_time_ok (now : datetime) :
  valid_datetime now ->
  exists ms,
    0 <= ms < 65536 /\
    get_current_time now = Ok ([hour now; minute now; second now] ++ le16 ms).
Proof.
  intros [Hh Hm Hs Hus]. unfold get_current_time.
  destruct (millisecond_ok _ Hus) as (q & ms & Hq & Hms & Hr).
  exists ms. split; [exact Hr|].
  rewrite Hq. cbn [bind]. rewrite Hms. cbn [bind].
  rewrite (to_bytes_2 ms Hr). cbn [bind]. now rewrite (le_pair ms Hr).
Qed.

(** ** The stick payload *)

Lemma le_value_digits (n : nat) (v : Z) :
  le_value (list_of_bytes (le_digits n v)) = v mod 256 ^ Z.of_nat n.
Proof.
  revert v. induction n as [|n IH]; intros v.
  - cbn [le_digits list_of_bytes map le_value]. now rewrite Z.mod_1_r.
  - cbn [le_digits list_of_bytes map le_value]. fold (list_of_bytes (le_digits n (v / 256))).
    rewrite IH, Z_of_byte_of_Z, Nat2Z.inj_succ, Z.pow_succ_r by lia.
    assert (0 < 256 ^ Z.of_nat n) by (apply Z.pow_pos_nonneg; lia).
    rewrite (Z.rem_mul_r v 256 (256 ^ Z.of_nat n)) by lia. reflexivity.
Qed.

Lemma le_digits_length (n : nat) (v : Z) : length (le_digits n v) = n.
Proof. revert v. induction n; intros; simpl; congruence. Qed.

(** A little-endian encoding of given length is unique. *)
Lemma le_value_inj (l1 l2 : list Z) :
  length l1 = length l2 -> Forall is_byte l1 -> Forall is_byte l2 ->
  le_value l1 = le_value l2 -> l1 = l2.
Proof.
  revert l2. induction l1 as [|a l1 IH]; intros [|b l2] Hlen H1 H2 Hv;
    try discriminate; [reflexivity|].
  inversion H1 as [|? ? Ha H1']; inversion H2 as [|? ? Hb H2']; subst.
  cbn [le_value] in Hv. unfold is_byte in Ha, Hb.
  assert (a = b) by lia. subst b.
  f_equal. apply IH; [simpl in Hlen; lia|assumption|assumption|lia].
Qed.

(** Fields that do not overlap add up to their bitwise or. *)
Lemma shiftl_add_lor (hi lo k : Z) :
  0 <= k -> 0 <= lo < 2 ^ k -> Z.shiftl hi k + lo = Z.lor (Z.shiftl hi k) lo.
Proof.
  intros Hk Hlo.
  rewrite <- Z.lxor_lor; [apply Z.add_nocarry_lxor|];
    (apply Z.bits_inj'; intros n Hn; rewrite Z.land_spec, Z.bits_0;
     destruct (Z.lt_ge_cases n k) as [Hlt|Hge];
     [rewrite Z.shiftl_spec_low by lia; reflexivity
     |rewrite <- (Z.mod_small lo (2 ^ k)) by lia;
      rewrite Z.mod_pow2_bits_high by lia; apply andb_false_r]).
Qed.

Lemma slice_prefix {A} (l : list A) (j : Z) :
  0 <= j <= Py.len l -> Py.slice l None (Some j) = firstn (Z.to_nat j) l.
Proof.
  intros H. unfold Py.slice, Py.lower, Py.upper.
  rewrite clamp_nonneg by lia. now rewrite Nat.sub_0_r.
Qed.

Lemma stick_data_packed (spd c0 c1 c2 c3 : Z) :
  0 <= spd <= 1 -> is_channel c0 -> is_channel c1 -> is_channel c2 -> is_channel c3 ->
  Z.shiftl spd 44 + Z.shiftl c0 33 + Z.shiftl c1 22 + Z.shiftl c2 11 + c3 =
  packed_sticks spd c0 c1 c2 c3 /\
  0 <= packed_sticks spd c0 c1 c2 c3 < 2 ^ 45.
Proof.
  unfold is_channel, packed_sticks. intros Hs H0 H1 H2 H3.
  assert (E3 : Z.shiftl c2 11 + c3 = Z.lor (Z.shiftl c2 11) c3)
    by (apply shiftl_add_lor; [lia|change (2 ^ 11) with 2048; lia]).
  assert (E2 : Z.shiftl c1 22 + (Z.shiftl c2 11 + c3) =
               Z.lor (Z.shiftl c1 22) (Z.shiftl c2 11 + c3)).
  { apply shiftl_add_lor; [lia|]. rewrite Z.shiftl_mul_pow2 by lia.
    change (2 ^ 11) with 2048. change (2 ^ 22) with 4194304. lia. }
  assert (E1 : Z.shiftl c0 33 + (Z.shiftl c1 22 + (Z.shiftl c2 11 + c3)) =
               Z.lor (Z.shiftl c0 33) (Z.shiftl c1 22 + (Z.shiftl c2 11 + c3))).
  { apply shiftl_add_lor; [lia|]. rewrite !Z.shiftl_mul_pow2 by lia.
    change (2 ^ 11) with 2048. change (2 ^ 22) with 4194304.
    change (2 ^ 33) with 8589934592. lia. }
  assert (E0 : Z.shiftl spd 44 + (Z.shiftl c0 33 + (Z.shiftl c1 22 + (Z.shiftl c2 11 + c3))) =
               Z.lor (Z.shiftl spd 44)
                 (Z.shiftl c0 33 + (Z.shiftl c1 22 + (Z.shiftl c2 11 + c3)))).
  { apply shiftl_add_lor; [lia|]. rewrite !Z.shiftl_mul_pow2 by lia.
    change (2 ^ 11) with 2048. change (2 ^ 22) with 4194304.
    change (2 ^ 33) with 8589934592. change (2 ^ 44) with 17592186044416. lia. }
  rewrite <- !Z.lor_assoc. rewrite <- E3, <- E2, <- E1, <- E0.
  split; [lia|].
  rewrite !Z.shiftl_mul_pow2 by lia.
  change (2 ^ 11) with 2048. change (2 ^ 22) with 4194304.
  change (2 ^ 33) with 8589934592. change (2 ^ 44) with 17592186044416.
  change (2 ^ 45) with 35184372088832. lia.
Qed.

Lemma move_to_ok (spd : Z) (now : datetime) (c0 c1 c2 c3 : Z) (more : list Z) :
  0 <= stick_sum spd c0 c1 c2 c3 < 2 ^ 48 ->
  valid_datetime now ->
  exists ms,
    0 <= ms < 65536 /\
    move_to spd now (c0 :: c1 :: c2 :: c3 :: more) =
    Ok (list_of_bytes (le_digits 6 (stick_sum spd c0 c1 c2 c3)) ++
        [hour now; minute now; second now] ++ le16 ms).
Proof.
  intros Hv Hnow. destruct (get_current_time_ok now Hnow) as (ms & Hms & Ht).
  exists ms. split; [exact Hms|].
  unfold move_to.
  rewrite (getitem_nth _ 0 c0), (getitem_nth _ 1 c1), (getitem_nth _ 2 c2),
    (getitem_nth _ 3 c3) by (reflexivity || lia).
  cbn [bind]. fold (stick_sum spd c0 c1 c2 c3).
  unfold to_bytes. change (256 ^ Z.of_nat 6) with (2 ^ 48).
  replace ((0 <=? stick_sum spd c0 c1 c2 c3) && (stick_sum spd c0 c1 c2 c3 <? 2 ^ 48))
    with true
    by (symmetry; apply andb_true_intro; split; [apply Z.leb_le|apply Z.ltb_lt]; lia).
  cbn [bind]. rewrite Ht. cbn [bind].
  set (b := list_of_bytes (le_digits 6 (stick_sum spd c0 c1 c2 c3))).
  assert (Hb : length b = 6%nat)
    by (unfold b, list_of_bytes; now rewrite length_map, le_digits_length).
  rewrite (setslice_to _ _ 6) by (cbn; lia).
  rewrite (setslice_from _ _ 6)
    by (unfold Py.len; rewrite length_app, Hb; cbn; lia).
  change (Z.to_nat 6) with 6%nat. rewrite <- Hb at 1.
  now rewrite firstn_length_app.
Qed.

Lemma move_to_overflow (spd : Z) (now : datetime) (c0 c1 c2 c3 : Z) (more : list Z) :
  stick_sum spd c0 c1 c2 c3 < 0 \/ 2 ^ 48 <= stick_sum spd c0 c1 c2 c3 ->
  move_to spd now (c0 :: c1 :: c2 :: c3 :: more) = Raise OverflowError.
Proof.
  intros Hv. unfold move_to.
  rewrite (getitem_nth _ 0 c0), (getitem_nth _ 1 c1), (getitem_nth _ 2 c2),
    (getitem_nth _ 3 c3) by (reflexivity || lia).
  cbn [bind]. fold (stick_sum spd c0 c1 c2 c3).
  now rewrite to_bytes_overflow.
Qed.

(** C5: with a speed flag in {0, 1}, four channels in [0, 2047] and a valid
    clock reading, the stick payload has 11 bytes and its first 6 bytes are
    the little-endian encoding, unique among 6-byte lists, of
    [(speed << 44) | (c0 << 33) | (c1 << 22) | (c2 << 11) | c3]; for the
    neutral vector and speed 0 they are [00 04 20 00 01 08]. *)
Theorem stick_payload (spd : Z) (now : datetime) (c0 c1 c2 c3 : Z) :
  0 <= spd <= 1 ->
  is_channel c0 -> is_channel c1 -> is_channel c2 -> is_channel c3 ->
  valid_datetime now ->
  exists data,
    move_to spd now [c0; c1; c2; c3] = Ok data /\
    Py.len data = 11 /\
    Forall is_byte (Py.slice data None (Some 6)) /\
    le_value (Py.slice data None (Some 6)) = packed_sticks spd c0 c1 c2 c3 /\
    (forall l, length l = 6%nat -> Forall is_byte l ->
               le_value l = packed_sticks spd c0 c1 c2 c3 ->
               l = Py.slice data None (Some 6)) /\
    (spd = 0 -> [c0; c1; c2; c3] = default_move ->
     Py.slice data None (Some 6) = [0x00; 0x04; 0x20; 0x00; 0x01; 0x08]).
Proof.
  intros Hs H0 H1 H2 H3 Hnow.
  destruct (stick_data_packed spd c0 c1 c2 c3 Hs H0 H1 H2 H3) as [Hsum Hrange].
  fold (stick_sum spd c0 c1 c2 c3) in Hsum.
  assert (Hfit : 0 <= stick_sum spd c0 c1 c2 c3 < 2 ^ 48).
  { rewrite Hsum. change (2 ^ 45) with 35184372088832 in Hrange.
    change (2 ^ 48) with 281474976710656. lia. }
  destruct (move_to_ok spd now c0 c1 c2 c3 [] Hfit Hnow) as (ms & Hms & Hmove).
  set (b := list_of_bytes (le_digits 6 (stick_sum spd c0 c1 c2 c3))) in *.
  assert (Hb : length b = 6%nat)
    by (unfold b, list_of_bytes; now rewrite length_map, le_digits_length).
  assert (Hpre : Py.slice (b ++ [hour now; minute now; second now] ++ le16 ms)
                   None (Some 6) = b).
  { rewrite slice_prefix by (unfold Py.len; rewrite length_app, Hb; cbn; lia).
    change (Z.to_nat 6) with 6%nat. rewrite <- Hb. apply firstn_length_app. }
  assert (Hval : le_value b = packed_sticks spd c0 c1 c2 c3).
  { unfold b. rewrite le_value_digits. change (256 ^ Z.of_nat 6) with (2 ^ 48).
    rewrite Z.mod_small by exact Hfit. exact Hsum. }
  eexists. split; [exact Hmove|]. rewrite Hpre.
  split; [unfold Py.len; rewrite length_app, Hb; reflexivity|].
  split; [apply list_of_bytes_is_byte|].
  split; [exact Hval|].
  split.
  - intros l Hl Hbytes Hv. apply le_value_inj;
      [congruence|assumption|apply list_of_bytes_is_byte|congruence].
  - intros -> Hdef. injection Hdef as -> -> -> ->. reflexivity.
Qed.

(** An instance: the neutral sticks at 12:30:15.25. *)
Lemma stick_payload_witness :
  exists data,
    move_to 0 (mkDatetime 12 30 15 250000) [1024; 1024; 1024; 1024] = Ok data /\
    Py.len data = 11 /\
    Forall is_byte (Py.slice data None (Some 6)) /\
    le_value (Py.slice data None (Some 6)) = packed_sticks 0 1024 1024 1024 1024 /\
    (forall l, length l = 6%nat -> Forall is_byte l ->
               le_value l = packed_sticks 0 1024 1024 1024 1024 ->
               l = Py.slice data None (Some 6)) /\
    (0 = 0 -> [1024; 1024; 1024; 1024] = default_move ->
     Py.slice data None (Some 6) = [0x00; 0x04; 0x20; 0x00; 0x01; 0x08]).
Proof.
  apply (stick_payload 0 (mkDatetime 12 30 15 250000) 1024 1024 1024 1024).
  - lia.
  - unfold is_channel; lia.
  - unfold is_channel; lia.
  - unfold is_channel; lia.
  - unfold is_channel; lia.
  - split; simpl; lia.
Defined.

(** ** Sending *)

(** A sequence number that does not fit two bytes stops the encoder. *)
Lemma build_packet_seq_overflow (pac_type cmd_id seq_id : Z) (data : list Z) :
  is_byte pac_type -> 0 <= cmd_id < 65536 -> Py.len data <= 8180 ->
  seq_id < 0 \/ 65536 <= seq_id ->
  build_packet pac_type cmd_id seq_id data = Raise OverflowError.
Proof.
  intros Hty Hid Hlen Hseq.
  unfold build_packet.
  set (n := length data). assert (Hn : Py.len data = Z.of_nat n) by reflexivity.
  rewrite Hn in *. rewrite repeat_frame.
  set (s := Z.shiftl (11 + Z.of_nat n) 3).
  assert (Hs : 0 <= s < 65536).
  { unfold s. rewrite Z.shiftl_mul_pow2 by lia. change (2 ^ 3) with 8. lia. }
  rewrite setitem_ok by len_tac. cbn [bind]. positions.
  rewrite (to_bytes_2 s Hs). cbn [bind]. rewrite (le_pair s Hs).
  rewrite (setslice_mid _ _ 1 3) by len_tac. positions.
  rewrite (slice_to _ 3) by len_tac. positions.
  rewrite bytes_ok.
  2: { repeat apply Forall_cons; try apply Forall_nil;
       [unfold is_byte; lia|apply is_byte_mod|now apply is_byte_div]. }
  cbn [bind].
  rewrite (setitem_ok _ 3) by len_tac. cbn [bind]. positions.
  rewrite (setitem_ok _ 4) by len_tac. cbn [bind]. positions.
  rewrite (to_bytes_2 cmd_id Hid). cbn [bind].
  rewrite to_bytes_overflow by (change (256 ^ Z.of_nat 2) with 65536; lia).
  reflexivity.
Qed.

Lemma datagram_fields (pac_type cmd_id seq_id : Z) (data : list Z) :
  encodable pac_type cmd_id seq_id data ->
  wire_type (datagram pac_type cmd_id seq_id data) = Some pac_type /\
  wire_command (datagram pac_type cmd_id seq_id data) = Some cmd_id /\
  wire_sequence (datagram pac_type cmd_id seq_id data) = Some seq_id /\
  list_of_bytes (wire_payload (datagram pac_type cmd_id seq_id data)) = data.
Proof.
  intros [Hty Hid Hseq Hdata Hlen].
  unfold datagram, Wire.frame, wire_type, wire_command, wire_sequence, wire_le16.
  cbn [map app nth_error option_map].
  rewrite !Z_of_byte_of_Z, !Z.mod_mod by lia.
  rewrite (Z.mod_small pac_type) by exact Hty.
  rewrite (Z.mod_small (cmd_id / 256)) by (now apply is_byte_div).
  rewrite (Z.mod_small (seq_id / 256)) by (now apply is_byte_div).
  pose proof (Z.div_mod cmd_id 256 ltac:(lia)).
  pose proof (Z.div_mod seq_id 256 ltac:(lia)).
  repeat split; try (f_equal; lia).
  unfold wire_payload.
  rewrite (slice_upto _ 9 (-2) (9 + length data)).
  - replace (9 + length data - Z.to_nat 9)%nat with (length data) by lia.
    change (Z.to_nat 9) with 9%nat. cbn [skipn]. rewrite map_app.
    rewrite <- (length_map byte_of_Z data), firstn_length_app.
    now apply list_of_bytes_map.
  - lia.
  - lia.
  - unfold Py.len. cbn [length]. rewrite length_map, length_app. cbn [length]. lia.
  - lia.
Qed.

Lemma send_frame (pac_type cmd_id : Z) (data : list Z) (t : tello) :
  encodable pac_type cmd_id (sequence t) data ->
  sock_closed t = false ->
  (packet <~ lift (build_packet pac_type cmd_id (sequence t) data) ;;
   b <~ lift (packet_to_binary packet) ;;
   sendto b ;;;
   modify (fun t => set_sequence (sequence t + 1) t)) t =
  (Ok tt,
   set_sequence (sequence t + 1)
     (set_sock_sent (sock_sent t ++ [datagram pac_type cmd_id (sequence t) data]) t)).
Proof.
  intros Henc Hopen. unfold bindM, lift, modify, sendto.
  rewrite (build_packet_frame _ _ _ _ Henc).
  rewrite (packet_to_binary_ok _ (frame_is_bytes _ _ _ _ Henc)).
  rewrite Hopen. reflexivity.
Qed.

Lemma send_to_non_stick (now : datetime) (cmd : string) (move : list Z) (t : tello) :
  non_stick cmd -> sock_closed t = false -> 0 <= sequence t < 65536 ->
  exists ty id data,
    plain_frame cmd = (ty, id, data) /\
    encodable ty id (sequence t) data /\
    send_to now cmd move t =
    (Ok tt,
     set_sequence (sequence t + 1)
       (set_sock_sent (sock_sent t ++ [datagram ty id (sequence t) data]) t)).
Proof.
  intros Hcmd Hopen Hseq.
  destruct Hcmd as [-> | [-> | ->]];
    cbn [plain_frame String.eqb Ascii.eqb Bool.eqb];
    do 3 eexists; (split; [reflexivity|]);
    (assert (Henc : forall ty id data, is_byte ty -> 0 <= id < 65536 ->
                Forall is_byte data -> Py.len data <= 8180 ->
                encodable ty id (sequence t) data) by (intros; now split));
    (split; [apply Henc; try (unfold is_byte; lia); try (cbn; lia);
             repeat constructor; unfold is_byte; lia|]);
    unfold send_to; cbn [String.eqb Ascii.eqb Bool.eqb];
    unfold bindM at 1 2 3 4; unfold ret at 1; unfold lift at 1 2; unfold gets at 1;
    cbn [dict_get PAC_TYPE_LIST CMD_LIST String.eqb Ascii.eqb Bool.eqb];
    apply send_frame; try assumption;
    (apply Henc; try (unfold is_byte; lia); try (cbn; lia));
    repeat constructor; unfold is_byte; lia.
Qed.

(** Past 65535 the counter no longer fits: the send raises, nothing is
    transmitted and the counter stays. *)
Lemma send_to_non_stick_overflow (now : datetime) (cmd : string) (move : list Z)
      (t : tello) :
  non_stick cmd -> 65536 <= sequence t ->
  send_to now cmd move t = (Raise OverflowError, t).
Proof.
  intros Hcmd Hseq.
  destruct Hcmd as [-> | [-> | ->]];
    unfold send_to; cbn [String.eqb Ascii.eqb Bool.eqb];
    unfold bindM at 1 2 3 4 5; unfold ret at 1; unfold lift at 1 2 3; unfold gets at 1;
    cbn [dict_get PAC_TYPE_LIST CMD_LIST String.eqb Ascii.eqb Bool.eqb];
    rewrite build_packet_seq_overflow;
    try reflexivity; try (unfold is_byte; lia); try (cbn; lia).
Qed.

Lemma stick_data_bytes (v : Z) (now : datetime) (ms : Z) :
  valid_datetime now -> 0 <= ms < 65536 ->
  Forall is_byte
    (list_of_bytes (le_digits 6 v) ++
     [hour now; minute now; second now] ++ le16 ms).
Proof.
  intros [Hh Hm Hs _] Hms. apply Forall_app. split.
  - apply list_of_bytes_is_byte.
  - unfold le16. repeat apply Forall_cons; try apply Forall_nil;
      try (unfold is_byte; lia); [apply is_byte_mod|now apply is_byte_div].
Qed.

Lemma send_to_stick (now : datetime) (c0 c1 c2 c3 : Z) (more : list Z) (t : tello) :
  sock_closed t = false ->
  0 <= stick_sum (speed t) c0 c1 c2 c3 < 2 ^ 48 ->
  valid_datetime now ->
  exists data,
    move_to (speed t) now (c0 :: c1 :: c2 :: c3 :: more) = Ok data /\
    encodable 0x60 80 0 data /\
    send_to now "stick" (c0 :: c1 :: c2 :: c3 :: more) t =
    (Ok tt,
     set_sequence 1
       (set_sock_sent (sock_sent t ++ [datagram 0x60 80 0 data]) t)).
Proof.
  intros Hopen Hfit Hnow.
  destruct (move_to_ok (speed t) now c0 c1 c2 c3 more Hfit Hnow) as (ms & Hms & Hmove).
  set (data := list_of_bytes (le_digits 6 (stick_sum (speed t) c0 c1 c2 c3)) ++
               [hour now; minute now; second now] ++ le16 ms) in *.
  assert (Henc : encodable 0x60 80 0 data).
  { split; [unfold is_byte; lia|lia|lia|now apply stick_data_bytes|].
    unfold data, Py.len, list_of_bytes.
    rewrite length_app, length_map, le_digits_length. cbn. lia. }
  exists data. split; [exact Hmove|]. split; [exact Henc|].
  unfold send_to. cbn [String.eqb Ascii.eqb Bool.eqb].
  unfold bindM at 1 2 3 4 5 6. unfold modify at 1. unfold gets at 1 2. unfold lift at 1 2 3.
  cbn [speed set_sequence]. rewrite Hmove.
  cbn [dict_get PAC_TYPE_LIST CMD_LIST String.eqb Ascii.eqb Bool.eqb sequence].
  pose proof (send_frame 0x60 80 data (set_sequence 0 t)) as Hsend.
  cbn [sequence set_sequence sock_closed sock_sent] in Hsend.
  change (sequence (set_sequence 0 t)) with 0.
  rewrite (Hsend Henc Hopen). reflexivity.
Qed.

Lemma send_to_stick_overflow (now : datetime) (c0 c1 c2 c3 : Z) (more : list Z)
      (t : tello) :
  stick_sum (speed t) c0 c1 c2 c3 < 0 \/ 2 ^ 48 <= stick_sum (speed t) c0 c1 c2 c3 ->
  send_to now "stick" (c0 :: c1 :: c2 :: c3 :: more) t =
  (Raise OverflowError, set_sequence 0 t).
Proof.
  intros Hv. unfold send_to. cbn [String.eqb Ascii.eqb Bool.eqb].
  unfold bindM at 1 2 3. unfold modify at 1. unfold gets at 1. unfold lift at 1.
  cbn [speed set_sequence].
  now rewrite (move_to_overflow (speed t) now c0 c1 c2 c3 more Hv).
Qed.

Lemma sent_after (t : tello) (v : Z) (l : list (list byte)) :
  sock_sent (set_sequence v (set_sock_sent l t)) = l /\
  sequence (set_sequence v (set_sock_sent l t)) = v /\
  sock_closed (set_sequence v (set_sock_sent l t)) = sock_closed t /\
  speed (set_sequence v (set_sock_sent l t)) = speed t.
Proof. repeat split. Qed.

(** C3: the counter of a fresh session is 1 and the handshake's [get_ssid]
    carries 1; a non-stick send carries the counter and leaves it one
    higher, so two in a row carry [n] and [n + 1]; a stick send carries 0
    and leaves the counter at 1, which the next non-stick send carries. *)
Theorem sequence_discipline (now : datetime) (cmd1 cmd2 : string)
        (move1 move2 more : list Z) (c0 c1 c2 c3 : Z) (t : tello) :
  non_stick cmd1 -> non_stick cmd2 ->
  sock_closed t = false ->
  0 <= sequence t < 65535 ->
  0 <= stick_sum (speed t) c0 c1 c2 c3 < 2 ^ 48 ->
  valid_datetime now ->
  sequence fresh = 1 /\
  (exists hello w t0,
     init now = (Ok tt, t0) /\ sock_sent t0 = [hello; w] /\
     wire_sequence w = Some 1 /\ sequence t0 = 2) /\
  (exists w1 w2 t1 t2,
     send_to now cmd1 move1 t = (Ok tt, t1) /\
     sock_sent t1 = sock_sent t ++ [w1] /\
     wire_sequence w1 = Some (sequence t) /\
     sequence t1 = sequence t + 1 /\
     send_to now cmd2 move2 t1 = (Ok tt, t2) /\
     sock_sent t2 = sock_sent t1 ++ [w2] /\
     wire_sequence w2 = Some (sequence t + 1) /\
     sequence t2 = sequence t + 2) /\
  (exists w0 w1 t1 t2,
     send_to now "stick" (c0 :: c1 :: c2 :: c3 :: more) t = (Ok tt, t1) /\
     sock_sent t1 = sock_sent t ++ [w0] /\
     wire_sequence w0 = Some 0 /\
     sequence t1 = 1 /\
     send_to now cmd1 move1 t1 = (Ok tt, t2) /\
     sock_sent t2 = sock_sent t1 ++ [w1] /\
     wire_sequence w1 = Some 1 /\
     sequence t2 = 2).
Proof.
  intros Hc1 Hc2 Hopen Hseq Hfit Hnow.
  split; [reflexivity|]. split.
  { do 3 eexists. split; [vm_compute; reflexivity|].
    split; [reflexivity|]. split; reflexivity. }
  split.
  - destruct (send_to_non_stick now cmd1 move1 t Hc1 Hopen ltac:(lia))
      as (ty1 & id1 & d1 & _ & Henc1 & Hs1).
    set (t1 := set_sequence (sequence t + 1)
                 (set_sock_sent (sock_sent t ++ [datagram ty1 id1 (sequence t) d1]) t)) in *.
    destruct (sent_after t (sequence t + 1)
                (sock_sent t ++ [datagram ty1 id1 (sequence t) d1]))
      as (Hsent1 & Hseq1 & Hcl1 & _).
    fold t1 in Hsent1, Hseq1, Hcl1.
    destruct (send_to_non_stick now cmd2 move2 t1 Hc2 ltac:(congruence) ltac:(lia))
      as (ty2 & id2 & d2 & _ & Henc2 & Hs2).
    destruct (datagram_fields _ _ _ _ Henc1) as (_ & _ & Hw1 & _).
    destruct (datagram_fields _ _ _ _ Henc2) as (_ & _ & Hw2 & _).
    do 4 eexists. split; [exact Hs1|].
    split; [exact Hsent1|]. split; [exact Hw1|]. split; [exact Hseq1|].
    split; [exact Hs2|].
    split; [reflexivity|]. split; [rewrite Hw2; f_equal; lia|].
    cbn [sequence set_sequence]. lia.
  - destruct (send_to_stick now c0 c1 c2 c3 more t Hopen Hfit Hnow)
      as (data & _ & Henc0 & Hs0).
    set (t1 := set_sequence 1
                 (set_sock_sent (sock_sent t ++ [datagram 0x60 80 0 data]) t)) in *.
    destruct (sent_after t 1 (sock_sent t ++ [datagram 0x60 80 0 data]))
      as (Hsent1 & Hseq1 & Hcl1 & _).
    fold t1 in Hsent1, Hseq1, Hcl1.
    destruct (send_to_non_stick now cmd1 move1 t1 Hc1 ltac:(congruence) ltac:(lia))
      as (ty1 & id1 & d1 & _ & Henc1 & Hs1).
    destruct (datagram_fields _ _ _ _ Henc0) as (_ & _ & Hw0 & _).
    destruct (datagram_fields _ _ _ _ Henc1) as (_ & _ & Hw1 & _).
    do 4 eexists. split; [exact Hs0|].
    split; [exact Hsent1|]. split; [exact Hw0|]. split; [exact Hseq1|].
    split; [exact Hs1|].
    split; [reflexivity|]. split; [rewrite Hw1; f_equal; lia|].
    cbn [sequence set_sequence]. lia.
Qed.

(** An instance: a stick send, then a take-off, on a fresh object. *)
Lemma sequence_discipline_witness :
  (non_stick "takeoff" /\ non_stick "land" /\
   sock_closed fresh = false /\ 0 <= sequence fresh < 65535 /\
   0 <= stick_sum (speed fresh) 1024 1024 1024 1024 < 2 ^ 48 /\
   valid_datetime (mkDatetime 9 41 7 123456)) /\
  exists w0 w1 t1 t2,
    send_to (mkDatetime 9 41 7 123456) "stick" [1024; 1024; 1024; 1024] fresh
      = (Ok tt, t1) /\
    sock_sent t1 = sock_sent fresh ++ [w0] /\
    wire_sequence w0 = Some 0 /\
    sequence t1 = 1 /\
    send_to (mkDatetime 9 41 7 123456) "takeoff" [] t1 = (Ok tt, t2) /\
    sock_sent t2 = sock_sent t1 ++ [w1] /\
    wire_sequence w1 = Some 1 /\
    sequence t2 = 2.
Proof.
  assert (H1 : non_stick "takeoff") by (left; reflexivity).
  assert (H2 : non_stick "land") by (right; left; reflexivity).
  assert (H3 : sock_closed fresh = false) by reflexivity.
  assert (H4 : 0 <= sequence fresh < 65535) by (simpl; lia).
  assert (H5 : 0 <= stick_sum (speed fresh) 1024 1024 1024 1024 < 2 ^ 48)
    by (vm_compute; split; [discriminate|reflexivity]).
  assert (H6 : valid_datetime (mkDatetime 9 41 7 123456)) by (split; simpl; lia).
  split; [exact (conj H1 (conj H2 (conj H3 (conj H4 (conj H5 H6)))))|].
  exact (proj2 (proj2 (proj2
    (sequence_discipline (mkDatetime 9 41 7 123456) "takeoff" "land" [] [] []
       1024 1024 1024 1024 fresh H1 H2 H3 H4 H5 H6)))).
Defined.

(** ** Running out of sequence numbers *)

Lemma send_each_counter (now : datetime) (cmds : list string) (t : tello) :
  Forall non_stick cmds -> sock_closed t = false -> 0 <= sequence t <= 65536 ->
  sock_closed (send_each now cmds t) = false /\
  sequence (send_each now cmds t) = Z.min 65536 (sequence t + Py.len cmds).
Proof.
  intros Hcmds. revert t.
  induction Hcmds as [|cmd cmds Hcmd _ IH]; intros t Hopen Hseq.
  - cbn [send_each]. rewrite len_nil. split; [assumption|lia].
  - cbn [send_each]. rewrite len_cons.
    destruct (Z.eq_dec (sequence t) 65536) as [E|E].
    + rewrite send_to_non_stick_overflow by (assumption || lia). cbn [snd].
      destruct (IH t Hopen Hseq) as [IH1 IH2]. split; [exact IH1|].
      rewrite IH2. pose proof (len_nonneg cmds). lia.
    + destruct (send_to_non_stick now cmd default_move t Hcmd Hopen ltac:(lia))
        as (ty & id & data & _ & _ & Hs).
      rewrite Hs. cbn [snd].
      destruct (IH (set_sequence (sequence t + 1)
           (set_sock_sent (sock_sent t ++ [datagram ty id (sequence t) data]) t)))
        as [IH1 IH2]; [exact Hopen|cbn [sequence set_sequence]; lia|].
      split; [exact IH1|]. rewrite IH2. cbn [sequence set_sequence]. lia.
Qed.

(** C10: a non-stick send goes through exactly when the counter is at most
    65535; once a session has made enough consecutive non-stick sends for
    the counter to pass that, 65536 of them from the start, the counter
    rests at 65536 and every further non-stick send raises [OverflowError],
    transmits nothing and leaves the state as it is: nothing wraps, nothing
    is truncated. *)
Theorem sequence_exhaustion (now : datetime) (cmds : list string) (cmd : string)
        (move : list Z) (t : tello) :
  Forall non_stick cmds -> non_stick cmd ->
  sock_closed t = false ->
  0 <= sequence t <= 65536 ->
  65536 <= sequence t + Py.len cmds ->
  (fst (send_to now cmd move t) = Ok tt <-> sequence t <= 65535) /\
  sequence (send_each now cmds t) = 65536 /\
  send_to now cmd move (send_each now cmds t) =
  (Raise OverflowError, send_each now cmds t).
Proof.
  intros Hcmds Hcmd Hopen Hseq Hmany.
  destruct (send_each_counter now cmds t Hcmds Hopen Hseq) as [Hcl Hcount].
  rewrite Z.min_l in Hcount by lia.
  split; [|split; [exact Hcount|]].
  - split.
    + intros Hok. destruct (Z.le_gt_cases (sequence t) 65535) as [|Hgt]; [assumption|].
      rewrite send_to_non_stick_overflow in Hok by (assumption || lia).
      discriminate.
    + intros Hle.
      destruct (send_to_non_stick now cmd move t Hcmd Hopen ltac:(lia))
        as (ty & id & data & _ & _ & Hs).
      now rewrite Hs.
  - apply send_to_non_stick_overflow; [assumption|lia].
Qed.

(** An instance: 65536 take-offs on a fresh object, then a landing. *)
Lemma sequence_exhaustion_witness :
  (Forall non_stick (repeat "takeoff"%string (Z.to_nat 65536)) /\ non_stick "land" /\
   sock_closed fresh = false /\ 0 <= sequence fresh <= 65536 /\
   65536 <= sequence fresh + Py.len (repeat "takeoff"%string (Z.to_nat 65536))) /\
  (fst (send_to (mkDatetime 0 0 0 0) "land" [] fresh) = Ok tt <->
   sequence fresh <= 65535) /\
  sequence (send_each (mkDatetime 0 0 0 0) (repeat "takeoff"%string (Z.to_nat 65536)) fresh)
    = 65536 /\
  send_to (mkDatetime 0 0 0 0) "land" []
    (send_each (mkDatetime 0 0 0 0) (repeat "takeoff"%string (Z.to_nat 65536)) fresh) =
  (Raise OverflowError,
   send_each (mkDatetime 0 0 0 0) (repeat "takeoff"%string (Z.to_nat 65536)) fresh).
Proof.
  assert (H1 : Forall non_stick (repeat "takeoff"%string (Z.to_nat 65536))).
  { apply Forall_forall. intros c Hc. apply repeat_spec in Hc. left. exact Hc. }
  assert (H2 : non_stick "land") by (right; left; reflexivity).
  assert (H3 : sock_closed fresh = false) by reflexivity.
  assert (H4 : 0 <= sequence fresh <= 65536) by (simpl; lia).
  assert (H5 : 65536 <= sequence fresh + Py.len (repeat "takeoff"%string (Z.to_nat 65536))).
  { rewrite len_repeat, Z2Nat.id by lia. simpl sequence. lia. }
  split; [exact (conj H1 (conj H2 (conj H3 (conj H4 H5))))|].
  exact (sequence_exhaustion (mkDatetime 0 0 0 0) (repeat "takeoff"%string (Z.to_nat 65536))
           "land" [] fresh H1 H2 H3 H4 H5).
Defined.

(** ** Out-of-range channels *)




(** ** Resetting the position *)

(** C9: [cie_reset] sets [x], [y] and [z] to 0 and leaves every other
    attribute as it was. *)
Theorem cie_reset_frame (t : tello) :
  x (cie_reset t) = CZero /\ y (cie_reset t) = CZero /\ z (cie_reset t) = CZero /\
  vx (cie_reset t) = vx t /\ vy (cie_reset t) = vy t /\ vz (cie_reset t) = vz t /\
  height (cie_reset t) = height t /\
  battery (cie_reset t) = battery t /\
  ssid (cie_reset t) = ssid t /\
  wifi (cie_reset t) = wifi t /\
  uptime (cie_reset t) = uptime t /\
  flytime (cie_reset t) = flytime t /\
  get_command (cie_reset t) = get_command t /\
  rec_command_id (cie_reset t) = rec_command_id t /\
  speed (cie_reset t) = speed t /\
  sequence (cie_reset t) = sequence t /\
  sock_sent (cie_reset t) = sock_sent t /\
  sock_closed (cie_reset t) = sock_closed t /\
  printed (cie_reset t) = printed t.
Proof.
  unfold cie_reset. repeat split.
Qed.

(** ** The telemetry reduction *)

Lemma getitem_default {A} (l : list A) (i : Z) (d : A) :
  0 <= i < Py.len l -> Py.getitem l i = Ok (nth (Z.to_nat i) l d).
Proof.
  intros H. apply getitem_nth; [lia|].
  apply nth_error_nth'. unfold Py.len in H. lia.
Qed.

Lemma byte_difference (rec : list Z) (i j : nat) :
  Forall is_byte rec -> -255 <= nth i rec 0 - nth j rec 0 <= 255.
Proof.
  intros H.
  assert (Hn : forall k, is_byte (nth k rec 0)).
  { intros k. destruct (Nat.lt_ge_cases k (length rec)) as [Hk|Hk].
    - rewrite Forall_forall in H. apply H, nth_In, Hk.
    - rewrite nth_overflow by exact Hk. unfold is_byte. lia. }
  pose proof (Hn i). pose proof (Hn j). unfold is_byte in *. lia.
Qed.

Lemma finite_ratio_all :
  forallb finite_ratio (map (fun n => Z.of_nat n - 255) (seq 0 511)) = true.
Proof. vm_compute. reflexivity. Qed.

(** A difference of two bytes divides by 100 without overflow. *)
Lemma truediv_100 (v : Z) :
  -255 <= v <= 255 -> py_truediv v 100 = Ok (Float.ratio v 100).
Proof.
  intros Hv. unfold py_truediv. change (100 =? 0) with false. cbv iota.
  pose proof finite_ratio_all as Hall. rewrite forallb_forall in Hall.
  assert (Hin : In v (map (fun n => Z.of_nat n - 255) (seq 0 511))).
  { apply in_map_iff. exists (Z.to_nat (v + 255)). split; [lia|].
    apply in_seq. lia. }
  specialize (Hall v Hin). unfold finite_ratio in Hall.
  destruct (Float.ratio v 100); try reflexivity. discriminate.
Qed.

Lemma integrate_ok (c : coord) (v : Z) :
  -255 <= v <= 255 ->
  integrate c v =
  Ok (CFloat (Float.add (coord_float c) (py_round1 (Float.ratio v 100)))).
Proof.
  intros Hv. unfold integrate. now rewrite (truediv_100 v Hv).
Qed.

Lemma parse_data_ok (rec : list Z) (t : tello) :
  Forall is_byte rec -> 28 <= Py.len rec ->
  parse_data rec t = (Ok tt, reduced rec t).
Proof.
  intros Hbytes Hlen. unfold parse_data.
  rewrite (getitem_default rec 7 0), (getitem_default rec 8 0),
    (getitem_default rec 9 0), (getitem_default rec 10 0),
    (getitem_default rec 11 0), (getitem_default rec 12 0),
    (getitem_default rec 13 0), (getitem_default rec 14 0),
    (getitem_default rec 15 0), (getitem_default rec 16 0),
    (getitem_default rec 17 0), (getitem_default rec 18 0),
    (getitem_default rec 21 0), (getitem_default rec 26 0),
    (getitem_default rec 27 0) by lia.
  positions.
  pose proof (byte_difference rec 13 14 Hbytes) as Hvx.
  pose proof (byte_difference rec 11 12 Hbytes) as Hvy.
  assert (Hvz : -255 <= - (nth 15 rec 0 - nth 16 rec 0) <= 255)
    by (pose proof (byte_difference rec 15 16 Hbytes); lia).
  unfold bindM, lift, gets, modify.
  cbn [x y z vx vy vz set_uptime set_height set_vx set_vy set_vz set_x set_y].
  rewrite (integrate_ok _ _ Hvx).
  cbn [x y z vx vy vz set_uptime set_height set_vx set_vy set_vz set_x set_y].
  rewrite (integrate_ok _ _ Hvy).
  cbn [x y z vx vy vz set_uptime set_height set_vx set_vy set_vz set_x set_y].
  rewrite (integrate_ok _ _ Hvz).
  reflexivity.
Qed.

(** ** The command id the receive path reconstructs *)

Lemma byte_values_complete (v : Z) : is_byte v -> In v byte_values.
Proof.
  intros H. unfold is_byte in H. apply in_map_iff. exists (Z.to_nat v).
  split; [lia|]. apply in_seq. lia.
Qed.

Lemma concat_agrees_all :
  forallb (fun hi => forallb (concat_agrees hi) byte_values) byte_values = true.
Proof. vm_compute. reflexivity. Qed.

(** On two bytes, [int(f'{hi}{lo}')] is [hi] shifted left by the decimal
    width of [lo], plus [lo]. *)
Lemma concat_decimal_bytes (hi lo : Z) :
  is_byte hi -> is_byte lo ->
  concat_decimal hi lo = Ok (hi * 10 ^ decimal_width lo + lo).
Proof.
  intros Hhi Hlo. pose proof concat_agrees_all as H.
  rewrite forallb_forall in H. specialize (H hi (byte_values_complete hi Hhi)).
  rewrite forallb_forall in H. specialize (H lo (byte_values_complete lo Hlo)).
  unfold concat_agrees in H. destruct (concat_decimal hi lo); [|discriminate].
  apply Z.eqb_eq in H. now subst.
Qed.

(** ** What a statement leaves alone *)

Lemma keeps_bind {A B C} (f : tello -> C) (m : M A) (k : A -> M B) :
  keeps f m -> (forall a, keeps f (k a)) -> keeps f (bindM m k).
Proof.
  intros Hm Hk t. unfold bindM. specialize (Hm t).
  destruct (m t) as [[a|e] t']; cbn [snd] in *; [|exact Hm].
  now rewrite Hk.
Qed.

Lemma keeps_lift {A B} (f : tello -> B) (r : result A) : keeps f (lift r).
Proof. intros t. reflexivity. Qed.

Lemma keeps_gets {A B} (f : tello -> B) (g : tello -> A) : keeps f (gets g).
Proof. intros t. reflexivity. Qed.

Lemma keeps_ret {A B} (f : tello -> B) (a : A) : keeps f (ret a).
Proof. intros t. reflexivity. Qed.

Lemma keeps_modify {B} (f : tello -> B) (g : tello -> tello) :
  (forall t, f (g t) = f t) -> keeps f (modify g).
Proof. intros H t. apply H. Qed.

Ltac keeps_tac :=
  repeat first
    [ apply keeps_lift | apply keeps_gets | apply keeps_ret
    | apply keeps_modify; intros; reflexivity
    | apply keeps_bind; [|intros] ].

Lemma parse_data_keeps_id (rec : list Z) : keeps rec_command_id (parse_data rec).
Proof. unfold parse_data. keeps_tac. Qed.

Lemma dispatch_keeps_id (data : list byte) : keeps rec_command_id (dispatch data).
Proof.
  unfold dispatch. apply keeps_bind; [apply keeps_gets|]. intros cid.
  destruct (cid =? 17); [keeps_tac|].
  destruct (cid =? 26); [keeps_tac|].
  destruct (cid =? 86); [apply parse_data_keeps_id|apply keeps_ret].
Qed.

Lemma nth_is_byte (b : list byte) (k : nat) : is_byte (nth k (list_of_bytes b) 0).
Proof.
  destruct (Nat.lt_ge_cases k (length (list_of_bytes b))) as [Hk|Hk].
  - pose proof (list_of_bytes_is_byte b) as H. rewrite Forall_forall in H.
    apply H, nth_In, Hk.
  - rewrite nth_overflow by exact Hk. unfold is_byte. lia.
Qed.

Lemma len_list_of_bytes (b : list byte) : Py.len (list_of_bytes b) = Py.len b.
Proof. unfold Py.len, list_of_bytes. now rewrite length_map. Qed.

Lemma len_firstn {A} (l : list A) (n : nat) :
  Py.len (firstn n l) = Z.min (Z.of_nat n) (Py.len l).
Proof. unfold Py.len. rewrite length_firstn. lia. Qed.

Lemma bindM_ret {A B} (a : A) (k : A -> M B) (t : tello) :
  bindM (ret a) k t = k a t.
Proof. reflexivity. Qed.

Lemma bindM_lift_ok {A B} (a : A) (k : A -> M B) (t : tello) :
  bindM (lift (Ok a)) k t = k a t.
Proof. reflexivity. Qed.

Lemma bindM_lift_raise {A B} (e : exn) (k : A -> M B) (t : tello) :
  bindM (lift (Raise e)) k t = (Raise e, t).
Proof. reflexivity. Qed.

Lemma bindM_modify {B} (g : tello -> tello) (k : unit -> M B) (t : tello) :
  bindM (modify g) k t = k tt (g t).
Proof. reflexivity. Qed.

Lemma bindM_gets {A B} (g : tello -> A) (k : A -> M B) (t : tello) :
  bindM (gets g) k t = k (g t) t.
Proof. reflexivity. Qed.

Lemma receive_body_short (d : list byte) (t : tello) :
  Py.len d < 7 -> receive_body (Datagram d) t = (Raise IndexError, t).
Proof.
  intros H. unfold receive_body, recvfrom. rewrite bindM_ret.
  rewrite (getitem_beyond _ 6); [apply bindM_lift_raise|].
  rewrite len_list_of_bytes, len_firstn. lia.
Qed.

Lemma receive_body_dispatch (d : list byte) (t : tello) :
  7 <= Py.len d ->
  receive_body (Datagram d) t =
  dispatch (firstn 1518 d) (set_rec_command_id (received_id d) t).
Proof.
  intros H. unfold receive_body, recvfrom, received_id, dispatch.
  rewrite bindM_ret.
  set (data := firstn 1518 d).
  assert (Hl : 7 <= Py.len (list_of_bytes data))
    by (unfold data; rewrite len_list_of_bytes, len_firstn; lia).
  rewrite (getitem_default _ 6 0), (getitem_default _ 5 0) by lia.
  rewrite !bindM_lift_ok.
  rewrite concat_decimal_bytes by apply nth_is_byte.
  rewrite bindM_lift_ok, bindM_modify. reflexivity.
Qed.

Lemma nth_unpacked (d : list byte) (i : nat) :
  (i < 1518)%nat ->
  nth i (list_of_bytes (firstn 1518 d)) 0 = nth i (list_of_bytes d) 0.
Proof.
  intros Hi. unfold list_of_bytes. rewrite <- firstn_map, nth_firstn.
  destruct (Nat.ltb_spec i 1518); [reflexivity|lia].
Qed.

Lemma receive_body_id (d : list byte) (t : tello) :
  7 <= Py.len d ->
  rec_command_id (snd (receive_body (Datagram d) t)) = received_id d.
Proof.
  intros H. rewrite receive_body_dispatch by exact H.
  now rewrite dispatch_keeps_id.
Qed.

Lemma receive_data_app (evs1 evs2 : list recv_event) (t : tello) :
  fst (receive_data evs1 t) = None /\
  receive_data (evs1 ++ evs2) t = receive_data evs2 (snd (receive_data evs1 t)).
Proof.
  revert t. induction evs1 as [|ev evs1 IH]; intros t; cbn [receive_data app].
  - split; reflexivity.
  - destruct (receive_body ev t) as [[u|e] t']; [apply IH|].
    destruct e; cbn [is_Exception]; apply IH.
Qed.

Lemma receive_data_one (ev : recv_event) (t : tello) :
  receive_data [ev] t =
  (None,
   match receive_body ev t with
   | (Ok _, t') => t'
   | (Raise e, t') => print_error e t'
   end).
Proof.
  cbn [receive_data]. destruct (receive_body ev t) as [[u|e] t']; [reflexivity|].
  destruct e; reflexivity.
Qed.

Lemma receive_body_telemetry (d : list byte) (t : tello) :
  28 <= Py.len d <= 1518 -> received_id d = 86 ->
  receive_body (Datagram d) t =
  (Ok tt, reduced (list_of_bytes d) (set_rec_command_id 86 t)).
Proof.
  intros Hlen Hid. rewrite receive_body_dispatch by lia. rewrite Hid.
  rewrite firstn_all2 by (unfold Py.len in Hlen; lia).
  unfold dispatch. unfold bindM at 1. unfold gets at 1.
  cbn [rec_command_id set_rec_command_id].
  change (86 =? 17) with false. change (86 =? 26) with false.
  change (86 =? 86) with true. cbv iota.
  apply parse_data_ok; [apply list_of_bytes_is_byte|].
  rewrite len_list_of_bytes. lia.
Qed.

(** ** The receive loop *)

(** C7: no event makes the loop exit, and a raising event is caught: its
    exception is printed and the loop goes on.  After any events the next
    one is handled as by a loop that starts in the state reached, and a
    telemetry frame of 28 to 1518 bytes that follows them is reduced in
    full. *)
Theorem receive_loop_isolated (evs : list recv_event) (d : list byte) (t : tello) :
  28 <= Py.len d <= 1518 -> received_id d = 86 ->
  fst (receive_data evs t) = None /\
  (forall ev e t0, fst (receive_body ev t0) = Raise e ->
     receive_data [ev] t0 = (None, print_error e (snd (receive_body ev t0)))) /\
  (forall ev, receive_data (evs ++ [ev]) t = receive_data [ev] (snd (receive_data evs t))) /\
  receive_data (evs ++ [Datagram d]) t =
  (None, reduced (list_of_bytes d) (set_rec_command_id 86 (snd (receive_data evs t)))).
Proof.
  intros Hlen Hid.
  split; [apply (receive_data_app evs [] t)|].
  split.
  { intros ev e t0 He. rewrite receive_data_one.
    destruct (receive_body ev t0) as [[u|e'] t']; cbn [fst snd] in *; congruence. }
  split; [intros ev; apply (receive_data_app evs [ev] t)|].
  rewrite (proj2 (receive_data_app evs [Datagram d] t)), receive_data_one.
  now rewrite (receive_body_telemetry d _ Hlen Hid).
Qed.

(** An instance: a truncated datagram, a socket error and an ill-formed
    SSID reply, then a telemetry frame. *)
Lemma receive_loop_isolated_witness :
  (28 <= Py.len sample_telemetry <= 1518 /\ received_id sample_telemetry = 86) /\
  receive_data
    ([Datagram [x01; x02; x03]; RecvFailure;
      Datagram (map byte_of_Z [0; 0; 0; 0; 0; 17; 0; 0; 0; 0; 0; 0xff; 0; 0])]
     ++ [Datagram sample_telemetry]) fresh =
  (None,
   reduced (list_of_bytes sample_telemetry)
     (set_rec_command_id 86
        (snd (receive_data
                [Datagram [x01; x02; x03]; RecvFailure;
                 Datagram (map byte_of_Z [0; 0; 0; 0; 0; 17; 0; 0; 0; 0; 0; 0xff; 0; 0])]
                fresh)))).
Proof.
  assert (H1 : 28 <= Py.len sample_telemetry <= 1518)
    by (vm_compute; split; discriminate).
  assert (H2 : received_id sample_telemetry = 86) by (vm_compute; reflexivity).
  split; [exact (conj H1 H2)|].
  exact (proj2 (proj2 (proj2
    (receive_loop_isolated
       [Datagram [x01; x02; x03]; RecvFailure;
        Datagram (map byte_of_Z [0; 0; 0; 0; 0; 17; 0; 0; 0; 0; 0; 0xff; 0; 0])]
       sample_telemetry fresh H1 H2)))).
Defined.

(** The three failures of that run are an [IndexError], an [OSError]
    and a [UnicodeDecodeError]; the loop printed each and went on. *)
Example receive_loop_failures :
  printed
    (snd (receive_data
            [Datagram [x01; x02; x03]; RecvFailure;
             Datagram (map byte_of_Z [0; 0; 0; 0; 0; 17; 0; 0; 0; 0; 0; 0xff; 0; 0])]
            fresh)) =
  [IndexError; OSError; UnicodeDecodeError].
Proof. vm_compute. reflexivity. Qed.

(** ** Checksums on the way in *)

(** C2, as claimed, fails: this datagram has neither checksum right, yet
    the loop takes its wifi report into the state and prints no error. *)
Lemma unauthentic_frame_accepted :
  Wire.authentic (map byte_of_Z [0; 0; 0; 0; 0; 26; 0; 0; 0; 3; 9]) = false /\
  receive_data [Datagram (map byte_of_Z [0; 0; 0; 0; 0; 26; 0; 0; 0; 3; 9])] fresh =
  (None, set_wifi 93 (set_rec_command_id 26 fresh)) /\
  wifi fresh = 0.
Proof. repeat split; vm_compute; reflexivity. Qed.

(** C2, amended: the receive path derives and compares no checksum.  A
    datagram of at least 7 bytes, authentic or not, sets [rec_command_id]
    to the decimal concatenation of its bytes 6 and 5 and is dispatched on
    it; a datagram of fewer than 7 bytes raises [IndexError] before any
    attribute is written, the loop prints it and goes on. *)
Theorem receive_unchecked (d : list byte) (t : tello) :
  (Py.len d < 7 ->
   receive_data [Datagram d] t = (None, print_error IndexError t)) /\
  (7 <= Py.len d ->
   fst (receive_data [Datagram d] t) = None /\
   rec_command_id (snd (receive_data [Datagram d] t)) = received_id d /\
   receive_body (Datagram d) t =
   dispatch (firstn 1518 d) (set_rec_command_id (received_id d) t)).
Proof.
  split.
  - intros H. rewrite receive_data_one. now rewrite (receive_body_short d t H).
  - intros H. split; [apply (receive_data_app [Datagram d] [] t)|].
    split; [|now apply receive_body_dispatch].
    rewrite receive_data_one. pose proof (receive_body_id d t H) as Hid.
    destruct (receive_body (Datagram d) t) as [[u|e] t']; exact Hid.
Qed.

(** An instance of each case: three bytes, and an unauthentic wifi
    report. *)
Lemma receive_unchecked_witness :
  (Py.len [x01; x02; x03] < 7 /\
   7 <= Py.len (map byte_of_Z [0; 0; 0; 0; 0; 26; 0; 0; 0; 3; 9])) /\
  receive_data [Datagram [x01; x02; x03]] fresh =
  (None, print_error IndexError fresh) /\
  rec_command_id
    (snd (receive_data
            [Datagram (map byte_of_Z [0; 0; 0; 0; 0; 26; 0; 0; 0; 3; 9])] fresh)) =
  received_id (map byte_of_Z [0; 0; 0; 0; 0; 26; 0; 0; 0; 3; 9]).
Proof.
  assert (H1 : Py.len [x01; x02; x03] < 7) by (vm_compute; reflexivity).
  assert (H2 : 7 <= Py.len (map byte_of_Z [0; 0; 0; 0; 0; 26; 0; 0; 0; 3; 9]))
    by (vm_compute; discriminate).
  split; [exact (conj H1 H2)|]. split.
  - exact (proj1 (receive_unchecked [x01; x02; x03] fresh) H1).
  - exact (proj1 (proj2 (proj2 (receive_unchecked
             (map byte_of_Z [0; 0; 0; 0; 0; 26; 0; 0; 0; 3; 9]) fresh) H2))).
Defined.

(** ** Encoding, then receiving *)

(** C4, as claimed, fails: command id 256 is encoded as the bytes 0 and 1,
    which the receive path reads back as [int('10')]. *)
Lemma roundtrip_fails_at_256 :
  build_packet 0x68 256 1 [] = Ok (Wire.frame 0x68 256 1 []) /\
  packet_to_binary (Wire.frame 0x68 256 1 []) = Ok (datagram 0x68 256 1 []) /\
  rec_command_id (snd (receive_body (Datagram (datagram 0x68 256 1 [])) fresh)) = 10.
Proof. repeat split; vm_compute; reflexivity. Qed.

Lemma decimal_width_cases (v : Z) :
  10 ^ decimal_width v = 10 \/ 10 ^ decimal_width v = 100 \/
  10 ^ decimal_width v = 1000.
Proof.
  unfold decimal_width. destruct (v <? 10); [now left|].
  destruct (v <? 100); [right; now left|right; now right].
Qed.

(** C4, amended: for every encodable frame, unpacking the transmitted
    bytes gives back the encoder's list, with the type at byte 4, the
    sequence number in bytes 7-8 and the payload in bytes 9 to N-2; the
    command id the receive path rebuilds from the decimal digits of bytes 6
    and 5 is the encoder's exactly when that id is below 256. *)
Theorem roundtrip (pac_type cmd_id seq_id : Z) (data : list Z) (t : tello) :
  encodable pac_type cmd_id seq_id data ->
  exists packet d,
    build_packet pac_type cmd_id seq_id data = Ok packet /\
    packet_to_binary packet = Ok d /\
    list_of_bytes d = packet /\
    Py.getitem (list_of_bytes d) 4 = Ok pac_type /\
    le_value (Py.slice (list_of_bytes d) (Some 7) (Some 9)) = seq_id /\
    Py.slice (list_of_bytes d) (Some 9) (Some (-2)) = data /\
    (rec_command_id (snd (receive_body (Datagram d) t)) = cmd_id <-> cmd_id < 256).
Proof.
  intros Henc.
  pose proof (frame_is_bytes _ _ _ _ Henc) as Hbytes.
  pose proof (frame_length pac_type cmd_id seq_id data) as Hflen.
  pose proof (len_nonneg data) as Hdata.
  exists (Wire.frame pac_type cmd_id seq_id data), (datagram pac_type cmd_id seq_id data).
  assert (Hrec : list_of_bytes (datagram pac_type cmd_id seq_id data) =
                 Wire.frame pac_type cmd_id seq_id data)
    by (apply list_of_bytes_map; exact Hbytes).
  split; [now apply build_packet_frame|].
  split; [now apply packet_to_binary_ok|].
  split; [exact Hrec|]. rewrite Hrec.
  split; [apply getitem_nth; [lia|reflexivity]|].
  split.
  { rewrite slice_mid by lia.
    cbn [Z.to_nat]. change (Pos.to_nat 9 - Pos.to_nat 7)%nat with 2%nat.
    change (Pos.to_nat 7) with 7%nat. unfold Wire.frame. cbn [app skipn firstn].
    apply le_value_pair. }
  split; [apply frame_payload|].
  rewrite receive_body_id
    by (rewrite <- len_list_of_bytes, Hrec; lia).
  unfold received_id. rewrite !nth_unpacked by lia. rewrite Hrec.
  unfold Wire.frame. cbn [app nth].
  destruct Henc as [_ Hid _ _ _].
  pose proof (Z.div_mod cmd_id 256 ltac:(lia)) as Hdm.
  pose proof (Z.mod_pos_bound cmd_id 256 ltac:(lia)) as Hm.
  assert (Hq : 0 <= cmd_id / 256) by (apply Z.div_pos; lia).
  destruct (decimal_width_cases (cmd_id mod 256)) as [E|[E|E]]; rewrite E; lia.
Qed.

(** An instance: the [get_ssid] frame of the handshake. *)
Lemma roundtrip_witness :
  encodable 0x48 17 1 [] /\
  exists packet d,
    build_packet 0x48 17 1 [] = Ok packet /\
    packet_to_binary packet = Ok d /\
    list_of_bytes d = packet /\
    Py.getitem (list_of_bytes d) 4 = Ok 0x48 /\
    le_value (Py.slice (list_of_bytes d) (Some 7) (Some 9)) = 1 /\
    Py.slice (list_of_bytes d) (Some 9) (Some (-2)) = [] /\
    (rec_command_id (snd (receive_body (Datagram d) fresh)) = 17 <-> 17 < 256).
Proof.
  assert (H1 : encodable 0x48 17 1 []).
  { split; [unfold is_byte; lia|lia|lia|apply Forall_nil|vm_compute; discriminate]. }
  split; [exact H1|].
  exact (roundtrip 0x48 17 1 [] fresh H1).
Defined.

(** ** Binary64 arithmetic that is exact: small integers *)

Module FloatExact.

Import Float.

Lemma shl_shl (m : positive) (a b : nat) : shl (shl m a) b = shl m (b + a).
Proof. unfold shl. now rewrite Nat.iter_add. Qed.

Lemma digits_shl (m : positive) (n : nat) :
  Zpos (digits2_pos (shl m n)) = Zpos (digits2_pos m) + Z.of_nat n.
Proof.
  induction n as [|n IH]; [change (shl m 0) with m; lia|].
  change (shl m (S n)) with (xO (shl m n)). cbn [digits2_pos]. lia.
Qed.

Lemma pos_iter_shl (m d : positive) : Pos.iter xO m d = shl m (Pos.to_nat d).
Proof. apply Pos2Nat.inj_iter. Qed.

Lemma iter_pos_nat {A} (f : A -> A) (p : positive) (a : A) :
  iter_pos f p a = Nat.iter (Pos.to_nat p) f a.
Proof.
  revert a. induction p as [p IH|p IH|]; intros a; cbn [iter_pos].
  - rewrite !IH, Pos2Nat.inj_xI, <- Nat.iter_add, <- Nat.iter_succ_r.
    f_equal. lia.
  - rewrite !IH, Pos2Nat.inj_xO, <- Nat.iter_add. f_equal. lia.
  - reflexivity.
Qed.

Lemma shr_shl (m : positive) (n k : nat) :
  Nat.iter n shr_1 (Build_shr_record (Zpos (shl m (n + k))) false false) =
  Build_shr_record (Zpos (shl m k)) false false.
Proof.
  induction n as [|n IH]; [reflexivity|].
  rewrite Nat.iter_succ_r. exact IH.
Qed.

Lemma shl_add (a b : positive) (n : nat) : (shl a n + shl b n)%positive = shl (a + b) n.
Proof.
  induction n as [|n IH]; [reflexivity|].
  change (shl ?m (S n)) with (xO (shl m n)). cbn [Pos.add]. now rewrite IH.
Qed.

Section Exact.

Variables (q : positive) (j : nat) (e : Z).
Let d := Zpos (digits2_pos q).
Hypothesis Hd : d <= 53.
Hypothesis Hlow : -1074 <= e + d + Z.of_nat j - 53.
Hypothesis Hhigh : e + d + Z.of_nat j - 53 <= 971.

Lemma fexp_shl : fexp prec emax (Zpos (digits2_pos (shl q j)) + e) = e + d + Z.of_nat j - 53.
Proof.
  rewrite digits_shl. fold d. unfold fexp, emin, prec, emax. lia.
Qed.

Lemma shr_fexp_exact :
  shr_fexp prec emax (Zpos (shl q j)) e loc_Exact =
  (Build_shr_record (Zpos (shl q (j - Z.to_nat (d + Z.of_nat j - 53)))) false false,
   e + Z.max 0 (d + Z.of_nat j - 53)).
Proof.
  unfold shr_fexp. cbn [Zdigits2 shr_record_of_loc]. rewrite fexp_shl.
  replace (e + d + Z.of_nat j - 53 - e) with (d + Z.of_nat j - 53) by lia.
  destruct (d + Z.of_nat j - 53) as [|p|p] eqn:E; cbn [shr Z.to_nat].
  - rewrite Nat.sub_0_r. f_equal; lia.
  - rewrite iter_pos_nat.
    replace j with (Pos.to_nat p + (j - Pos.to_nat p))%nat at 1 by lia.
    rewrite shr_shl. f_equal; lia.
  - rewrite Nat.sub_0_r. f_equal; lia.
Qed.

End Exact.

(** A mantissa of at most 53 bits followed by zeros rounds to itself. *)
Lemma binary_round_aux_exact (s : bool) (q : positive) (j : nat) (e : Z) :
  Zpos (digits2_pos q) <= 53 ->
  53 <= Zpos (digits2_pos q) + Z.of_nat j ->
  -1074 <= e + Zpos (digits2_pos q) + Z.of_nat j - 53 <= 971 ->
  binary_round_aux prec emax s (Zpos (shl q j)) e loc_Exact =
  S754_finite s (shl q (Z.to_nat (53 - Zpos (digits2_pos q))))
    (e + Zpos (digits2_pos q) + Z.of_nat j - 53).
Proof.
  intros Hd Hj [Hlo Hhi]. unfold binary_round_aux.
  rewrite (shr_fexp_exact q j e Hd Hlo).
  cbn [shr_m loc_of_shr_record round_nearest_even].
  set (d := Zpos (digits2_pos q)) in *.
  replace (j - Z.to_nat (d + Z.of_nat j - 53))%nat with (Z.to_nat (53 - d)) by lia.
  rewrite Z.max_r by lia.
  rewrite (shr_fexp_exact q (Z.to_nat (53 - d)) (e + (d + Z.of_nat j - 53)) Hd)
    by (fold d; lia).
  fold d. cbn [shr_m].
  replace (Z.to_nat (53 - d) - Z.to_nat (d + Z.of_nat (Z.to_nat (53 - d)) - 53))%nat
    with (Z.to_nat (53 - d)) by lia.
  replace (e + (d + Z.of_nat j - 53) + Z.max 0 (d + Z.of_nat (Z.to_nat (53 - d)) - 53))
    with (e + d + Z.of_nat j - 53) by lia.
  replace (e + d + Z.of_nat j - 53 <=? emax - prec) with true
    by (symmetry; apply Z.leb_le; unfold emax, prec; lia).
  reflexivity.
Qed.

Lemma binary_round_exact (q : positive) (j : nat) (e : Z) :
  Zpos (digits2_pos q) <= 53 ->
  -1074 <= e + Zpos (digits2_pos q) + Z.of_nat j - 53 <= 971 ->
  binary_round prec emax false (shl q j) e =
  S754_finite false (shl q (Z.to_nat (53 - Zpos (digits2_pos q))))
    (e + Zpos (digits2_pos q) + Z.of_nat j - 53).
Proof.
  intros Hd [Hlo Hhi]. unfold binary_round.
  rewrite (fexp_shl q j e Hlo). unfold shl_align.
  set (d := Zpos (digits2_pos q)) in *.
  destruct (e + d + Z.of_nat j - 53 - e) as [|p|p] eqn:E.
  - apply binary_round_aux_exact; fold d; lia.
  - apply binary_round_aux_exact; fold d; lia.
  - rewrite pos_iter_shl, shl_shl.
    rewrite (binary_round_aux_exact false q (Pos.to_nat p + j)) by (fold d; lia).
    fold d. f_equal; lia.
Qed.

Lemma digits_below (p : positive) (B : Z) :
  0 <= B -> Zpos p < 2 ^ B -> Zpos (digits2_pos p) <= B.
Proof.
  intros HB Hp. apply (FloatFacts.Zdigits2_le (Zpos p) B); lia.
Qed.

Lemma of_int_pos (p : positive) :
  Zpos p < 2 ^ 53 ->
  of_int (Zpos p) =
  S754_finite false (shl p (Z.to_nat (53 - Zpos (digits2_pos p))))
    (Zpos (digits2_pos p) - 53).
Proof.
  intros Hp. pose proof (digits_below p 53 ltac:(lia) Hp) as Hd.
  unfold of_int. cbn [binary_normalize]. change p with (shl p 0) at 1.
  rewrite binary_round_exact by (cbn [Z.of_nat]; lia). f_equal; cbn [Z.of_nat]; lia.
Qed.

Lemma align_to_one (p : positive) :
  Zpos (digits2_pos p) <= 53 ->
  fst (shl_align (shl p (Z.to_nat (53 - Zpos (digits2_pos p))))
         (Zpos (digits2_pos p) - 53) (-52)) = shl p 52.
Proof.
  intros Hd. unfold shl_align. set (d := Zpos (digits2_pos p)) in *.
  destruct (-52 - (d - 53)) as [|k|k] eqn:E; cbn [fst].
  - f_equal; lia.
  - lia.
  - rewrite pos_iter_shl, shl_shl. f_equal; lia.
Qed.

(** Adding 1.0 to a positive integer below [2^53 - 1] is exact. *)
Lemma add_one_pos (p : positive) :
  Zpos p + 1 < 2 ^ 53 -> add (of_int (Zpos p)) (of_int 1) = of_int (Zpos p + 1).
Proof.
  intros Hp.
  assert (Hp' : Zpos p < 2 ^ 53) by lia.
  pose proof (digits_below p 53 ltac:(lia) Hp') as Hd.
  rewrite (of_int_pos p Hp').
  change (of_int 1) with (S754_finite false (shl 1 52) (-52)).
  unfold add, SFadd.
  rewrite Z.min_r by lia.
  rewrite (align_to_one p Hd).
  change (fst (shl_align (shl 1 52) (-52) (-52))) with (shl 1 52).
  cbn [cond_Zopp Z.add binary_normalize]. rewrite shl_add.
  change (Zpos p + 1) with (Zpos (p + 1)) in *.
  pose proof (digits_below (p + 1) 53 ltac:(lia) Hp) as Hd1.
  rewrite binary_round_exact by lia.
  rewrite (of_int_pos (p + 1) Hp). f_equal; lia.
Qed.

Lemma add_one (k : Z) :
  0 <= k -> k + 1 < 2 ^ 53 -> add (of_int k) (of_int 1) = of_int (k + 1).
Proof.
  intros H0 H1. destruct k as [|p|p]; [reflexivity| |lia].
  now apply add_one_pos.
Qed.

(** At [2^53] it no longer is: the sum rounds back. *)
Example add_one_saturates :
  add (of_int (2 ^ 53)) (of_int 1) = of_int (2 ^ 53).
Proof. vm_compute. reflexivity. Qed.

End FloatExact.

(** ** Telemetry frames, short or long *)

Lemma parse_data_head (rec : list Z) (t : tello) :
  Forall is_byte rec -> 17 <= Py.len rec ->
  parse_data rec t = telemetry_tail rec (integrated rec t).
Proof.
  intros Hbytes Hlen. unfold parse_data.
  rewrite (getitem_default rec 7 0), (getitem_default rec 8 0),
    (getitem_default rec 9 0), (getitem_default rec 10 0),
    (getitem_default rec 11 0), (getitem_default rec 12 0),
    (getitem_default rec 13 0), (getitem_default rec 14 0),
    (getitem_default rec 15 0), (getitem_default rec 16 0) by lia.
  positions.
  pose proof (byte_difference rec 13 14 Hbytes) as Hvx.
  pose proof (byte_difference rec 11 12 Hbytes) as Hvy.
  assert (Hvz : -255 <= - (nth 15 rec 0 - nth 16 rec 0) <= 255)
    by (pose proof (byte_difference rec 15 16 Hbytes); lia).
  rewrite !bindM_lift_ok, bindM_modify.
  rewrite !bindM_lift_ok, bindM_modify.
  rewrite !bindM_lift_ok, bindM_modify.
  rewrite !bindM_lift_ok, bindM_modify.
  rewrite !bindM_lift_ok, bindM_modify.
  rewrite !bindM_gets.
  cbn [x y z vx vy vz set_uptime set_height set_vx set_vy set_vz set_x set_y].
  rewrite (integrate_ok _ _ Hvx), bindM_lift_ok, bindM_modify, !bindM_gets.
  cbn [x y z vx vy vz set_uptime set_height set_vx set_vy set_vz set_x set_y].
  rewrite (integrate_ok _ _ Hvy), bindM_lift_ok, bindM_modify, !bindM_gets.
  cbn [x y z vx vy vz set_uptime set_height set_vx set_vy set_vz set_x set_y].
  rewrite (integrate_ok _ _ Hvz), bindM_lift_ok, bindM_modify.
  reflexivity.
Qed.

Lemma telemetry_field {B} (f : tello -> B) (d : list byte) (t : tello) :
  (forall e t0, f (print_error e t0) = f t0) ->
  keeps f (telemetry_tail (list_of_bytes (firstn 1518 d))) ->
  17 <= Py.len d -> received_id d = 86 ->
  f (snd (receive_data [Datagram d] t)) =
  f (integrated (list_of_bytes (firstn 1518 d)) (set_rec_command_id 86 t)).
Proof.
  intros Hprint Hkeep Hlen Hid.
  rewrite receive_data_one, receive_body_dispatch by lia. rewrite Hid.
  unfold dispatch. rewrite bindM_gets. cbn [rec_command_id set_rec_command_id].
  change (86 =? 17) with false. change (86 =? 26) with false.
  change (86 =? 86) with true. cbv iota.
  rewrite parse_data_head
    by (try apply list_of_bytes_is_byte; rewrite len_list_of_bytes, len_firstn; lia).
  specialize (Hkeep (integrated (list_of_bytes (firstn 1518 d)) (set_rec_command_id 86 t))).
  destruct (telemetry_tail _ _) as [[u|e] t']; cbn [snd] in *;
    [|rewrite Hprint]; exact Hkeep.
Qed.

Lemma tenth_of_hundred : py_round1 (Float.ratio 100 100) = Float.of_int 1.
Proof. vm_compute. reflexivity. Qed.

Lemma steady_frame (d : list byte) (t : tello) :
  steady d ->
  x (snd (receive_data [Datagram d] t)) =
  CFloat (Float.add (coord_float (x t)) (Float.of_int 1)).
Proof.
  intros (Hlen & Hid & Hvx).
  rewrite (telemetry_field x d t); try assumption;
    [|reflexivity|unfold telemetry_tail; keeps_tac].
  cbn [integrated x set_rec_command_id].
  rewrite !nth_unpacked by lia. now rewrite Hvx, tenth_of_hundred.
Qed.

Lemma steady_frames (ds : list (list byte)) (k : Z) (t : tello) :
  Forall steady ds ->
  coord_float (x t) = Float.of_int k -> 0 <= k -> k + Py.len ds < 2 ^ 53 ->
  coord_float (x (snd (receive_data (map Datagram ds) t))) =
  Float.of_int (k + Py.len ds).
Proof.
  intros Hds. revert k t.
  induction Hds as [|d ds Hd _ IH]; intros k t Hx Hk Hbound.
  - cbn [map receive_data snd]. rewrite len_nil, Z.add_0_r. exact Hx.
  - rewrite len_cons in *. pose proof (len_nonneg ds).
    change (map Datagram (d :: ds)) with ([Datagram d] ++ map Datagram ds).
    rewrite (proj2 (receive_data_app [Datagram d] (map Datagram ds) t)).
    rewrite (IH (k + 1)); [f_equal; lia| |lia|lia].
    rewrite (steady_frame d t Hd). cbn [coord_float]. rewrite Hx.
    apply FloatExact.add_one; lia.
Qed.

Lemma parse_data_torn (rec : list Z) (t : tello) :
  Forall is_byte rec -> Py.len rec < 28 ->
  parse_data rec t = (Raise IndexError, torn rec t).
Proof.
  intros Hbytes Hlen.
  do 17 (destruct rec as [|? rec]; [reflexivity|]).
  do 11 (destruct rec as [|? rec];
         [rewrite (parse_data_head _ _ Hbytes) by (vm_compute; discriminate);
          reflexivity|]).
  exfalso. autorewrite with pylen in Hlen. pose proof (len_nonneg rec). lia.
Qed.

Lemma torn_short (rec : list Z) (t : tello) :
  Py.len rec < 17 ->
  x (torn rec t) = x t /\ y (torn rec t) = y t /\ z (torn rec t) = z t /\
  printed (torn rec t) = printed t.
Proof.
  intros H. unfold torn. cbv zeta.
  destruct (Z.leb_spec 17 (Py.len rec)); [lia|].
  destruct (Z.leb_spec 19 (Py.len rec)); [lia|].
  destruct (Z.leb_spec 22 (Py.len rec)); [lia|].
  destruct (9 <=? Py.len rec), (11 <=? Py.len rec), (13 <=? Py.len rec),
    (15 <=? Py.len rec); repeat split.
Qed.

Lemma short_frame_position (d : list byte) (t : tello) :
  7 <= Py.len d < 17 -> received_id d = 86 ->
  x (snd (receive_data [Datagram d] t)) = x t /\
  y (snd (receive_data [Datagram d] t)) = y t /\
  z (snd (receive_data [Datagram d] t)) = z t /\
  printed (snd (receive_data [Datagram d] t)) = printed t ++ [IndexError].
Proof.
  intros Hlen Hid.
  rewrite receive_data_one, receive_body_dispatch by lia. rewrite Hid.
  unfold dispatch. rewrite bindM_gets. cbn [rec_command_id set_rec_command_id].
  change (86 =? 17) with false. change (86 =? 26) with false.
  change (86 =? 86) with true. cbv iota.
  assert (Hl : Py.len (list_of_bytes (firstn 1518 d)) < 17)
    by (rewrite len_list_of_bytes, len_firstn; lia).
  rewrite parse_data_torn by (apply list_of_bytes_is_byte || lia).
  destruct (torn_short (list_of_bytes (firstn 1518 d)) (set_rec_command_id 86 t) Hl)
    as (Hx & Hy & Hz & Hp).
  cbn [snd print_error x y z printed set_printed].
  rewrite Hx, Hy, Hz, Hp. repeat split.
Qed.

Lemma same_float_eq (a b : spec_float) : same_float a b = true -> a = b.
Proof.
  destruct a as [s| s| |s m e], b as [s'| s'| |s' m' e']; cbn [same_float];
    try discriminate; try reflexivity.
  - intros H. apply Bool.eqb_prop in H. now subst.
  - intros H. apply Bool.eqb_prop in H. now subst.
  - rewrite !andb_true_iff. intros [[H1 H2] H3].
    apply Bool.eqb_prop in H1. apply Pos.eqb_eq in H2. apply Z.eqb_eq in H3.
    now subst.
Qed.

Lemma rounds_as_listed_all : forallb rounds_as_listed byte_differences = true.
Proof. vm_compute. reflexivity. Qed.

Lemma round1_tenths (v : Z) :
  -255 <= v <= 255 ->
  py_round1 (Float.ratio v 100) = tenth v (tenths v) /\
  -5 <= 10 * tenths v - v <= 5.
Proof.
  intros Hv.
  assert (Hin : In v byte_differences).
  { unfold byte_differences. apply in_map_iff.
    exists (Z.to_nat (v + 255)). split; [lia|]. apply in_seq. lia. }
  pose proof (proj1 (forallb_forall _ _) rounds_as_listed_all v Hin) as H.
  unfold rounds_as_listed in H. rewrite !andb_true_iff in H.
  destruct H as [[H1 H2] H3]. apply same_float_eq in H1.
  apply Z.leb_le in H2. apply Z.leb_le in H3. split; [exact H1|lia].
Qed.




(** * Further properties *)

(** ** Which lists are bytes *)

Lemma is_byte_dec (v : Z) : {is_byte v} + {~ is_byte v}.
Proof.
  unfold is_byte. destruct (Z_le_dec 0 v); [|right; lia].
  destruct (Z_lt_dec v 256); [left|right]; lia.
Qed.

Lemma is_byte_test_false (v : Z) : ~ is_byte v -> (0 <=? v) && (v <? 256) = false.
Proof.
  unfold is_byte. intros H.
  destruct (Z.leb_spec 0 v); [|reflexivity].
  destruct (Z.ltb_spec v 256); [lia|reflexivity].
Qed.

Lemma bytes_error (l : list Z) : ~ Forall is_byte l -> bytes l = Raise ValueError.
Proof.
  induction l as [|v l IH]; intros H; [elim H; constructor|].
  cbn [bytes]. destruct (is_byte_dec v) as [Hv|Hv].
  - rewrite (is_byte_test v Hv), IH; [reflexivity|].
    intros Hl. apply H. now constructor.
  - now rewrite (is_byte_test_false v Hv).
Qed.

Lemma packet_to_binary_error (l : list Z) :
  ~ Forall is_byte l -> packet_to_binary l = Raise StructError.
Proof.
  induction l as [|v l IH]; intros H; [elim H; constructor|].
  cbn [packet_to_binary]. destruct (is_byte_dec v) as [Hv|Hv].
  - rewrite (is_byte_test v Hv), IH; [reflexivity|].
    intros Hl. apply H. now constructor.
  - now rewrite (is_byte_test_false v Hv).
Qed.

Lemma map_byte_of_Z_unpacked (b : list byte) : map byte_of_Z (list_of_bytes b) = b.
Proof.
  induction b as [|c b IH]; [reflexivity|].
  cbn [list_of_bytes map]. rewrite byte_of_Z_of_byte. f_equal. exact IH.
Qed.

(** X1: [packet_to_binary] succeeds exactly on the lists whose items are
    all in [0, 255] and raises [struct.error] on every other list; unpacking
    what it packed gives the list back, and packing what was unpacked gives
    the bytes back. *)
Theorem packet_to_binary_roundtrip (l : list Z) (b : list byte) :
  (Forall is_byte l ->
   exists b', packet_to_binary l = Ok b' /\ list_of_bytes b' = l /\
              length b' = length l) /\
  (~ Forall is_byte l -> packet_to_binary l = Raise StructError) /\
  packet_to_binary (list_of_bytes b) = Ok b.
Proof.
  split; [|split].
  - intros H. exists (map byte_of_Z l).
    split; [now apply packet_to_binary_ok|].
    split; [now apply list_of_bytes_map|apply length_map].
  - apply packet_to_binary_error.
  - rewrite packet_to_binary_ok by apply list_of_bytes_is_byte.
    now rewrite map_byte_of_Z_unpacked.
Qed.

(** An instance of each case: a frame header, and a list holding 256. *)
Lemma packet_to_binary_roundtrip_witness :
  (Forall is_byte [0xcc; 0x58; 0x00] /\ ~ Forall is_byte [0xcc; 256]) /\
  (exists b', packet_to_binary [0xcc; 0x58; 0x00] = Ok b' /\
              list_of_bytes b' = [0xcc; 0x58; 0x00] /\
              length b' = length [0xcc; 0x58; 0x00]) /\
  packet_to_binary [0xcc; 256] = Raise StructError.
Proof.
  assert (H1 : Forall is_byte [0xcc; 0x58; 0x00])
    by (repeat apply Forall_cons; try apply Forall_nil; unfold is_byte; lia).
  assert (H2 : ~ Forall is_byte [0xcc; 256]).
  { intros H. inversion H as [|? ? _ H']. inversion H' as [|? ? Hb _].
    unfold is_byte in Hb. lia. }
  split; [exact (conj H1 H2)|]. split.
  - exact (proj1 (packet_to_binary_roundtrip [0xcc; 0x58; 0x00] []) H1).
  - exact (proj1 (proj2 (packet_to_binary_roundtrip [0xcc; 256] [])) H2).
Defined.

(** ** Where the encoder stops *)

(** The statements of [build_packet] up to the packet type, which no
    argument but an over-long payload can stop. *)
Ltac encode_header data n s Hs :=
  unfold build_packet;
  set (n := length data);
  change (Py.len data) with (Z.of_nat n) in *;
  rewrite repeat_frame;
  set (s := Z.shiftl (11 + Z.of_nat n) 3);
  assert (Hs : 0 <= s < 65536)
    by (unfold s; rewrite Z.shiftl_mul_pow2 by lia; change (2 ^ 3) with 8; lia);
  rewrite setitem_ok by len_tac; cbn [bind]; positions;
  rewrite (to_bytes_2 s Hs); cbn [bind]; rewrite (le_pair s Hs);
  rewrite (setslice_mid _ _ 1 3) by len_tac; positions;
  rewrite (slice_to _ 3) by len_tac; positions;
  rewrite bytes_ok
    by (repeat apply Forall_cons; try apply Forall_nil;
        [unfold is_byte; lia|apply is_byte_mod|now apply is_byte_div]);
  cbn [bind];
  rewrite (setitem_ok _ 3) by len_tac; cbn [bind]; positions;
  rewrite (setitem_ok _ 4) by len_tac; cbn [bind]; positions.

Lemma build_packet_too_long (pac_type cmd_id seq_id : Z) (data : list Z) :
  8180 < Py.len data ->
  build_packet pac_type cmd_id seq_id data = Raise OverflowError.
Proof.
  intros Hlen. unfold build_packet.
  rewrite setitem_ok by (rewrite len_repeat; pose proof (len_nonneg data); lia).
  cbn [bind].
  rewrite to_bytes_overflow; [reflexivity|]. right.
  rewrite Z.shiftl_mul_pow2 by lia. change (2 ^ 3) with 8.
  change (256 ^ Z.of_nat 2) with 65536. lia.
Qed.

Lemma build_packet_id_overflow (pac_type cmd_id seq_id : Z) (data : list Z) :
  Py.len data <= 8180 -> cmd_id < 0 \/ 65536 <= cmd_id ->
  build_packet pac_type cmd_id seq_id data = Raise OverflowError.
Proof.
  intros Hlen Hid. encode_header data n s Hs.
  rewrite to_bytes_overflow by (change (256 ^ Z.of_nat 2) with 65536; lia).
  reflexivity.
Qed.

Lemma build_packet_sequence_overflow (pac_type cmd_id seq_id : Z) (data : list Z) :
  Py.len data <= 8180 -> 0 <= cmd_id < 65536 -> seq_id < 0 \/ 65536 <= seq_id ->
  build_packet pac_type cmd_id seq_id data = Raise OverflowError.
Proof.
  intros Hlen Hid Hseq. encode_header data n s Hs.
  rewrite (to_bytes_2 cmd_id Hid). cbn [bind].
  rewrite to_bytes_overflow by (change (256 ^ Z.of_nat 2) with 65536; lia).
  reflexivity.
Qed.

Lemma build_packet_value_error (pac_type cmd_id seq_id : Z) (data : list Z) :
  Py.len data <= 8180 -> 0 <= cmd_id < 65536 -> 0 <= seq_id < 65536 ->
  ~ (is_byte pac_type /\ Forall is_byte data) ->
  build_packet pac_type cmd_id seq_id data = Raise ValueError.
Proof.
  intros Hlen Hid Hseq Hbad. encode_header data n s Hs.
  rewrite (to_bytes_2 cmd_id Hid). cbn [bind]. rewrite (le_pair cmd_id Hid).
  rewrite (setslice_mid _ _ 5 7) by len_tac. positions.
  rewrite (to_bytes_2 seq_id Hseq). cbn [bind]. rewrite (le_pair seq_id Hseq).
  rewrite (setslice_mid _ _ 7 9) by len_tac. positions.
  rewrite (setslice_upto _ _ 9 (-2) (9 + n)) by len_tac. positions.
  rewrite (skipn_app n), repeat_length, Nat.sub_diag, skipn_all2
    by (rewrite repeat_length; lia).
  cbn [skipn app].
  rewrite (slice_upto _ 0 (-2) (9 + n)) by len_tac. positions.
  assert (Hfn : firstn n (data ++ [0; 0]) = data).
  { rewrite firstn_app. subst n. rewrite Nat.sub_diag, firstn_all.
    apply app_nil_r. }
  rewrite Hfn. rewrite bytes_error; [reflexivity|].
  intros Hall. apply Hbad.
  do 4 (apply Forall_inv_tail in Hall).
  split; [exact (Forall_inv Hall)|].
  do 5 (apply Forall_inv_tail in Hall). exact Hall.
Qed.

Lemma build_packet_overflow (pac_type cmd_id seq_id : Z) (data : list Z) :
  8180 < Py.len data \/ ~ 0 <= cmd_id < 65536 \/ ~ 0 <= seq_id < 65536 ->
  build_packet pac_type cmd_id seq_id data = Raise OverflowError.
Proof.
  intros H. destruct (Z_lt_dec 8180 (Py.len data)) as [Hl|Hl];
    [now apply build_packet_too_long|].
  destruct (Z_le_dec 0 cmd_id) as [H0|H0];
    [|apply build_packet_id_overflow; lia].
  destruct (Z_lt_dec cmd_id 65536) as [H1|H1];
    [|apply build_packet_id_overflow; lia].
  apply build_packet_sequence_overflow; lia.
Qed.

Lemma build_packet_returns (pac_type cmd_id seq_id : Z) (data packet : list Z) :
  build_packet pac_type cmd_id seq_id data = Ok packet ->
  encodable pac_type cmd_id seq_id data.
Proof.
  intros Hok.
  destruct (Z_lt_dec 8180 (Py.len data)) as [Hl|Hl];
    [rewrite build_packet_overflow in Hok by lia; discriminate|].
  destruct (Z_le_dec 0 cmd_id) as [Hi0|Hi0];
    [|rewrite build_packet_overflow in Hok by lia; discriminate].
  destruct (Z_lt_dec cmd_id 65536) as [Hi1|Hi1];
    [|rewrite build_packet_overflow in Hok by lia; discriminate].
  destruct (Z_le_dec 0 seq_id) as [Hs0|Hs0];
    [|rewrite build_packet_overflow in Hok by lia; discriminate].
  destruct (Z_lt_dec seq_id 65536) as [Hs1|Hs1];
    [|rewrite build_packet_overflow in Hok by lia; discriminate].
  destruct (is_byte_dec pac_type) as [Hty|Hty].
  - destruct (Forall_dec is_byte is_byte_dec data) as [Hd|Hd].
    + split; try assumption; lia.
    + rewrite build_packet_value_error in Hok by (tauto || lia). discriminate.
  - rewrite build_packet_value_error in Hok by (tauto || lia). discriminate.
Qed.

(** X2: [build_packet] returns a frame exactly on the encodable inputs.
    A payload of more than 8180 bytes, a command id or a sequence number
    that is negative or above 65535 raise [OverflowError]; with those in
    range, a packet type or a payload item outside [0, 255] raises
    [ValueError]. *)
Theorem build_packet_domain (pac_type cmd_id seq_id : Z) (data : list Z) :
  ((exists packet, build_packet pac_type cmd_id seq_id data = Ok packet) <->
   encodable pac_type cmd_id seq_id data) /\
  (8180 < Py.len data \/ ~ 0 <= cmd_id < 65536 \/ ~ 0 <= seq_id < 65536 ->
   build_packet pac_type cmd_id seq_id data = Raise OverflowError) /\
  (Py.len data <= 8180 -> 0 <= cmd_id < 65536 -> 0 <= seq_id < 65536 ->
   ~ (is_byte pac_type /\ Forall is_byte data) ->
   build_packet pac_type cmd_id seq_id data = Raise ValueError).
Proof.
  split; [|split; [apply build_packet_overflow|apply build_packet_value_error]].
  split.
  - intros [packet Hok]. exact (build_packet_returns _ _ _ _ _ Hok).
  - intros Henc. eexists. now apply build_packet_frame.
Qed.

(** An instance of each case: the landing frame, a sequence number of
    65536 and a packet type of 256. *)
Lemma build_packet_domain_witness :
  (encodable 0x68 85 7 [0x00] /\
   (8180 < Py.len [0x00] \/ ~ 0 <= 85 < 65536 \/ ~ 0 <= 65536 < 65536) /\
   ~ (is_byte 256 /\ Forall is_byte [0x00])) /\
  (exists packet, build_packet 0x68 85 7 [0x00] = Ok packet) /\
  build_packet 0x68 85 65536 [0x00] = Raise OverflowError /\
  build_packet 256 85 7 [0x00] = Raise ValueError.
Proof.
  assert (H1 : encodable 0x68 85 7 [0x00]).
  { split; [unfold is_byte; lia|lia|lia| |vm_compute; discriminate].
    apply Forall_cons; [unfold is_byte; lia|apply Forall_nil]. }
  assert (H2 : 8180 < Py.len [0x00] \/ ~ 0 <= 85 < 65536 \/ ~ 0 <= 65536 < 65536)
    by (right; right; lia).
  assert (H3 : ~ (is_byte 256 /\ Forall is_byte [0x00]))
    by (unfold is_byte; lia).
  split; [exact (conj H1 (conj H2 H3))|]. split; [|split].
  - exact (proj2 (proj1 (build_packet_domain 0x68 85 7 [0x00])) H1).
  - exact (proj1 (proj2 (build_packet_domain 0x68 85 65536 [0x00])) H2).
  - apply (proj2 (proj2 (build_packet_domain 256 85 7 [0x00]))); try lia.
    + vm_compute. discriminate.
    + exact H3.
Defined.

(** ** What a send does, whatever it is given *)

Lemma datagram_authentic (pac_type cmd_id seq_id : Z) (data : list Z) :
  Wire.authentic (datagram pac_type cmd_id seq_id data) = true.
Proof.
  unfold datagram. rewrite (frame_shape pac_type cmd_id seq_id data), map_app.
  apply frame_authentic.
Qed.

Lemma send_tail_cases (pac_type cmd_id : Z) (data : list Z) (t : tello) :
  match (seq_id <~ gets sequence ;;
         packet <~ lift (build_packet pac_type cmd_id seq_id data) ;;
         b <~ lift (packet_to_binary packet) ;;
         sendto b ;;;
         modify (fun t => set_sequence (sequence t + 1) t)) t with
  | (Ok _, t') =>
      encodable pac_type cmd_id (sequence t) data /\
      sock_closed t = false /\
      t' = set_sequence (sequence t + 1)
             (set_sock_sent
                (sock_sent t ++ [datagram pac_type cmd_id (sequence t) data]) t)
  | (Raise e, t') =>
      t' = t /\
      (build_packet pac_type cmd_id (sequence t) data = Raise e \/
       encodable pac_type cmd_id (sequence t) data /\
       sock_closed t = true /\ e = OSError)
  end.
Proof.
  rewrite bindM_gets.
  destruct (build_packet pac_type cmd_id (sequence t) data) as [packet|e] eqn:Hb.
  - pose proof (build_packet_returns _ _ _ _ _ Hb) as Henc.
    destruct (sock_closed t) eqn:Hc.
    + rewrite (build_packet_frame _ _ _ _ Henc) in Hb. injection Hb as <-.
      rewrite bindM_lift_ok.
      rewrite (packet_to_binary_ok _ (frame_is_bytes _ _ _ _ Henc)), bindM_lift_ok.
      unfold bindM, sendto. rewrite Hc. cbn [fst snd]. split; [reflexivity|].
      right. split; [exact Henc|split; reflexivity].
    + rewrite <- Hb, (send_frame _ _ _ _ Henc Hc).
      split; [exact Henc|split; reflexivity].
  - rewrite bindM_lift_raise. split; [reflexivity|now left].
Qed.

Lemma send_to_cases (now : datetime) (cmd : string) (move : list Z) (t : tello) :
  match send_to now cmd move t with
  | (Ok _, t') =>
      exists ty id data,
        dict_get PAC_TYPE_LIST cmd = Ok ty /\
        dict_get CMD_LIST cmd = Ok id /\
        payload now cmd move t = Ok data /\
        encodable ty id (carried cmd t) data /\
        sock_closed t = false /\
        t' = set_sequence (carried cmd t + 1)
               (set_sock_sent
                  (sock_sent t ++ [datagram ty id (carried cmd t) data]) t)
  | (Raise _, t') => t' = after_failed_send cmd t
  end.
Proof.
  unfold send_to, carried, after_failed_send, payload.
  destruct (String.eqb cmd "land") eqn:Eland.
  - apply String.eqb_eq in Eland. subst cmd.
    cbn [String.eqb Ascii.eqb Bool.eqb]. rewrite bindM_ret.
    cbn [dict_get PAC_TYPE_LIST CMD_LIST String.eqb Ascii.eqb Bool.eqb].
    rewrite !bindM_lift_ok.
    pose proof (send_tail_cases 104 85 [0] t) as H.
    destruct ((seq_id <~ gets sequence ;; _) t) as [[u|e] t'].
    + destruct H as (Henc & Hc & Ht'). exists 104, 85, [0].
      split; [reflexivity|]. split; [reflexivity|]. split; [reflexivity|].
      split; [exact Henc|]. split; assumption.
    + apply H.
  - destruct (String.eqb cmd "stick") eqn:Estick.
    + apply String.eqb_eq in Estick. subst cmd.
      unfold bindM at 1. unfold bindM at 1. unfold bindM at 1.
      unfold modify at 1. unfold gets at 1. unfold lift at 1.
      cbn [speed set_sequence].
      destruct (move_to (speed t) now move) as [data|e]; [|reflexivity].
      cbn [dict_get PAC_TYPE_LIST CMD_LIST String.eqb Ascii.eqb Bool.eqb].
      rewrite !bindM_lift_ok.
      pose proof (send_tail_cases 96 80 data (set_sequence 0 t)) as H.
      destruct ((seq_id <~ gets sequence ;; _) (set_sequence 0 t)) as [[u|e] t'].
      * destruct H as (Henc & Hc & Ht'). exists 96, 80, data.
        split; [reflexivity|]. split; [reflexivity|]. split; [reflexivity|].
        split; [exact Henc|]. split; assumption.
      * apply H.
    + rewrite bindM_ret.
      destruct (dict_get PAC_TYPE_LIST cmd) as [ty|e];
        [rewrite bindM_lift_ok|now rewrite bindM_lift_raise].
      destruct (dict_get CMD_LIST cmd) as [id|e];
        [rewrite bindM_lift_ok|now rewrite bindM_lift_raise].
      pose proof (send_tail_cases ty id [] t) as H.
      destruct ((seq_id <~ gets sequence ;; _) t) as [[u|e] t'].
      * destruct H as (Henc & Hc & Ht'). exists ty, id, [].
        split; [reflexivity|]. split; [reflexivity|]. split; [reflexivity|].
        split; [exact Henc|]. split; assumption.
      * apply H.
Qed.

(** X3: whatever the command name, the move vector, the clock and the
    state, a send that returns has handed exactly one datagram to the
    socket: an authentic frame that carries the counter (0 for [stick]),
    and the counter is then one above what the frame carries.  A send that
    raises has transmitted nothing and has changed nothing, except that a
    [stick] send has already set the counter to 0. *)
Theorem send_to_outcome (now : datetime) (cmd : string) (move : list Z) (t : tello) :
  match send_to now cmd move t with
  | (Ok _, t') =>
      exists w,
        t' = set_sequence (carried cmd t + 1)
               (set_sock_sent (sock_sent t ++ [w]) t) /\
        Wire.authentic w = true /\
        wire_sequence w = Some (carried cmd t) /\
        sock_closed t = false
  | (Raise _, t') => t' = after_failed_send cmd t
  end.
Proof.
  pose proof (send_to_cases now cmd move t) as H.
  destruct (send_to now cmd move t) as [[u|e] t']; [|exact H].
  destruct H as (ty & id & data & _ & _ & _ & Henc & Hc & ->).
  eexists. split; [reflexivity|]. split; [apply datagram_authentic|].
  split; [apply (datagram_fields _ _ _ _ Henc)|exact Hc].
Qed.

(** ** The two threads write different attributes *)

Lemma recvfrom_keeps {B} (f : tello -> B) (ev : recv_event) (n : nat) :
  keeps f (recvfrom ev n).
Proof. destruct ev; [apply keeps_ret|apply keeps_lift]. Qed.

Lemma receive_body_keeps {B} (f : tello -> B) (ev : recv_event) :
  receive_leaves f -> keeps f (receive_body ev).
Proof.
  intros (H1 & H2 & H3 & H4 & H5 & H6 & H7 & H8 & H9 & H10 & H11 & H12 & H13 & H14 & _).
  unfold receive_body.
  apply keeps_bind; [apply recvfrom_keeps|intros data].
  do 3 (apply keeps_bind; [apply keeps_lift|intros]).
  apply keeps_bind; [apply keeps_modify; intros; apply H1|intros].
  apply keeps_bind; [apply keeps_gets|intros cid].
  destruct (cid =? 17).
  { apply keeps_bind; [apply keeps_lift|intros].
    apply keeps_modify; intros; apply H2. }
  destruct (cid =? 26).
  { do 3 (apply keeps_bind; [apply keeps_lift|intros]).
    apply keeps_modify; intros; apply H3. }
  destruct (cid =? 86); [|apply keeps_ret].
  unfold parse_data.
  repeat first
    [ apply keeps_lift | apply keeps_gets
    | apply keeps_bind; [|intros]
    | apply keeps_modify; intros;
      first [apply H4|apply H5|apply H6|apply H7|apply H8|apply H9|apply H10
            |apply H11|apply H12|apply H13|apply H14] ].
Qed.

Lemma receive_data_keeps {B} (f : tello -> B) (evs : list recv_event) (t : tello) :
  receive_leaves f -> f (snd (receive_data evs t)) = f t.
Proof.
  intros Hf. revert t. induction evs as [|ev evs IH]; intros t; [reflexivity|].
  cbn [receive_data]. pose proof (receive_body_keeps f ev Hf t) as Hb.
  assert (Hp : forall e t0, f (print_error e t0) = f t0)
    by (intros; apply Hf).
  destruct (receive_body ev t) as [[u|e] t']; cbn [snd] in Hb.
  - now rewrite IH.
  - destruct e; cbn [is_Exception]; now rewrite IH, Hp.
Qed.

(** X4: the receive loop, whatever datagrams and socket errors it meets,
    never changes the sequence counter, the speed flag or the socket, and
    never sends; a send, whether it returns or raises, never changes an
    attribute of the drone state, the speed flag or what the loop has
    printed. *)
Theorem threads_write_apart (evs : list recv_event) (now : datetime)
        (cmd : string) (move : list Z) (t : tello) :
  (sequence (snd (receive_data evs t)) = sequence t /\
   speed (snd (receive_data evs t)) = speed t /\
   sock_sent (snd (receive_data evs t)) = sock_sent t /\
   sock_closed (snd (receive_data evs t)) = sock_closed t) /\
  (let t' := snd (send_to now cmd move t) in
   ssid t' = ssid t /\ uptime t' = uptime t /\ height t' = height t /\
   x t' = x t /\ y t' = y t /\ z t' = z t /\
   vx t' = vx t /\ vy t' = vy t /\ vz t' = vz t /\
   flytime t' = flytime t /\ battery t' = battery t /\ wifi t' = wifi t /\
   get_command t' = get_command t /\ rec_command_id t' = rec_command_id t /\
   speed t' = speed t /\ sock_closed t' = sock_closed t /\
   printed t' = printed t).
Proof.
  split.
  - repeat split; apply receive_data_keeps; repeat split.
  - pose proof (send_to_cases now cmd move t) as H. cbv zeta.
    destruct (send_to now cmd move t) as [[u|e] t']; cbn [snd].
    + destruct H as (ty & id & data & _ & _ & _ & _ & _ & ->). repeat split.
    + subst t'. unfold after_failed_send.
      destruct (String.eqb cmd "stick"); repeat split.
Qed.

(** ** Invariants of a run *)

Lemma wire_le16_range (d : list byte) (i : nat) (v : Z) :
  wire_le16 d i = Some v -> 0 <= v < 65536.
Proof.
  unfold wire_le16.
  destruct (nth_error d i) as [lo|]; [|discriminate].
  destruct (nth_error d (S i)) as [hi|]; [|discriminate].
  intros E. apply (f_equal (fun o => match o with Some z => z | None => 0 end)) in E.
  cbv beta iota in E. subst v.
  pose proof (Z_of_byte_range lo). pose proof (Z_of_byte_range hi). lia.
Qed.

Lemma receive_leaves_sequence : receive_leaves sequence.
Proof. repeat split. Qed.

Lemma receive_leaves_speed : receive_leaves speed.
Proof. repeat split. Qed.

Lemma receive_leaves_sock_sent : receive_leaves sock_sent.
Proof. repeat split. Qed.

Lemma receive_leaves_sock_closed : receive_leaves sock_closed.
Proof. repeat split. Qed.

Lemma step_effect (c : call) (t : tello) :
  (0 <= sequence t <= 65536 -> 0 <= sequence (step c t) <= 65536) /\
  (0 <= speed t <= 1 -> 0 <= speed (step c t) <= 1) /\
  (exists ws, sock_sent (step c t) = sock_sent t ++ ws /\
              Forall (fun w => Wire.authentic w = true) ws /\
              (sock_closed t = true -> ws = [])) /\
  (sock_closed t = true -> sock_closed (step c t) = true).
Proof.
  destruct c as [now cmd move| | | |ev]; cbn [step].
  - pose proof (send_to_cases now cmd move t) as H.
    destruct (send_to now cmd move t) as [[u|e] t']; cbn [snd].
    + destruct H as (ty & id & data & _ & _ & _ & Henc & Hc & ->).
      pose proof (enc_seq _ _ _ _ Henc) as Hs.
      pose proof (datagram_authentic ty id (carried cmd t) data) as Hw.
      set (w := datagram ty id (carried cmd t) data) in *. clearbody w.
      repeat split; cbn; try lia.
      * exists [w]. repeat split; [now constructor|congruence].
      * congruence.
    + subst t'. unfold after_failed_send.
      destruct (String.eqb cmd "stick"); repeat split; cbn; try lia; try tauto;
        exists []; now rewrite app_nil_r.
  - unfold speed_switch. repeat split; cbn; try tauto; try (destruct (speed t =? 0); lia).
    exists []; now rewrite app_nil_r.
  - unfold cie_reset. repeat split; cbn; try tauto.
    exists []; now rewrite app_nil_r.
  - unfold stop. repeat split; cbn; try tauto.
    exists []; now rewrite app_nil_r.
  - rewrite (receive_data_keeps sequence [ev] t receive_leaves_sequence),
      (receive_data_keeps speed [ev] t receive_leaves_speed),
      (receive_data_keeps sock_sent [ev] t receive_leaves_sock_sent),
      (receive_data_keeps sock_closed [ev] t receive_leaves_sock_closed).
    repeat split; try tauto.
    exists []; now rewrite app_nil_r.
Qed.

(** X5: along any interleaving of sends, speed switches, position resets,
    stops and turns of the receive loop, from a state whose counter is in
    0..65536 and whose speed flag is 0 or 1, the counter stays in 0..65536,
    the flag stays 0 or 1, the datagrams handed to the socket are the
    earlier ones followed by new ones, and every new one carries valid
    checksums: nothing else is ever transmitted. *)
Theorem run_invariant (cs : list call) (t : tello) :
  0 <= sequence t <= 65536 ->
  0 <= speed t <= 1 ->
  0 <= sequence (run cs t) <= 65536 /\
  0 <= speed (run cs t) <= 1 /\
  exists ws, sock_sent (run cs t) = sock_sent t ++ ws /\
             Forall (fun w => Wire.authentic w = true) ws.
Proof.
  revert t. induction cs as [|c cs IH]; intros t Hq Hp.
  - cbn. repeat split; try lia. exists []; now rewrite app_nil_r.
  - change (run (c :: cs) t) with (run cs (step c t)).
    destruct (step_effect c t) as (H1 & H2 & (ws0 & E0 & F0 & _) & _).
    destruct (IH (step c t) (H1 Hq) (H2 Hp)) as (I1 & I2 & ws & E & F).
    repeat split; try lia.
    exists (ws0 ++ ws). split.
    + now rewrite E, E0, app_assoc.
    + now apply Forall_app.
Qed.

Lemma run_invariant_witness :
  let now := mkDatetime 12 34 56 789000 in
  let cs := [CallSend now "takeoff" default_move; Receive (Datagram sample_telemetry);
             CallSpeedSwitch; CallSend now "stick" [1024; 1024; 1024; 1024];
             CallSend now "flip" default_move; CallReset; CallStop;
             CallSend now "land" default_move]%string in
  0 <= sequence (run cs fresh) <= 65536 /\
  0 <= speed (run cs fresh) <= 1 /\
  exists ws, sock_sent (run cs fresh) = sock_sent fresh ++ ws /\
             Forall (fun w => Wire.authentic w = true) ws.
Proof.
  cbv zeta. apply run_invariant; cbn; lia.
Defined.

(** X6: once the socket is closed it stays closed, and no call sends
    anything any more: the datagrams on the wire after any further run are
    those before it. *)
Theorem closed_is_final (cs : list call) (t : tello) :
  sock_closed t = true ->
  sock_closed (run cs t) = true /\ sock_sent (run cs t) = sock_sent t.
Proof.
  revert t. induction cs as [|c cs IH]; intros t Hc; [now split|].
  change (run (c :: cs) t) with (run cs (step c t)).
  destruct (step_effect c t) as (_ & _ & (ws0 & E0 & _ & N0) & C0).
  destruct (IH (step c t) (C0 Hc)) as (I1 & I2).
  split; [exact I1|].
  now rewrite I2, E0, (N0 Hc), app_nil_r.
Qed.

Lemma closed_is_final_witness :
  let now := mkDatetime 12 34 56 789000 in
  let cs := [CallSend now "land" default_move; CallSpeedSwitch;
             CallSend now "stick" [1024; 1024; 1024; 1024]]%string in
  sock_closed (run cs (stop fresh)) = true /\
  sock_sent (run cs (stop fresh)) = sock_sent (stop fresh).
Proof.
  cbv zeta. apply closed_is_final. reflexivity.
Defined.

(** ** How a send ends *)

Lemma send_to_steps (now : datetime) (cmd : string) (move : list Z) (t : tello) :
  send_to now cmd move t =
  match payload now cmd move t with
  | Raise e => (Raise e, after_failed_send cmd t)
  | Ok data =>
      match dict_get PAC_TYPE_LIST cmd with
      | Raise e => (Raise e, after_failed_send cmd t)
      | Ok ty =>
          match dict_get CMD_LIST cmd with
          | Raise e => (Raise e, after_failed_send cmd t)
          | Ok id =>
              match build_packet ty id (carried cmd t) data with
              | Raise e => (Raise e, after_failed_send cmd t)
              | Ok _ =>
                  if sock_closed t then (Raise OSError, after_failed_send cmd t)
                  else (Ok tt,
                        set_sequence (carried cmd t + 1)
                          (set_sock_sent
                             (sock_sent t ++ [datagram ty id (carried cmd t) data]) t))
              end
          end
      end
  end.
Proof.
  assert (Htail : forall ty id data t0,
    (seq_id <~ gets sequence ;;
     packet <~ lift (build_packet ty id seq_id data) ;;
     b <~ lift (packet_to_binary packet) ;;
     sendto b ;;;
     modify (fun t => set_sequence (sequence t + 1) t)) t0 =
    match build_packet ty id (sequence t0) data with
    | Raise e => (Raise e, t0)
    | Ok _ =>
        if sock_closed t0 then (Raise OSError, t0)
        else (Ok tt,
              set_sequence (sequence t0 + 1)
                (set_sock_sent
                   (sock_sent t0 ++ [datagram ty id (sequence t0) data]) t0))
    end).
  { intros ty id data t0. rewrite bindM_gets.
    destruct (build_packet ty id (sequence t0) data) as [packet|e] eqn:Hb;
      [|now rewrite bindM_lift_raise].
    pose proof (build_packet_returns _ _ _ _ _ Hb) as Henc.
    destruct (sock_closed t0) eqn:Hc.
    - rewrite (build_packet_frame _ _ _ _ Henc) in Hb. injection Hb as <-.
      rewrite bindM_lift_ok.
      rewrite (packet_to_binary_ok _ (frame_is_bytes _ _ _ _ Henc)), bindM_lift_ok.
      unfold bindM, sendto. now rewrite Hc.
    - rewrite <- Hb. apply (send_frame _ _ _ _ Henc Hc). }
  unfold send_to, carried, after_failed_send, payload.
  destruct (String.eqb cmd "land") eqn:Eland.
  - apply String.eqb_eq in Eland. subst cmd.
    cbn [String.eqb Ascii.eqb Bool.eqb]. rewrite bindM_ret.
    cbn [dict_get PAC_TYPE_LIST CMD_LIST String.eqb Ascii.eqb Bool.eqb].
    rewrite !bindM_lift_ok. apply Htail.
  - destruct (String.eqb cmd "stick") eqn:Estick.
    + apply String.eqb_eq in Estick. subst cmd.
      unfold bindM at 1. unfold bindM at 1. unfold bindM at 1.
      unfold modify at 1. unfold gets at 1. unfold lift at 1.
      cbn [speed set_sequence].
      destruct (move_to (speed t) now move) as [data|e]; [|reflexivity].
      cbn [dict_get PAC_TYPE_LIST CMD_LIST String.eqb Ascii.eqb Bool.eqb].
      rewrite !bindM_lift_ok. rewrite Htail.
      change (sequence (set_sequence 0 t)) with 0.
      destruct (build_packet 96 80 0 data); reflexivity.
    + rewrite bindM_ret.
      destruct (dict_get PAC_TYPE_LIST cmd) as [ty|e];
        [rewrite bindM_lift_ok|now rewrite bindM_lift_raise].
      destruct (dict_get CMD_LIST cmd) as [id|e];
        [rewrite bindM_lift_ok|now rewrite bindM_lift_raise].
      apply Htail.
Qed.

Lemma move_to_short (spd : Z) (now : datetime) (move : list Z) :
  Py.len move < 4 -> move_to spd now move = Raise IndexError.
Proof.
  intros H. unfold move_to.
  destruct move as [|c0 move]; [reflexivity|].
  rewrite (getitem_nth _ 0 c0) by (reflexivity || lia). cbn [bind].
  destruct move as [|c1 move]; [reflexivity|].
  rewrite (getitem_nth _ 1 c1) by (reflexivity || lia). cbn [bind].
  destruct move as [|c2 move]; [reflexivity|].
  rewrite (getitem_nth _ 2 c2) by (reflexivity || lia). cbn [bind].
  destruct move as [|c3 move]; [reflexivity|].
  autorewrite with pylen in H. pose proof (len_nonneg move). lia.
Qed.

Lemma catalogue_cases (cmd : string) :
  in_catalogue cmd = true ->
  cmd = "takeoff"%string \/ cmd = "land"%string \/ cmd = "stick"%string \/
  cmd = "get_ssid"%string.
Proof.
  unfold in_catalogue, CMD_LIST. cbn [map fst existsb].
  rewrite orb_false_r, !orb_true_iff, !String.eqb_eq. tauto.
Qed.

Lemma dict_get_missing (cmd : string) :
  in_catalogue cmd = false ->
  dict_get PAC_TYPE_LIST cmd = Raise KeyError /\
  dict_get CMD_LIST cmd = Raise KeyError.
Proof.
  unfold in_catalogue, CMD_LIST, PAC_TYPE_LIST. cbn [map fst existsb dict_get].
  rewrite !orb_false_iff. intros (-> & -> & -> & -> & _). now split.
Qed.

Lemma stick_data_encodable (v : Z) (now : datetime) (ms : Z) :
  valid_datetime now -> 0 <= ms < 65536 ->
  encodable 0x60 80 0
    (list_of_bytes (le_digits 6 v) ++ [hour now; minute now; second now] ++ le16 ms).
Proof.
  intros Hnow Hms.
  split; [unfold is_byte; lia|lia|lia|now apply stick_data_bytes|].
  unfold Py.len, list_of_bytes.
  rewrite length_app, length_map, le_digits_length. cbn. lia.
Qed.

Lemma plain_encodable (ty id seq_id : Z) (data : list Z) :
  is_byte ty -> 0 <= id < 65536 -> Forall is_byte data -> Py.len data <= 8180 ->
  (0 <=? seq_id) && (seq_id <? 65536) = true ->
  encodable ty id seq_id data.
Proof.
  intros Hty Hid Hd Hl Hs. apply andb_true_iff in Hs. destruct Hs as [H0 H1].
  apply Z.leb_le in H0. apply Z.ltb_lt in H1. split; try assumption; lia.
Qed.

(** X7: with a valid clock reading, how a send ends is decided by its
    arguments and the state alone.  A [stick] send raises [IndexError] on
    fewer than four channels, [OverflowError] when the packed sum is
    negative or needs more than 48 bits, [OSError] on a closed socket, and
    returns otherwise, whatever the counter.  Any other send raises
    [KeyError] on a name outside the catalogue, [OverflowError] when the
    counter is outside 0..65535, [OSError] on a closed socket, and returns
    otherwise.  It never raises anything else. *)
Theorem send_to_result (now : datetime) (cmd : string) (move : list Z) (t : tello) :
  valid_datetime now ->
  fst (send_to now cmd move t) = send_result cmd move t.
Proof.
  intros Hnow. rewrite send_to_steps. unfold send_result, payload, carried.
  destruct (String.eqb cmd "stick") eqn:Es.
  - apply String.eqb_eq in Es. subst cmd. cbn [String.eqb Ascii.eqb Bool.eqb].
    destruct (Z.ltb_spec (Py.len move) 4) as [Hl|Hl].
    + now rewrite move_to_short.
    + destruct move as [|c0 [|c1 [|c2 [|c3 more]]]];
        try (unfold Py.len in Hl; cbn [length] in Hl; lia).
      unfold move_sum. cbn [nth].
      destruct ((0 <=? stick_sum (speed t) c0 c1 c2 c3) &&
                (stick_sum (speed t) c0 c1 c2 c3 <? 2 ^ 48)) eqn:Hfit; cbn [negb].
      * apply andb_true_iff in Hfit. destruct Hfit as [H0 H1].
        apply Z.leb_le in H0. apply Z.ltb_lt in H1.
        destruct (move_to_ok (speed t) now c0 c1 c2 c3 more (conj H0 H1) Hnow)
          as (ms & Hms & ->).
        cbn [dict_get PAC_TYPE_LIST CMD_LIST String.eqb Ascii.eqb Bool.eqb].
        rewrite (build_packet_frame _ _ _ _ (stick_data_encodable _ now ms Hnow Hms)).
        now destruct (sock_closed t).
      * rewrite move_to_overflow; [reflexivity|].
        apply andb_false_iff in Hfit. destruct Hfit as [H|H];
          [apply Z.leb_gt in H|apply Z.ltb_ge in H]; lia.
  - destruct (in_catalogue cmd) eqn:Hc; cbn [negb].
    + assert (Hb0 : Forall is_byte []) by constructor.
      assert (Hb1 : Forall is_byte [0])
        by (repeat constructor; unfold is_byte; lia).
      destruct (catalogue_cases cmd Hc) as [-> | [-> | [-> | ->]]];
        try discriminate;
        cbn [String.eqb Ascii.eqb Bool.eqb dict_get PAC_TYPE_LIST CMD_LIST];
        (destruct ((0 <=? sequence t) && (sequence t <? 65536)) eqn:Hs; cbn [negb];
         [rewrite build_packet_frame;
          [now destruct (sock_closed t)
          |apply plain_encodable; try (unfold is_byte; lia); try (exact Hb0 || exact Hb1);
           try exact Hs; cbn; lia]
         |rewrite build_packet_overflow; [reflexivity|];
          apply andb_false_iff in Hs; destruct Hs as [H|H];
          [apply Z.leb_gt in H|apply Z.ltb_ge in H]; lia]).
    + destruct (dict_get_missing cmd Hc) as [Hp _].
      destruct (String.eqb cmd "land") eqn:El.
      * apply String.eqb_eq in El. subst cmd. discriminate.
      * now rewrite Hp.
Qed.

Lemma send_to_result_witness :
  valid_datetime (mkDatetime 12 34 56 789000) /\
  fst (send_to (mkDatetime 12 34 56 789000) "stick" [1024; 1024; 1024] fresh) =
  Raise IndexError /\
  fst (send_to (mkDatetime 12 34 56 789000) "flip" default_move fresh) =
  Raise KeyError /\
  fst (send_to (mkDatetime 12 34 56 789000) "land" default_move (stop fresh)) =
  Raise OSError.
Proof.
  assert (H : valid_datetime (mkDatetime 12 34 56 789000))
    by (split; cbn; lia).
  split; [exact H|]. split; [|split].
  - exact (send_to_result _ "stick" [1024; 1024; 1024] fresh H).
  - exact (send_to_result _ "flip" default_move fresh H).
  - exact (send_to_result _ "land" default_move (stop fresh) H).
Defined.

(** ** The frames a send can emit *)

Lemma move_to_length (spd : Z) (now : datetime) (move data : list Z) :
  move_to spd now move = Ok data -> Py.len data = 11.
Proof.
  unfold move_to.
  destruct (Py.getitem move 0) as [m0|]; [cbn [bind]|discriminate].
  destruct (Py.getitem move 1) as [m1|]; [cbn [bind]|discriminate].
  destruct (Py.getitem move 2) as [m2|]; [cbn [bind]|discriminate].
  destruct (Py.getitem move 3) as [m3|]; [cbn [bind]|discriminate].
  set (v := Z.shiftl spd 44 + Z.shiftl m0 33 + Z.shiftl m1 22 + Z.shiftl m2 11 + m3).
  unfold to_bytes at 1.
  destruct ((0 <=? v) && (v <? 256 ^ Z.of_nat 6)); [cbn [bind]|discriminate].
  unfold get_current_time.
  destruct (py_truediv (microsecond now) 1000) as [q|]; [cbn [bind]|discriminate].
  destruct (py_round q) as [ms|]; [cbn [bind]|discriminate].
  unfold to_bytes.
  destruct ((0 <=? ms) && (ms <? 256 ^ Z.of_nat 2)); [cbn [bind]|discriminate].
  intros [= <-].
  rewrite (setslice_to _ _ 6) by (cbn; lia).
  rewrite (setslice_from _ _ 6) by (cbn; lia).
  reflexivity.
Qed.

Lemma datagram_header (pac_type cmd_id seq_id : Z) (data : list Z) :
  encodable pac_type cmd_id seq_id data ->
  option_map Z_of_byte (nth_error (datagram pac_type cmd_id seq_id data) 0) =
  Some 0xcc /\
  wire_le16 (datagram pac_type cmd_id seq_id data) 1 =
  Some (8 * (11 + Py.len data)) /\
  Py.len (datagram pac_type cmd_id seq_id data) = 11 + Py.len data.
Proof.
  intros Henc. pose proof (frame_s_range _ _ _ _ Henc) as Hs.
  pose proof (frame_length pac_type cmd_id seq_id data) as Hl.
  split; [reflexivity|]. split.
  - unfold datagram, Wire.frame, wire_le16. cbn [map app nth_error].
    rewrite !Z_of_byte_of_Z, Z.mod_mod by lia.
    set (s := Z.shiftl (11 + Py.len data) 3) in *.
    rewrite (Z.mod_small (s / 256)) by (now apply is_byte_div).
    pose proof (Z.div_mod s 256 ltac:(lia)).
    f_equal. unfold s in *. rewrite Z.shiftl_mul_pow2 in * by lia.
    change (2 ^ 3) with 8 in *. lia.
  - unfold datagram. unfold Py.len in *. now rewrite length_map.
Qed.

(** X8: a send that returns has appended one datagram, and that datagram
    is one of four: marker byte [0xcc], a length field of eight times its
    length, and the packet type, command id and length of its command's
    row in the catalogue, 11 bytes for [takeoff] and [get_ssid], 12 for
    [land], 22 for [stick].  No other name is ever transmitted. *)
Theorem sent_frame_catalogue (now : datetime) (cmd : string) (move : list Z)
        (t : tello) :
  fst (send_to now cmd move t) = Ok tt ->
  exists w ty id n,
    sock_sent (snd (send_to now cmd move t)) = sock_sent t ++ [w] /\
    In (cmd, ty, id, n) catalogue_frames /\
    option_map Z_of_byte (nth_error w 0) = Some 0xcc /\
    wire_le16 w 1 = Some (8 * n) /\
    wire_type w = Some ty /\
    wire_command w = Some id /\
    Py.len w = n.
Proof.
  rewrite send_to_steps.
  destruct (payload now cmd move t) as [data|] eqn:Hp; [|discriminate].
  destruct (dict_get PAC_TYPE_LIST cmd) as [ty|] eqn:Hty; [|discriminate].
  destruct (dict_get CMD_LIST cmd) as [id|] eqn:Hid; [|discriminate].
  destruct (build_packet ty id (carried cmd t) data) as [packet|] eqn:Hb;
    [|discriminate].
  destruct (sock_closed t); [discriminate|]. intros _. cbn [snd].
  pose proof (build_packet_returns _ _ _ _ _ Hb) as Henc.
  destruct (datagram_header _ _ _ _ Henc) as (Hm & Hlen & Hl).
  destruct (datagram_fields _ _ _ _ Henc) as (Hwt & Hwc & _).
  exists (datagram ty id (carried cmd t) data), ty, id, (11 + Py.len data).
  split; [reflexivity|]. split; [|now repeat split].
  destruct (in_catalogue cmd) eqn:Hc;
    [|destruct (dict_get_missing cmd Hc) as [E _]; congruence].
  unfold payload in Hp.
  destruct (catalogue_cases cmd Hc) as [-> | [-> | [-> | ->]]];
    cbn [String.eqb Ascii.eqb Bool.eqb dict_get PAC_TYPE_LIST CMD_LIST] in Hp, Hty, Hid;
    injection Hty as <-; injection Hid as <-.
  - injection Hp as <-. left. reflexivity.
  - injection Hp as <-. right. left. reflexivity.
  - apply move_to_length in Hp. rewrite Hp. right. right. left. reflexivity.
  - injection Hp as <-. right. right. right. left. reflexivity.
Qed.

Lemma sent_frame_catalogue_witness :
  fst (send_to (mkDatetime 12 34 56 789000) "land" default_move fresh) = Ok tt /\
  exists w ty id n,
    sock_sent (snd (send_to (mkDatetime 12 34 56 789000) "land" default_move fresh)) =
    sock_sent fresh ++ [w] /\
    In ("land"%string, ty, id, n) catalogue_frames /\
    option_map Z_of_byte (nth_error w 0) = Some 0xcc /\
    wire_le16 w 1 = Some (8 * n) /\
    wire_type w = Some ty /\
    wire_command w = Some id /\
    Py.len w = n.
Proof.
  assert (H : fst (send_to (mkDatetime 12 34 56 789000) "land" default_move fresh)
              = Ok tt) by (vm_compute; reflexivity).
  split; [exact H|].
  exact (sent_frame_catalogue _ "land" default_move fresh H).
Defined.

(** ** Which frames reach which handler *)

Lemma id_bytes (d : list byte) :
  7 <= Py.len d ->
  exists b5 b6,
    nth_error d 5 = Some b5 /\ nth_error d 6 = Some b6 /\
    nth 5 (list_of_bytes d) 0 = Z_of_byte b5 /\
    nth 6 (list_of_bytes d) 0 = Z_of_byte b6.
Proof.
  intros H. unfold Py.len in H.
  destruct (nth_error d 5) as [b5|] eqn:E5;
    [|apply nth_error_None in E5; lia].
  destruct (nth_error d 6) as [b6|] eqn:E6;
    [|apply nth_error_None in E6; lia].
  exists b5, b6. repeat split; unfold list_of_bytes;
    apply nth_error_nth; rewrite nth_error_map; [now rewrite E5|now rewrite E6].
Qed.

Lemma received_id_bytes (d : list byte) :
  received_id d =
  nth 6 (list_of_bytes d) 0 * 10 ^ decimal_width (nth 5 (list_of_bytes d) 0) +
  nth 5 (list_of_bytes d) 0.
Proof. unfold received_id. cbv zeta. now rewrite !nth_unpacked by lia. Qed.

Lemma some_eq (a b : Z) : Some a = Some b <-> a = b.
Proof. split; congruence. Qed.

(** X9: the receive path glues the decimal digits of byte 6 and byte 5,
    so the three handled ids are each reached by two command ids of the
    wire format: 17 by 17 and 263, 26 by 26 and 518, 86 by 86 and 2054.
    No other frame reaches a handler. *)
Theorem id_collisions (d : list byte) (t : tello) :
  7 <= Py.len d ->
  (rec_command_id (snd (receive_body (Datagram d) t)) = 17 <->
   wire_command d = Some 17 \/ wire_command d = Some 263) /\
  (rec_command_id (snd (receive_body (Datagram d) t)) = 26 <->
   wire_command d = Some 26 \/ wire_command d = Some 518) /\
  (rec_command_id (snd (receive_body (Datagram d) t)) = 86 <->
   wire_command d = Some 86 \/ wire_command d = Some 2054).
Proof.
  intros H. rewrite receive_body_id by exact H. rewrite received_id_bytes.
  destruct (id_bytes d H) as (b5 & b6 & E5 & E6 & -> & ->).
  unfold wire_command, wire_le16. rewrite E5, E6. rewrite !some_eq.
  pose proof (Z_of_byte_range b5). pose proof (Z_of_byte_range b6).
  unfold decimal_width.
  destruct (Z.ltb_spec (Z_of_byte b5) 10);
    [change (10 ^ 1) with 10
    |destruct (Z.ltb_spec (Z_of_byte b5) 100);
     [change (10 ^ 2) with 100|change (10 ^ 3) with 1000]];
    lia.
Qed.

Lemma id_collisions_witness :
  7 <= Py.len (map byte_of_Z [0xcc; 0x58; 0; 0x7c; 0x88; 6; 8]) /\
  (rec_command_id
     (snd (receive_body
             (Datagram (map byte_of_Z [0xcc; 0x58; 0; 0x7c; 0x88; 6; 8])) fresh)) = 86 <->
   wire_command (map byte_of_Z [0xcc; 0x58; 0; 0x7c; 0x88; 6; 8]) = Some 86 \/
   wire_command (map byte_of_Z [0xcc; 0x58; 0; 0x7c; 0x88; 6; 8]) = Some 2054).
Proof.
  assert (H : 7 <= Py.len (map byte_of_Z [0xcc; 0x58; 0; 0x7c; 0x88; 6; 8]))
    by (vm_compute; discriminate).
  split; [exact H|].
  exact (proj2 (proj2 (id_collisions _ fresh H))).
Defined.

(** ** The handlers *)

Lemma dispatch_at (data : list byte) (id : Z) (t : tello) :
  dispatch data (set_rec_command_id id t) =
  if id =? 17 then
    (s <~ lift (decode_utf8 (Py.slice data (Some 11) (Some (-2)))) ;;
     modify (set_ssid s)) (set_rec_command_id id t)
  else if id =? 26 then
    (r10 <~ lift (Py.getitem (list_of_bytes data) 10) ;;
     r9 <~ lift (Py.getitem (list_of_bytes data) 9) ;;
     w <~ lift (concat_decimal r10 r9) ;;
     modify (set_wifi w)) (set_rec_command_id id t)
  else if id =? 86 then parse_data (list_of_bytes data) (set_rec_command_id id t)
  else (Ok tt, set_rec_command_id id t).
Proof.
  unfold dispatch. rewrite bindM_gets. cbn [rec_command_id set_rec_command_id].
  destruct (id =? 17); [reflexivity|].
  destruct (id =? 26); [reflexivity|].
  destruct (id =? 86); reflexivity.
Qed.

Lemma slice_name (d : list byte) :
  Py.len (Py.slice d (Some 11) (Some (-2))) = Z.max 0 (Py.len d - 13).
Proof.
  unfold Py.slice, Py.lower, Py.upper, Py.clamp.
  change (11 <? 0) with false. change (-2 <? 0) with true. cbv iota.
  rewrite len_firstn. unfold Py.len. rewrite length_skipn. lia.
Qed.

Lemma ascii_valid (l : list Z) :
  Forall (fun v => v < 128) l -> Utf8.valid l = true.
Proof.
  induction 1 as [|v l Hv _ IH]; [reflexivity|].
  cbn [Utf8.valid]. destruct (Z.ltb_spec v 128); [exact IH|lia].
Qed.

Lemma receive_ssid (d : list byte) (t : tello) :
  7 <= Py.len d <= 1518 -> received_id d = 17 ->
  receive_data [Datagram d] t =
  (None,
   if Utf8.valid (list_of_bytes (Py.slice d (Some 11) (Some (-2))))
   then set_ssid (string_of_list_byte (Py.slice d (Some 11) (Some (-2))))
          (set_rec_command_id 17 t)
   else print_error UnicodeDecodeError (set_rec_command_id 17 t)).
Proof.
  intros Hlen Hid.
  rewrite receive_data_one, receive_body_dispatch by lia.
  rewrite Hid, dispatch_at. change (17 =? 17) with true. cbv iota.
  rewrite firstn_all2 by (unfold Py.len in Hlen; lia).
  unfold decode_utf8.
  destruct (Utf8.valid (list_of_bytes (Py.slice d (Some 11) (Some (-2)))));
    [rewrite bindM_lift_ok|rewrite bindM_lift_raise]; reflexivity.
Qed.

Lemma name_short (d : list byte) :
  Py.len d <= 13 -> Py.slice d (Some 11) (Some (-2)) = [].
Proof.
  intros Hshort. pose proof (slice_name d) as Hl.
  destruct (Py.slice d (Some 11) (Some (-2))) as [|c name]; [reflexivity|].
  rewrite len_cons in Hl. pose proof (len_nonneg name). lia.
Qed.

(** X10: a frame dispatched with id 17 assigns to [ssid] the bytes from
    byte 11 to the third from last, when they are well-formed UTF-8;
    when they are not, the loop prints [UnicodeDecodeError] and [ssid]
    stays.  There are [len - 13] such bytes: a frame of 13 bytes or
    fewer sets [ssid] to the empty string.  Bytes below 128 always
    decode. *)
Theorem ssid_reply (d : list byte) (t : tello) :
  7 <= Py.len d <= 1518 -> received_id d = 17 ->
  let name := Py.slice d (Some 11) (Some (-2)) in
  receive_data [Datagram d] t =
  (None,
   if Utf8.valid (list_of_bytes name)
   then set_ssid (string_of_list_byte name) (set_rec_command_id 17 t)
   else print_error UnicodeDecodeError (set_rec_command_id 17 t)) /\
  Py.len name = Z.max 0 (Py.len d - 13) /\
  (Py.len d <= 13 ->
   receive_data [Datagram d] t = (None, set_ssid "" (set_rec_command_id 17 t))) /\
  (Forall (fun b => Z_of_byte b < 128) name ->
   Utf8.valid (list_of_bytes name) = true).
Proof.
  intros Hlen Hid name.
  split; [now apply receive_ssid|]. split; [apply slice_name|]. split.
  - intros Hshort. rewrite receive_ssid by assumption.
    now rewrite name_short.
  - intros Hascii. apply ascii_valid. unfold list_of_bytes.
    apply Forall_map. exact Hascii.
Qed.

Lemma ssid_reply_witness :
  let d := map byte_of_Z
             [0xcc; 0xb0; 0; 0x2f; 0x88; 17; 0; 0; 0; 0; 0; 84; 69; 76; 76; 79;
              0; 0] in
  (7 <= Py.len d <= 1518 /\ received_id d = 17) /\
  receive_data [Datagram d] fresh =
  (None, set_ssid "TELLO" (set_rec_command_id 17 fresh)).
Proof.
  cbv zeta.
  assert (H1 : 7 <= Py.len (map byte_of_Z
             [0xcc; 0xb0; 0; 0x2f; 0x88; 17; 0; 0; 0; 0; 0; 84; 69; 76; 76; 79;
              0; 0]) <= 1518) by (vm_compute; split; discriminate).
  assert (H2 : received_id (map byte_of_Z
             [0xcc; 0xb0; 0; 0x2f; 0x88; 17; 0; 0; 0; 0; 0; 84; 69; 76; 76; 79;
              0; 0]) = 17) by (vm_compute; reflexivity).
  split; [exact (conj H1 H2)|].
  exact (proj1 (ssid_reply _ fresh H1 H2)).
Defined.

(** X11: a frame dispatched with id 26 sets [wifi] to the decimal digits
    of byte 10 followed by those of byte 9, a number between 0 and
    255255, and nothing else; with fewer than 11 bytes the loop prints
    [IndexError] and [wifi] stays.  A frame with 7 bytes or more whose id
    is none of 17, 26 and 86 changes [rec_command_id] and nothing else,
    and prints nothing. *)
Theorem wifi_reply (d : list byte) (t : tello) :
  7 <= Py.len d ->
  let b i := nth i (list_of_bytes d) 0 in
  (received_id d = 26 -> 11 <= Py.len d ->
   receive_data [Datagram d] t =
   (None, set_wifi (b 10%nat * 10 ^ decimal_width (b 9%nat) + b 9%nat)
            (set_rec_command_id 26 t)) /\
   0 <= b 10%nat * 10 ^ decimal_width (b 9%nat) + b 9%nat <= 255255) /\
  (received_id d = 26 -> Py.len d < 11 ->
   receive_data [Datagram d] t =
   (None, print_error IndexError (set_rec_command_id 26 t))) /\
  (received_id d <> 17 -> received_id d <> 26 -> received_id d <> 86 ->
   receive_data [Datagram d] t = (None, set_rec_command_id (received_id d) t)).
Proof.
  intros Hlen b. split; [|split].
  - intros Hid H11. split.
    + rewrite receive_data_one, receive_body_dispatch by lia.
      rewrite Hid, dispatch_at. change (26 =? 17) with false.
      change (26 =? 26) with true. cbv iota.
      rewrite (getitem_default _ 10 0), (getitem_default _ 9 0)
        by (rewrite len_list_of_bytes, len_firstn; lia).
      rewrite !bindM_lift_ok.
      rewrite concat_decimal_bytes by apply nth_is_byte.
      rewrite bindM_lift_ok.
      change (Z.to_nat 10) with 10%nat. change (Z.to_nat 9) with 9%nat.
      rewrite !nth_unpacked by lia. reflexivity.
    + pose proof (nth_is_byte d 10) as H10. pose proof (nth_is_byte d 9) as H9.
      fold (b 10%nat) in H10. fold (b 9%nat) in H9. unfold is_byte in *.
      destruct (decimal_width_cases (b 9%nat)) as [-> | [-> | ->]]; lia.
  - intros Hid H11.
    rewrite receive_data_one, receive_body_dispatch by lia.
    rewrite Hid, dispatch_at. change (26 =? 17) with false.
    change (26 =? 26) with true. cbv iota.
    rewrite (getitem_beyond _ 10)
      by (rewrite len_list_of_bytes, len_firstn; lia).
    rewrite bindM_lift_raise. reflexivity.
  - intros H17 H26 H86.
    rewrite receive_data_one, receive_body_dispatch by lia.
    rewrite dispatch_at.
    destruct (Z.eqb_spec (received_id d) 17); [contradiction|].
    destruct (Z.eqb_spec (received_id d) 26); [contradiction|].
    destruct (Z.eqb_spec (received_id d) 86); [contradiction|].
    reflexivity.
Qed.

Lemma wifi_reply_witness :
  let d := map byte_of_Z [0xcc; 0x60; 0; 0x27; 0x88; 26; 0; 0; 0; 90; 0; 0; 0] in
  7 <= Py.len d /\ received_id d = 26 /\ 11 <= Py.len d /\
  receive_data [Datagram d] fresh = (None, set_wifi 90 (set_rec_command_id 26 fresh)).
Proof.
  cbv zeta.
  assert (H1 : 7 <= Py.len (map byte_of_Z
            [0xcc; 0x60; 0; 0x27; 0x88; 26; 0; 0; 0; 90; 0; 0; 0]))
    by (vm_compute; discriminate).
  assert (H2 : received_id (map byte_of_Z
            [0xcc; 0x60; 0; 0x27; 0x88; 26; 0; 0; 0; 90; 0; 0; 0]) = 26)
    by (vm_compute; reflexivity).
  assert (H3 : 11 <= Py.len (map byte_of_Z
            [0xcc; 0x60; 0; 0x27; 0x88; 26; 0; 0; 0; 90; 0; 0; 0]))
    by (vm_compute; discriminate).
  split; [exact H1|]. split; [exact H2|]. split; [exact H3|].
  exact (proj1 (proj1 (wifi_reply _ fresh H1) H2 H3)).
Defined.

(** ** A frame of the program read back by the program *)

Lemma datagram_unpacked (ty id seq_id : Z) (data : list Z) :
  encodable ty id seq_id data ->
  list_of_bytes (datagram ty id seq_id data) = Wire.frame ty id seq_id data.
Proof.
  intros Henc. unfold datagram.
  apply list_of_bytes_map, (frame_is_bytes _ _ _ _ Henc).
Qed.

Lemma datagram_received_id (ty id seq_id : Z) (data : list Z) :
  encodable ty id seq_id data -> 10 <= id < 100 ->
  received_id (datagram ty id seq_id data) = id.
Proof.
  intros Henc Hid. rewrite received_id_bytes, (datagram_unpacked _ _ _ _ Henc).
  unfold Wire.frame. cbn [app nth].
  rewrite (Z.mod_small id 256), (Z.div_small id 256) by lia.
  unfold decimal_width.
  destruct (Z.ltb_spec id 10); [lia|]. destruct (Z.ltb_spec id 100); lia.
Qed.

(** X12: a datagram the program has sent, read back by its own receive
    loop in any state, is taken for the id of its command.  The
    [get_ssid] request, which has no payload, is taken for the reply and
    sets [ssid] to the empty string; a [takeoff], [land] or [stick] frame
    changes [rec_command_id] and nothing else.  Nothing is printed. *)
Theorem loopback (now : datetime) (cmd : string) (move : list Z) (t : tello) :
  fst (send_to now cmd move t) = Ok tt ->
  exists w id,
    sock_sent (snd (send_to now cmd move t)) = sock_sent t ++ [w] /\
    dict_get CMD_LIST cmd = Ok id /\
    forall t0,
      receive_data [Datagram w] t0 =
      (None,
       if id =? 17 then set_ssid "" (set_rec_command_id 17 t0)
       else set_rec_command_id id t0).
Proof.
  rewrite send_to_steps.
  destruct (payload now cmd move t) as [data|] eqn:Hp; [|discriminate].
  destruct (dict_get PAC_TYPE_LIST cmd) as [ty|] eqn:Hty; [|discriminate].
  destruct (dict_get CMD_LIST cmd) as [id|] eqn:Hid; [|discriminate].
  destruct (build_packet ty id (carried cmd t) data) as [packet|] eqn:Hb;
    [|discriminate].
  destruct (sock_closed t); [discriminate|]. intros _. cbn [snd].
  pose proof (build_packet_returns _ _ _ _ _ Hb) as Henc.
  destruct (datagram_header _ _ _ _ Henc) as (_ & _ & Hl).
  exists (datagram ty id (carried cmd t) data), id.
  split; [reflexivity|]. split; [reflexivity|]. intros t0.
  assert (Hsize : Py.len data <= 11 /\ (id = 17 -> data = []) /\
                  (id = 84 \/ id = 85 \/ id = 80 \/ id = 17)).
  { destruct (in_catalogue cmd) eqn:Hc;
      [|destruct (dict_get_missing cmd Hc) as [_ E]; congruence].
    unfold payload in Hp.
    destruct (catalogue_cases cmd Hc) as [-> | [-> | [-> | ->]]];
      cbn [String.eqb Ascii.eqb Bool.eqb dict_get PAC_TYPE_LIST CMD_LIST] in Hp, Hid;
      injection Hid as <-.
    - injection Hp as <-. rewrite len_nil. repeat split; (lia || tauto).
    - injection Hp as <-. repeat split; try discriminate; try (cbn; lia); tauto.
    - apply move_to_length in Hp. rewrite Hp.
      repeat split; try discriminate; try lia; tauto.
    - injection Hp as <-. rewrite len_nil. repeat split; (lia || tauto). }
  destruct Hsize as (Hdata & Hempty & Hids).
  pose proof (len_nonneg data) as Hnn.
  assert (Hrid : received_id (datagram ty id (carried cmd t) data) = id)
    by (apply datagram_received_id; [exact Henc|lia]).
  destruct (Z.eqb_spec id 17) as [E|E].
  - subst id. rewrite receive_ssid by (rewrite ?Hl; (lia || exact Hrid)).
    rewrite name_short by (rewrite Hl, (Hempty eq_refl), len_nil; lia).
    reflexivity.
  - rewrite receive_data_one, receive_body_dispatch by lia.
    rewrite Hrid, dispatch_at.
    destruct (Z.eqb_spec id 17); [contradiction|].
    destruct (Z.eqb_spec id 26); [lia|].
    destruct (Z.eqb_spec id 86); [lia|]. reflexivity.
Qed.

Lemma loopback_witness :
  fst (send_to (mkDatetime 12 34 56 789000) "get_ssid" default_move fresh) = Ok tt /\
  exists w id,
    sock_sent (snd (send_to (mkDatetime 12 34 56 789000) "get_ssid" default_move fresh)) =
    sock_sent fresh ++ [w] /\
    dict_get CMD_LIST "get_ssid" = Ok id /\
    forall t0,
      receive_data [Datagram w] t0 =
      (None,
       if id =? 17 then set_ssid "" (set_rec_command_id 17 t0)
       else set_rec_command_id id t0).
Proof.
  assert (H : fst (send_to (mkDatetime 12 34 56 789000) "get_ssid" default_move fresh)
              = Ok tt) by (vm_compute; reflexivity).
  split; [exact H|].
  exact (loopback _ "get_ssid" default_move fresh H).
Defined.

(** ** Telemetry frames that end early *)

(** X13: a frame dispatched with id 86 that has fewer than 28 bytes makes
    the loop print [IndexError], after [parse_data] has assigned every
    attribute whose bytes the frame has: the update is torn.  The command
    echo is never reached.  With 15 or 16 bytes the velocity [vx] is new
    while the position is not advanced; with fewer than 17 bytes the
    position, the flight time and the battery level all stay. *)
Theorem telemetry_torn (d : list byte) (t : tello) :
  received_id d = 86 -> 7 <= Py.len d < 28 ->
  let b i := nth i (list_of_bytes d) 0 in
  let t' := snd (receive_data [Datagram d] t) in
  receive_data [Datagram d] t =
  (None, print_error IndexError (torn (list_of_bytes d) (set_rec_command_id 86 t))) /\
  get_command t' = get_command t /\
  (15 <= Py.len d < 17 -> vx t' = b 13%nat - b 14%nat /\ x t' = x t) /\
  (Py.len d < 17 ->
   x t' = x t /\ y t' = y t /\ z t' = z t /\ vz t' = vz t /\
   flytime t' = flytime t /\ battery t' = battery t) /\
  (Py.len d < 9 -> t' = print_error IndexError (set_rec_command_id 86 t)).
Proof.
  intros Hid Hlen b t'.
  assert (Hrun : receive_data [Datagram d] t =
    (None, print_error IndexError (torn (list_of_bytes d) (set_rec_command_id 86 t)))).
  { rewrite receive_data_one, receive_body_dispatch by lia.
    rewrite Hid, dispatch_at. change (86 =? 17) with false.
    change (86 =? 26) with false. change (86 =? 86) with true. cbv iota.
    rewrite firstn_all2 by (unfold Py.len in Hlen; lia).
    rewrite parse_data_torn;
      [reflexivity|apply list_of_bytes_is_byte|rewrite len_list_of_bytes; lia]. }
  split; [exact Hrun|]. subst t'. rewrite Hrun. cbn [snd].
  pose proof (len_list_of_bytes d) as Hl.
  unfold torn. rewrite Hl. cbv zeta.
  split; [|split; [|split]].
  - destruct (9 <=? Py.len d), (11 <=? Py.len d), (13 <=? Py.len d),
      (15 <=? Py.len d), (17 <=? Py.len d), (19 <=? Py.len d),
      (22 <=? Py.len d); reflexivity.
  - intros H. destruct (Z.leb_spec 15 (Py.len d)); [|lia].
    destruct (Z.leb_spec 17 (Py.len d)); [lia|].
    destruct (Z.leb_spec 19 (Py.len d)); [lia|].
    destruct (Z.leb_spec 22 (Py.len d)); [lia|].
    destruct (9 <=? Py.len d), (11 <=? Py.len d), (13 <=? Py.len d);
      split; reflexivity.
  - intros H.
    destruct (Z.leb_spec 17 (Py.len d)); [lia|].
    destruct (Z.leb_spec 19 (Py.len d)); [lia|].
    destruct (Z.leb_spec 22 (Py.len d)); [lia|].
    destruct (9 <=? Py.len d), (11 <=? Py.len d), (13 <=? Py.len d),
      (15 <=? Py.len d); repeat split; reflexivity.
  - intros H.
    destruct (Z.leb_spec 9 (Py.len d)); [lia|].
    destruct (Z.leb_spec 11 (Py.len d)); [lia|].
    destruct (Z.leb_spec 13 (Py.len d)); [lia|].
    destruct (Z.leb_spec 15 (Py.len d)); [lia|].
    destruct (Z.leb_spec 17 (Py.len d)); [lia|].
    destruct (Z.leb_spec 19 (Py.len d)); [lia|].
    destruct (Z.leb_spec 22 (Py.len d)); [lia|]. reflexivity.
Qed.

Lemma telemetry_torn_witness :
  let d := map byte_of_Z
             [0xcc; 0x80; 0; 0; 0x88; 86; 0; 1; 2; 30; 10; 7; 2; 100; 0; 9] in
  (received_id d = 86 /\ 7 <= Py.len d < 28) /\
  vx (snd (receive_data [Datagram d] fresh)) = 100 /\
  x (snd (receive_data [Datagram d] fresh)) = CZero /\
  printed (snd (receive_data [Datagram d] fresh)) = [IndexError].
Proof.
  cbv zeta.
  assert (H1 : received_id (map byte_of_Z
      [0xcc; 0x80; 0; 0; 0x88; 86; 0; 1; 2; 30; 10; 7; 2; 100; 0; 9]) = 86)
    by (vm_compute; reflexivity).
  assert (H2 : 7 <= Py.len (map byte_of_Z
      [0xcc; 0x80; 0; 0; 0x88; 86; 0; 1; 2; 30; 10; 7; 2; 100; 0; 9]) < 28)
    by (vm_compute; split; [discriminate|reflexivity]).
  split; [exact (conj H1 H2)|].
  pose proof (telemetry_torn _ fresh H1 H2) as H. cbv zeta in H.
  destruct H as (Hrun & _ & Hv & _).
  split; [|split].
  - apply Hv. vm_compute. split; [discriminate|reflexivity].
  - apply Hv. vm_compute. split; [discriminate|reflexivity].
  - rewrite Hrun. reflexivity.
Defined.

(** ** The snapshot *)

Lemma step_sender_snapshot (c : call) (t : tello) :
  sender_call c = true -> get_drone_data (step c t) = get_drone_data t.
Proof.
  destruct c as [now cmd move| | | |ev]; try discriminate; intros _;
    [|reflexivity|reflexivity].
  cbn [step]. pose proof (send_to_cases now cmd move t) as H.
  destruct (send_to now cmd move t) as [[u|e] t']; cbn [snd].
  - destruct H as (ty & id & data & _ & _ & _ & _ & _ & ->). reflexivity.
  - subst t'. unfold after_failed_send.
    destruct (String.eqb cmd "stick"); reflexivity.
Qed.

Lemma dict_lookup_missing {V} (d : list (string * V)) (k : string) :
  ~ In k (map fst d) <-> dict_lookup d k = Raise KeyError.
Proof.
  induction d as [|[k' v] d IH]; cbn [dict_lookup map fst In].
  - tauto.
  - destruct (String.eqb_spec k k') as [->|Hne].
    + split; [tauto|discriminate].
    + rewrite <- IH. split; [tauto|]. intros H [E|E]; [congruence|tauto].
Qed.

(** X14: the snapshot has the thirteen keys of [snapshot_keys] and no
    other: looking up [uptime], [speed] or [sequence], which the object
    also holds, raises [KeyError].  No send, speed switch or stop, in any
    number and order, changes the snapshot: only the receive loop and the
    position reset do. *)
Theorem snapshot_sources (cs : list call) (k : string) (t : tello) :
  forallb sender_call cs = true ->
  get_drone_data (run cs t) = get_drone_data t /\
  map fst (get_drone_data t) = snapshot_keys /\
  (dict_lookup (get_drone_data t) k = Raise KeyError <-> ~ In k snapshot_keys) /\
  dict_lookup (get_drone_data t) "uptime" = Raise KeyError /\
  dict_lookup (get_drone_data t) "speed" = Raise KeyError /\
  dict_lookup (get_drone_data t) "sequence" = Raise KeyError.
Proof.
  intros Hcs. split; [|split; [reflexivity|split; [|now repeat split]]].
  - revert t. induction cs as [|c cs IH]; intros t; [reflexivity|].
    cbn [forallb] in Hcs. apply andb_true_iff in Hcs. destruct Hcs as [Hc Hcs].
    change (run (c :: cs) t) with (run cs (step c t)).
    now rewrite (IH Hcs), step_sender_snapshot.
  - rewrite <- dict_lookup_missing. reflexivity.
Qed.

Lemma snapshot_sources_witness :
  let now := mkDatetime 12 34 56 789000 in
  let cs := [CallSend now "takeoff" default_move; CallSpeedSwitch;
             CallSend now "stick" [1024; 1024; 1024; 1024]; CallStop]%string in
  forallb sender_call cs = true /\
  get_drone_data (run cs fresh) = get_drone_data fresh.
Proof.
  cbv zeta. split; [reflexivity|].
  apply (snapshot_sources _ "uptime" fresh). reflexivity.
Defined.

(** X15: after a complete telemetry frame (28 to 1518 bytes, id 86) the
    snapshot reads the battery level as byte 21, the flight time as the
    product of bytes 17 and 18, the height as byte 9 minus byte 10 and
    the echo as the decimal digits of bytes 26 and 27 joined by a space;
    [ssid] and [wifi] are what they were.  On a fresh object [x] and the
    echo are the integer 0; after the frame [x] is a float and the echo a
    string. *)
Theorem snapshot_after_telemetry (d : list byte) (t : tello) :
  28 <= Py.len d <= 1518 -> received_id d = 86 ->
  let b i := nth i (list_of_bytes d) 0 in
  let snap := get_drone_data (snd (receive_data [Datagram d] t)) in
  dict_lookup snap "battery" = Ok (VInt (b 21%nat)) /\
  dict_lookup snap "flytime" = Ok (VInt (b 17%nat * b 18%nat)) /\
  dict_lookup snap "height" = Ok (VInt (b 9%nat - b 10%nat)) /\
  dict_lookup snap "humei" =
    Ok (VEcho (EStr (py_str (b 26%nat) ++ " " ++ py_str (b 27%nat)))) /\
  dict_lookup snap "rec_command_id" = Ok (VInt 86) /\
  dict_lookup snap "ssid" = Ok (VStr (ssid t)) /\
  dict_lookup snap "wifi" = Ok (VInt (wifi t)) /\
  (exists f, dict_lookup snap "x" = Ok (VCoord (CFloat f))) /\
  dict_lookup (get_drone_data fresh) "x" = Ok (VCoord CZero) /\
  dict_lookup (get_drone_data fresh) "humei" = Ok (VEcho EZero).
Proof.
  intros Hlen Hid b snap. subst snap.
  rewrite receive_data_one, receive_body_telemetry by assumption.
  cbn [snd]. repeat split. eexists. reflexivity.
Qed.

Lemma snapshot_after_telemetry_witness :
  (28 <= Py.len sample_telemetry <= 1518 /\ received_id sample_telemetry = 86) /\
  dict_lookup (get_drone_data (snd (receive_data [Datagram sample_telemetry] fresh)))
    "battery" = Ok (VInt 77) /\
  dict_lookup (get_drone_data (snd (receive_data [Datagram sample_telemetry] fresh)))
    "humei" = Ok (VEcho (EStr "3 4")).
Proof.
  assert (H1 : 28 <= Py.len sample_telemetry <= 1518)
    by (vm_compute; split; discriminate).
  assert (H2 : received_id sample_telemetry = 86) by (vm_compute; reflexivity).
  split; [exact (conj H1 H2)|].
  pose proof (snapshot_after_telemetry sample_telemetry fresh H1 H2) as H.
  cbv zeta in H. destruct H as (Hb & _ & _ & He & _).
  split; [exact Hb|exact He].
Defined.

(** ** The handshake *)

(** X16: [connect], in any state, sends the 11 bytes [conn_req:] [96 17]
    -- text and port, not a frame: its checksums do not hold -- and then
    the [get_ssid] frame with the counter, which it increments.  On a
    closed socket it raises [OSError] and changes nothing.  With the
    counter outside 0..65535 it raises [OverflowError] after the
    connection request has gone out: the handshake stops half-way. *)
Theorem connect_handshake (now : datetime) (t : tello) :
  connect now t =
  (if sock_closed t then (Raise OSError, t)
   else if (0 <=? sequence t) && (sequence t <? 65536) then
     (Ok tt,
      set_sequence (sequence t + 1)
        (set_sock_sent
           (sock_sent t ++ [conn_req; datagram 0x48 17 (sequence t) []]) t))
   else (Raise OverflowError, set_sock_sent (sock_sent t ++ [conn_req]) t)) /\
  conn_req = list_byte_of_string "conn_req:" ++ map byte_of_Z [0x96; 0x17] /\
  Py.len conn_req = 11 /\
  Wire.authentic conn_req = false.
Proof.
  split; [|split; [reflexivity|split; reflexivity]].
  unfold connect. rewrite (to_bytes_2 VIDEO_PORT) by (unfold VIDEO_PORT; lia).
  rewrite bindM_lift_ok.
  change (list_byte_of_string "conn_req:" ++
          [byte_of_Z VIDEO_PORT; byte_of_Z (VIDEO_PORT / 256)]) with conn_req.
  unfold bindM at 1. unfold sendto at 1.
  destruct (sock_closed t) eqn:Hc; [reflexivity|].
  rewrite send_to_steps. unfold payload, carried, after_failed_send.
  cbn [String.eqb Ascii.eqb Bool.eqb dict_get PAC_TYPE_LIST CMD_LIST].
  cbn [sequence sock_closed sock_sent set_sock_sent]. rewrite Hc.
  destruct ((0 <=? sequence t) && (sequence t <? 65536)) eqn:Hs.
  - rewrite build_packet_frame
      by (apply plain_encodable;
          [unfold is_byte; lia|lia|apply Forall_nil|rewrite len_nil; lia|exact Hs]).
    now rewrite <- app_assoc.
  - rewrite build_packet_overflow; [reflexivity|].
    apply andb_false_iff in Hs. destruct Hs as [H|H];
      [apply Z.leb_gt in H|apply Z.ltb_ge in H]; lia.
Qed.

(** ** Reading a stick frame back *)

Lemma stick_sum_decode (spd c0 c1 c2 c3 : Z) :
  0 <= spd <= 1 ->
  is_channel c0 -> is_channel c1 -> is_channel c2 -> is_channel c3 ->
  Z.shiftr (stick_sum spd c0 c1 c2 c3) 44 = spd /\
  Z.land (Z.shiftr (stick_sum spd c0 c1 c2 c3) 33) 2047 = c0 /\
  Z.land (Z.shiftr (stick_sum spd c0 c1 c2 c3) 22) 2047 = c1 /\
  Z.land (Z.shiftr (stick_sum spd c0 c1 c2 c3) 11) 2047 = c2 /\
  Z.land (stick_sum spd c0 c1 c2 c3) 2047 = c3.
Proof.
  unfold is_channel, stick_sum. intros Hs H0 H1 H2 H3.
  change 2047 with (Z.ones 11). rewrite !Z.land_ones by lia.
  rewrite !Z.shiftr_div_pow2, !Z.shiftl_mul_pow2 by lia.
  change (2 ^ 44) with 17592186044416. change (2 ^ 33) with 8589934592.
  change (2 ^ 22) with 4194304. change (2 ^ 11) with 2048.
  repeat split; Z.div_mod_to_equations; lia.
Qed.

Lemma speed_switch_iter (n : nat) (t : tello) :
  0 <= speed t <= 1 ->
  speed (Nat.iter n speed_switch t) = (speed t + Z.of_nat n) mod 2 /\
  sock_sent (Nat.iter n speed_switch t) = sock_sent t /\
  sock_closed (Nat.iter n speed_switch t) = sock_closed t.
Proof.
  intros Hs. induction n as [|n (IH1 & IH2 & IH3)].
  - cbn [Nat.iter]. change (Z.of_nat 0) with 0.
    rewrite Z.add_0_r, Z.mod_small by lia. repeat split.
  - rewrite !Nat.iter_succ.
    set (t1 := Nat.iter n speed_switch t) in *. unfold speed_switch.
    cbn [speed sock_sent sock_closed set_speed].
    split; [|now split]. rewrite IH1, Nat2Z.inj_succ.
    destruct (Z.eqb_spec ((speed t + Z.of_nat n) mod 2) 0);
      Z.div_mod_to_equations; lia.
Qed.

(** X17: a stick frame can be read back.  With the speed flag 0 or 1 and
    channels in 0..2047, the first six payload bytes of the datagram on
    the wire, taken as a little-endian number, give the flag back at bit
    44 and the four channels in the 11-bit fields below it; the next
    three bytes are hour, minute and second.  The flag is the one the
    speed switches have left: its initial value plus their number,
    modulo 2. *)
Theorem stick_decode (now : datetime) (c0 c1 c2 c3 : Z) (more : list Z)
        (n : nat) (t : tello) :
  sock_closed t = false ->
  0 <= speed t <= 1 ->
  is_channel c0 -> is_channel c1 -> is_channel c2 -> is_channel c3 ->
  valid_datetime now ->
  exists w,
    sock_sent (snd (send_to now "stick" (c0 :: c1 :: c2 :: c3 :: more)
                      (Nat.iter n speed_switch t))) = sock_sent t ++ [w] /\
    Py.len (wire_payload w) = 11 /\
    Z.shiftr (le_value (firstn 6 (list_of_bytes (wire_payload w)))) 44 =
      (speed t + Z.of_nat n) mod 2 /\
    Z.land (Z.shiftr (le_value (firstn 6 (list_of_bytes (wire_payload w)))) 33) 2047
      = c0 /\
    Z.land (Z.shiftr (le_value (firstn 6 (list_of_bytes (wire_payload w)))) 22) 2047
      = c1 /\
    Z.land (Z.shiftr (le_value (firstn 6 (list_of_bytes (wire_payload w)))) 11) 2047
      = c2 /\
    Z.land (le_value (firstn 6 (list_of_bytes (wire_payload w)))) 2047 = c3 /\
    firstn 3 (skipn 6 (list_of_bytes (wire_payload w))) =
      [hour now; minute now; second now].
Proof.
  intros Hopen Hs H0 H1 H2 H3 Hnow.
  destruct (speed_switch_iter n t Hs) as (Hspd & Hsent & Hclosed).
  set (t1 := Nat.iter n speed_switch t) in *.
  assert (Hs1 : 0 <= speed t1 <= 1)
    by (rewrite Hspd; Z.div_mod_to_equations; lia).
  destruct (stick_data_packed (speed t1) c0 c1 c2 c3 Hs1 H0 H1 H2 H3) as [Hsum Hrange].
  fold (stick_sum (speed t1) c0 c1 c2 c3) in Hsum.
  assert (Hfit : 0 <= stick_sum (speed t1) c0 c1 c2 c3 < 2 ^ 48).
  { rewrite Hsum. change (2 ^ 45) with 35184372088832 in Hrange.
    change (2 ^ 48) with 281474976710656. lia. }
  destruct (send_to_stick now c0 c1 c2 c3 more t1 ltac:(congruence) Hfit Hnow)
    as (data & Hmove & Henc & Hsend).
  destruct (move_to_ok (speed t1) now c0 c1 c2 c3 more Hfit Hnow) as (ms & Hms & Hshape).
  assert (Hdata : list_of_bytes (le_digits 6 (stick_sum (speed t1) c0 c1 c2 c3)) ++
                  [hour now; minute now; second now] ++ le16 ms = data)
    by congruence.
  destruct (datagram_fields _ _ _ _ Henc) as (_ & _ & _ & Hpay).
  exists (datagram 0x60 80 0 data).
  rewrite Hsend. cbn [snd sock_sent set_sequence set_sock_sent].
  rewrite Hsent. split; [reflexivity|].
  assert (Hlen : Py.len (wire_payload (datagram 96 80 0 data)) = 11).
  { rewrite <- len_list_of_bytes, Hpay, <- Hdata. unfold Py.len, list_of_bytes.
    rewrite length_app, length_map, le_digits_length. reflexivity. }
  split; [exact Hlen|].
  rewrite Hpay, <- Hdata.
  set (b := list_of_bytes (le_digits 6 (stick_sum (speed t1) c0 c1 c2 c3))).
  assert (Hb : length b = 6%nat)
    by (unfold b, list_of_bytes; now rewrite length_map, le_digits_length).
  rewrite <- Hb at 1 2 3 4 5. rewrite firstn_length_app.
  rewrite <- Hb at 1. rewrite skipn_length_app.
  unfold b. rewrite le_value_digits.
  change (256 ^ Z.of_nat 6) with (2 ^ 48). rewrite Z.mod_small by exact Hfit.
  destruct (stick_sum_decode (speed t1) c0 c1 c2 c3 Hs1 H0 H1 H2 H3)
    as (D4 & D3 & D2 & D1 & D0).
  rewrite D4, D3, D2, D1, D0, Hspd. repeat split.
Qed.

Lemma stick_decode_witness :
  let now := mkDatetime 12 34 56 789000 in
  (sock_closed fresh = false /\ 0 <= speed fresh <= 1 /\
   is_channel 300 /\ is_channel 1024 /\ is_channel 2047 /\ is_channel 0 /\
   valid_datetime now) /\
  exists w,
    sock_sent (snd (send_to now "stick" [300; 1024; 2047; 0]
                      (Nat.iter 3 speed_switch fresh))) = sock_sent fresh ++ [w] /\
    Py.len (wire_payload w) = 11 /\
    Z.shiftr (le_value (firstn 6 (list_of_bytes (wire_payload w)))) 44 =
      (speed fresh + Z.of_nat 3) mod 2 /\
    Z.land (Z.shiftr (le_value (firstn 6 (list_of_bytes (wire_payload w)))) 33) 2047
      = 300 /\
    Z.land (Z.shiftr (le_value (firstn 6 (list_of_bytes (wire_payload w)))) 22) 2047
      = 1024 /\
    Z.land (Z.shiftr (le_value (firstn 6 (list_of_bytes (wire_payload w)))) 11) 2047
      = 2047 /\
    Z.land (le_value (firstn 6 (list_of_bytes (wire_payload w)))) 2047 = 0 /\
    firstn 3 (skipn 6 (list_of_bytes (wire_payload w))) = [12; 34; 56].
Proof.
  cbv zeta.
  assert (Hs : 0 <= speed fresh <= 1) by (cbn; lia).
  assert (H0 : is_channel 300) by (unfold is_channel; lia).
  assert (H1 : is_channel 1024) by (unfold is_channel; lia).
  assert (H2 : is_channel 2047) by (unfold is_channel; lia).
  assert (H3 : is_channel 0) by (unfold is_channel; lia).
  assert (Hnow : valid_datetime (mkDatetime 12 34 56 789000))
    by (split; cbn; lia).
  split; [exact (conj eq_refl (conj Hs (conj H0 (conj H1 (conj H2 (conj H3 Hnow))))))|].
  exact (stick_decode (mkDatetime 12 34 56 789000) 300 1024 2047 0 [] 3 fresh
           eq_refl Hs H0 H1 H2 H3 Hnow).
Defined.

(** ** Channels that do not fit their field *)

Lemma move_to_sum (spd : Z) (now : datetime) (c0 c1 c2 c3 : Z) (more : list Z) :
  move_to spd now (c0 :: c1 :: c2 :: c3 :: more) =
  (b <- to_bytes (stick_sum spd c0 c1 c2 c3) 6 ;;
   t <- get_current_time now ;;
   Ok (Py.setslice
         (Py.setslice (repeat 0 11%nat) None (Some 6) (list_of_bytes b))
         (Some 6) None t)).
Proof.
  unfold move_to.
  rewrite (getitem_nth _ 0 c0), (getitem_nth _ 1 c1), (getitem_nth _ 2 c2),
    (getitem_nth _ 3 c3) by (reflexivity || lia).
  reflexivity.
Qed.

(** X18: [move_to] adds the shifted channels and masks nothing, so a
    channel that does not fit its 11 bits carries into the field above:
    2048 more in one channel is 1 more in the channel before it, and 2048
    more in the first channel is 1 more in the speed flag.  The payload
    depends on the sum alone; items of [move] after the fourth are
    ignored. *)
Theorem channel_carry (spd : Z) (now : datetime) (c0 c1 c2 c3 : Z)
        (more : list Z) :
  move_to spd now (c0 :: c1 :: c2 :: c3 :: more) = move_to spd now [c0; c1; c2; c3] /\
  move_to spd now [c0; c1; c2; c3 + 2048] = move_to spd now [c0; c1; c2 + 1; c3] /\
  move_to spd now [c0; c1; c2 + 2048; c3] = move_to spd now [c0; c1 + 1; c2; c3] /\
  move_to spd now [c0; c1 + 2048; c2; c3] = move_to spd now [c0 + 1; c1; c2; c3] /\
  move_to spd now [c0 + 2048; c1; c2; c3] = move_to (spd + 1) now [c0; c1; c2; c3] /\
  (forall d0 d1 d2 d3 spd',
     stick_sum spd c0 c1 c2 c3 = stick_sum spd' d0 d1 d2 d3 ->
     move_to spd now [c0; c1; c2; c3] = move_to spd' now [d0; d1; d2; d3]).
Proof.
  assert (Hsum : forall s s' a0 a1 a2 a3 d0 d1 d2 d3,
            stick_sum s a0 a1 a2 a3 = stick_sum s' d0 d1 d2 d3 ->
            move_to s now [a0; a1; a2; a3] = move_to s' now [d0; d1; d2; d3]).
  { intros s s' a0 a1 a2 a3 d0 d1 d2 d3 H. rewrite !move_to_sum. now rewrite H. }
  split; [now rewrite !move_to_sum|].
  repeat split; try (apply Hsum; unfold stick_sum;
                     rewrite !Z.shiftl_mul_pow2 by lia;
                     change (2 ^ 44) with 17592186044416;
                     change (2 ^ 33) with 8589934592;
                     change (2 ^ 22) with 4194304; change (2 ^ 11) with 2048; lia).
  intros d0 d1 d2 d3 spd'. apply Hsum.
Qed.

(** ** The millisecond field

    The clock reading divides the microseconds by 1000 in binary64 and
    rounds the quotient to an integer.  The quotient has a mantissa of 53
    or 54 bits before it is rounded, so it is within a few units of the
    last place of the exact quotient, and the integer nearest to it is
    within one half of the exact quotient. *)

Module FloatNear.

Import Float.
Import FloatFacts.

Lemma shr_1_halves (r : shr_record) :
  0 <= shr_m r ->
  2 * shr_m (shr_1 r) <= shr_m r <= 2 * shr_m (shr_1 r) + 1.
Proof.
  destruct r as [m r s]. cbn [shr_m]. intros H.
  destruct m as [|[p|p|]|p]; cbn [shr_1 shr_m]; lia.
Qed.

Lemma digits_53_54 (mx : Z) :
  2 ^ 52 <= mx < 2 ^ 54 -> Zdigits2 mx = 53 \/ Zdigits2 mx = 54.
Proof.
  intros H. pose proof (Z.pow_pos_nonneg 2 52 ltac:(lia) ltac:(lia)) as Hpos.
  destruct mx as [|p|p]; try lia.
  cbn [Zdigits2]. pose proof (digits2_lower p) as Hlo.
  pose proof (digits2_upper p) as Hup.
  set (D := Zpos (digits2_pos p)) in *.
  assert (52 < D).
  { apply (Z.pow_lt_mono_r_iff 2); lia. }
  assert (D < 55).
  { apply (Z.pow_lt_mono_r_iff 2); [lia|lia|].
    change (2 ^ 55) with (2 * 2 ^ 54). lia. }
  lia.
Qed.

(** One normalising shift of a mantissa of 53 or 54 bits. *)
Lemma shr_fexp_near (mx ex : Z) (lx : location) :
  2 ^ 52 <= mx < 2 ^ 54 -> -1000 <= ex <= 900 ->
  exists n,
    0 <= n <= 1 /\
    snd (shr_fexp prec emax mx ex lx) = ex + n /\
    shr_m (fst (shr_fexp prec emax mx ex lx)) * 2 ^ n <= mx /\
    mx <= shr_m (fst (shr_fexp prec emax mx ex lx)) * 2 ^ n + n /\
    (n = 0 -> mx < 2 ^ 53) /\ (n = 1 -> 2 ^ 53 <= mx).
Proof.
  intros Hmx Hex. unfold shr_fexp.
  pose proof (Z.pow_pos_nonneg 2 52 ltac:(lia) ltac:(lia)) as Hpos.
  destruct (digits_53_54 mx Hmx) as [HD|HD].
  - exists 0. rewrite HD.
    replace (fexp prec emax (53 + ex) - ex) with 0
      by (unfold fexp, emin, prec, emax; lia).
    cbn [shr fst snd]. rewrite shr_m_of_loc. change (2 ^ 0) with 1.
    repeat split; try lia.
    intros _. destruct mx as [|p|p]; try lia.
    cbn [Zdigits2] in HD. pose proof (digits2_upper p) as H. rewrite HD in H. exact H.
  - exists 1. rewrite HD.
    replace (fexp prec emax (54 + ex) - ex) with 1
      by (unfold fexp, emin, prec, emax; lia).
    cbn [shr fst snd iter_pos].
    pose proof (shr_1_halves (shr_record_of_loc mx lx)) as H.
    rewrite shr_m_of_loc in H. change (2 ^ 1) with 2.
    repeat split; try lia.
    intros _. destruct mx as [|p|p]; try lia.
    cbn [Zdigits2] in HD. pose proof (digits2_lower p) as H'. rewrite HD in H'.
    change (2 ^ 54) with (2 * 2 ^ 53) in H'. lia.
Qed.

(** Rounding a mantissa of 53 or 54 bits moves it by less than four
    units of its last place. *)
Lemma binary_round_aux_near (sx : bool) (mx ex : Z) (lx : location) :
  2 ^ 52 <= mx < 2 ^ 54 -> -1000 <= ex <= 800 ->
  exists m j,
    binary_round_aux prec emax sx mx ex lx = S754_finite sx m (ex + j) /\
    0 <= j <= 2 /\
    mx - 3 <= Zpos m * 2 ^ j <= mx + 2.
Proof.
  intros Hmx Hex. unfold binary_round_aux.
  destruct (shr_fexp_near mx ex lx Hmx ltac:(lia))
    as (n1 & Hn1 & He1 & Hlo1 & Hhi1 & Hz1 & Ho1).
  destruct (shr_fexp prec emax mx ex lx) as [mrs' e'].
  cbn [fst snd] in He1, Hlo1, Hhi1.
  pose proof (round_nearest_even_below (shr_m mrs') (loc_of_shr_record mrs')) as Hr.
  set (m1 := shr_m mrs') in *.
  set (m2 := round_nearest_even m1 (loc_of_shr_record mrs')) in *.
  change (2 ^ 52) with 4503599627370496 in *.
  change (2 ^ 53) with 9007199254740992 in *.
  change (2 ^ 54) with 18014398509481984 in *.
  assert (Hm1 : 4503599627370496 <= m1 < 9007199254740992).
  { assert (n1 = 0 \/ n1 = 1) as [-> | ->] by lia.
    - change (2 ^ 0) with 1 in *. specialize (Hz1 eq_refl). lia.
    - change (2 ^ 1) with 2 in *. specialize (Ho1 eq_refl). lia. }
  destruct (shr_fexp_near m2 e' loc_Exact)
    as (n2 & Hn2 & He2 & Hlo2 & Hhi2 & _ & _).
  { change (2 ^ 52) with 4503599627370496.
    change (2 ^ 54) with 18014398509481984. lia. }
  { lia. }
  destruct (shr_fexp prec emax m2 e' loc_Exact) as [mrs'' e''].
  cbn [fst snd] in He2, Hlo2, Hhi2.
  set (m3 := shr_m mrs'') in *.
  assert (Hm3 : 0 < m3).
  { assert (n2 = 0 \/ n2 = 1) as [-> | ->] by lia.
    - change (2 ^ 0) with 1 in *. lia.
    - change (2 ^ 1) with 2 in *. lia. }
  destruct m3 as [|m|m] eqn:Em3; try lia.
  replace (e'' <=? emax - prec) with true
    by (symmetry; apply Z.leb_le; unfold emax, prec; lia).
  exists m, (n1 + n2). split; [f_equal; lia|]. split; [lia|].
  assert (n1 = 0 \/ n1 = 1) as [-> | ->] by lia;
    assert (n2 = 0 \/ n2 = 1) as [-> | ->] by lia;
    cbn [Z.add Pos.add]; change (2 ^ 0) with 1 in *; change (2 ^ 1) with 2 in *;
    change (2 ^ 2) with 4; lia.
Qed.

(** The integer nearest to [m * 2^e] is within one half of it. *)
Lemma nearest_int_half (m : positive) (e : Z) :
  e < 0 ->
  - 2 ^ (- e) <= 2 * Zpos m - 2 * nearest_int m e * 2 ^ (- e) <= 2 ^ (- e).
Proof.
  intros He. destruct e as [|k|k]; try lia.
  unfold nearest_int. change (- Zneg k) with (Zpos k).
  assert (Hd : 0 < 2 ^ Zpos k) by (apply Z.pow_pos_nonneg; lia).
  pose proof (Z.div_mod (Zpos m) (2 ^ Zpos k) ltac:(lia)) as Hdm.
  pose proof (Z.mod_pos_bound (Zpos m) (2 ^ Zpos k) Hd) as Hr.
  set (D := 2 ^ Zpos k) in *.
  set (q := Zpos m / D) in *. set (r := Zpos m mod D) in *.
  destruct (Z.compare_spec (2 * r) D); [destruct (Z.even q)| |]; nia.
Qed.

(** A number below [2^20] divided by 1000 and rounded to an integer is
    within 500 thousandths of it. *)
Lemma ratio_1000_near (p : positive) :
  Zpos p < 2 ^ 20 ->
  exists m e,
    ratio (Zpos p) 1000 = S754_finite false m e /\
    -500 <= 1000 * nearest_int m e - Zpos p <= 500.
Proof.
  intros Hp. unfold ratio, div, exact, SFdiv, SFdiv_core_binary.
  change (Zdigits2 1000) with 10. cbn [Zdigits2 xorb].
  pose proof (digits2_lower p) as Hlo.
  pose proof (digits2_upper p) as Hup.
  set (d := Zpos (digits2_pos p)) in *.
  assert (Hd : 1 <= d <= 20).
  { split; [unfold d; lia|].
    assert (2 ^ d < 2 ^ 21) by (change (2 ^ 21) with (2 * 2 ^ 20); lia).
    apply Z.pow_lt_mono_r_iff in H; lia. }
  replace (Z.min (fexp prec emax (d + 0 - (10 + 0))) (0 - 0)) with (d - 63)
    by (unfold fexp, emin, prec, emax; lia).
  replace (0 - 0 - (d - 63)) with (63 - d) by lia.
  destruct (63 - d) as [|k|k] eqn:Ek; try lia.
  rewrite Z.shiftl_mul_pow2 by lia.
  pose proof (Z_div_mod (Zpos p * 2 ^ Zpos k) 1000 ltac:(lia)) as Hdm.
  destruct (Z.div_eucl (Zpos p * 2 ^ Zpos k) 1000) as [q r].
  destruct Hdm as [Hq Hr].
  assert (HT : 2 ^ d * 2 ^ Zpos k = 2 ^ 63)
    by (rewrite <- Z.pow_add_r by lia; f_equal; lia).
  assert (HTpos : 0 < 2 ^ Zpos k) by (apply Z.pow_pos_nonneg; lia).
  assert (HTlow : 2 ^ 43 <= 2 ^ Zpos k) by (apply Z.pow_le_mono_r; lia).
  set (T := 2 ^ Zpos k) in *.
  change (2 ^ 63) with 9223372036854775808 in HT.
  change (2 ^ 43) with 8796093022208 in HTlow.
  assert (Hq0 : 2 ^ 52 <= q < 2 ^ 54).
  { change (2 ^ 52) with 4503599627370496.
    change (2 ^ 54) with 18014398509481984. nia. }
  destruct (binary_round_aux_near false q (d - 63) (new_location 1000 r) Hq0
              ltac:(lia)) as (m & j & Hround & Hj & Hm).
  exists m, (d - 63 + j). split; [exact Hround|].
  pose proof (nearest_int_half m (d - 63 + j) ltac:(lia)) as Hn.
  replace (- (d - 63 + j)) with (Zpos k - j) in Hn by lia.
  assert (HW : T = 2 ^ (Zpos k - j) * 2 ^ j)
    by (unfold T; rewrite <- Z.pow_add_r by lia; f_equal; lia).
  assert (HWpos : 0 < 2 ^ (Zpos k - j)) by (apply Z.pow_pos_nonneg; lia).
  set (W := 2 ^ (Zpos k - j)) in *.
  set (ms := nearest_int m (d - 63 + j)) in *.
  assert (j = 0 \/ j = 1 \/ j = 2) as [-> | [-> | ->]] by lia;
    [change (2 ^ 0) with 1 in *|change (2 ^ 1) with 2 in *
    |change (2 ^ 2) with 4 in *];
    (split;
     [destruct (Z_le_gt_dec (-500) (1000 * ms - Zpos p)) as [H|H]; [exact H|exfalso];
      assert (0 <= (Zpos p - 1000 * ms - 501) * W)
        by (apply Z.mul_nonneg_nonneg; lia); lia
     |destruct (Z_le_gt_dec (1000 * ms - Zpos p) 500) as [H|H]; [exact H|exfalso];
      assert (0 <= (1000 * ms - Zpos p - 501) * W)
        by (apply Z.mul_nonneg_nonneg; lia); lia]).
Qed.

End FloatNear.

Lemma millisecond_near (us : Z) :
  0 <= us < 1000000 ->
  exists q ms,
    py_truediv us 1000 = Ok q /\ py_round q = Ok ms /\
    -500 <= 1000 * ms - us <= 500.
Proof.
  intros Hus. unfold py_truediv. change (1000 =? 0) with false. cbv iota.
  destruct us as [|p|p]; [| |lia].
  - exists (S754_zero false), 0. repeat split; lia.
  - destruct (FloatNear.ratio_1000_near p) as (m & e & He & Hn).
    + change (2 ^ 20) with 1048576. lia.
    + rewrite He. exists (S754_finite false m e), (Float.nearest_int m e).
      split; [reflexivity|]. split; [reflexivity|exact Hn].
Qed.

(** X19: with a valid clock reading, the last two items of
    [get_current_time] are the low and high byte of a number [ms] with
    [|1000 * ms - microsecond| <= 500]: the microseconds divided by 1000
    and rounded to the nearest integer.  So [ms] is
    [(microsecond + 500) / 1000] unless the microseconds end in 500, it
    lies in 0..1000, and it is 1000, not a millisecond of the second,
    when the microseconds exceed 999500. *)
Theorem millisecond_field (now : datetime) :
  valid_datetime now ->
  exists ms,
    get_current_time now =
    Ok [hour now; minute now; second now; ms mod 256; ms / 256] /\
    -500 <= 1000 * ms - microsecond now <= 500 /\
    0 <= ms <= 1000 /\
    (microsecond now mod 1000 <> 500 -> ms = (microsecond now + 500) / 1000) /\
    (999500 < microsecond now -> ms = 1000) /\
    (microsecond now < 500 -> ms = 0).
Proof.
  intros [Hh Hm Hs Hus]. unfold get_current_time.
  destruct (millisecond_near _ Hus) as (q & ms & Hq & Hms & Hn).
  exists ms. rewrite Hq. cbn [bind]. rewrite Hms. cbn [bind].
  assert (Hr : 0 <= ms < 65536) by lia.
  rewrite (to_bytes_2 ms Hr). cbn [bind]. rewrite (le_pair ms Hr).
  split; [reflexivity|]. split; [exact Hn|]. split; [lia|].
  split; [|split]; intros H; try lia.
  Z.div_mod_to_equations. lia.
Qed.

Lemma millisecond_field_witness :
  valid_datetime (mkDatetime 23 59 59 999999) /\
  get_current_time (mkDatetime 23 59 59 999999) = Ok [23; 59; 59; 232; 3].
Proof.
  assert (H : valid_datetime (mkDatetime 23 59 59 999999)) by (split; cbn; lia).
  split; [exact H|].
  destruct (millisecond_field _ H) as (ms & Hms & _ & _ & _ & Hmax & _).
  rewrite Hms, (Hmax ltac:(cbn; lia)). reflexivity.
Defined.

(** ** Bounds of the drone state *)

Lemma concat_range (hi lo : Z) :
  is_byte hi -> is_byte lo -> 0 <= hi * 10 ^ decimal_width lo + lo <= 255255.
Proof.
  unfold is_byte. intros Hhi Hlo.
  destruct (decimal_width_cases lo) as [-> | [-> | ->]]; lia.
Qed.

Lemma torn_in_range (data : list byte) (t : tello) :
  telemetry_in_range t -> telemetry_in_range (torn (list_of_bytes data) t).
Proof.
  unfold telemetry_in_range, torn, integrated.
  intros (H1 & H2 & H3 & H4 & H5 & H6 & H7 & H8 & H9).
  pose proof (nth_is_byte data 7). pose proof (nth_is_byte data 8).
  pose proof (nth_is_byte data 9). pose proof (nth_is_byte data 10).
  pose proof (nth_is_byte data 11). pose proof (nth_is_byte data 12).
  pose proof (nth_is_byte data 13). pose proof (nth_is_byte data 14).
  pose proof (nth_is_byte data 15). pose proof (nth_is_byte data 16).
  pose proof (nth_is_byte data 17). pose proof (nth_is_byte data 18).
  pose proof (nth_is_byte data 21).
  unfold is_byte in *. cbv zeta.
  destruct (9 <=? Py.len (list_of_bytes data)),
    (11 <=? Py.len (list_of_bytes data)), (13 <=? Py.len (list_of_bytes data)),
    (15 <=? Py.len (list_of_bytes data)), (17 <=? Py.len (list_of_bytes data)),
    (19 <=? Py.len (list_of_bytes data)), (22 <=? Py.len (list_of_bytes data));
    cbn [uptime height vx vy vz flytime battery wifi rec_command_id
         set_uptime set_height set_vx set_vy set_vz set_flytime set_battery];
    repeat split; try assumption; try lia; nia.
Qed.

Lemma reduced_in_range (data : list byte) (t : tello) :
  telemetry_in_range t -> telemetry_in_range (reduced (list_of_bytes data) t).
Proof.
  unfold telemetry_in_range, reduced.
  intros (H1 & H2 & H3 & H4 & H5 & H6 & H7 & H8 & H9).
  pose proof (nth_is_byte data 7). pose proof (nth_is_byte data 8).
  pose proof (nth_is_byte data 9). pose proof (nth_is_byte data 10).
  pose proof (nth_is_byte data 11). pose proof (nth_is_byte data 12).
  pose proof (nth_is_byte data 13). pose proof (nth_is_byte data 14).
  pose proof (nth_is_byte data 15). pose proof (nth_is_byte data 16).
  pose proof (nth_is_byte data 17). pose proof (nth_is_byte data 18).
  pose proof (nth_is_byte data 21).
  unfold is_byte in *. cbv zeta.
  cbn [uptime height vx vy vz flytime battery wifi rec_command_id].
  repeat split; try assumption; try lia; nia.
Qed.

Lemma receive_body_in_range (ev : recv_event) (t : tello) :
  telemetry_in_range t -> telemetry_in_range (snd (receive_body ev t)).
Proof.
  intros Ht. destruct ev as [d|];
    [|unfold receive_body, recvfrom; now rewrite bindM_lift_raise].
  destruct (Z_lt_le_dec (Py.len d) 7) as [Hshort|Hlen];
    [now rewrite receive_body_short|].
  rewrite receive_body_dispatch by exact Hlen.
  assert (Hid : 0 <= received_id d <= 255255).
  { rewrite received_id_bytes. apply concat_range; apply nth_is_byte. }
  assert (Ht0 : telemetry_in_range (set_rec_command_id (received_id d) t)).
  { unfold telemetry_in_range in *.
    cbn [uptime height vx vy vz flytime battery wifi rec_command_id
         set_rec_command_id]. tauto. }
  set (t0 := set_rec_command_id (received_id d) t) in *.
  set (data := firstn 1518 d).
  unfold t0 at 1. rewrite dispatch_at. fold t0.
  destruct (received_id d =? 17).
  { destruct (decode_utf8 (Py.slice data (Some 11) (Some (-2)))) as [s|e];
      [rewrite bindM_lift_ok|rewrite bindM_lift_raise]; exact Ht0. }
  destruct (received_id d =? 26).
  { destruct (Z_lt_le_dec (Py.len (list_of_bytes data)) 11) as [H11|H11].
    - rewrite (getitem_beyond _ 10) by lia. rewrite bindM_lift_raise. exact Ht0.
    - rewrite (getitem_default _ 10 0), (getitem_default _ 9 0) by lia.
      rewrite !bindM_lift_ok.
      rewrite concat_decimal_bytes by apply nth_is_byte.
      rewrite bindM_lift_ok.
      pose proof (concat_range _ _ (nth_is_byte data (Z.to_nat 10))
                    (nth_is_byte data (Z.to_nat 9))) as Hw.
      unfold telemetry_in_range in *.
      cbn [modify snd uptime height vx vy vz flytime battery wifi rec_command_id
           set_wifi]. tauto. }
  destruct (received_id d =? 86); [|exact Ht0].
  destruct (Z_lt_le_dec (Py.len (list_of_bytes data)) 28) as [H28|H28].
  - rewrite parse_data_torn by (apply list_of_bytes_is_byte || exact H28).
    now apply torn_in_range.
  - rewrite parse_data_ok by (apply list_of_bytes_is_byte || exact H28).
    now apply reduced_in_range.
Qed.

Lemma step_in_range (c : call) (t : tello) :
  telemetry_in_range t -> telemetry_in_range (step c t).
Proof.
  intros Ht. destruct c as [now cmd move| | | |ev]; cbn [step];
    try exact Ht.
  - pose proof (send_to_cases now cmd move t) as H.
    destruct (send_to now cmd move t) as [[u|e] t']; cbn [snd].
    + destruct H as (ty & id & data & _ & _ & _ & _ & _ & ->). exact Ht.
    + subst t'. unfold after_failed_send.
      destruct (String.eqb cmd "stick"); exact Ht.
  - rewrite receive_data_one. cbn [snd].
    pose proof (receive_body_in_range ev t Ht) as H.
    destruct (receive_body ev t) as [[u|e] t']; exact H.
Qed.

(** X20: whatever arrives and whatever is called, the integer attributes
    of the drone state stay within the bounds their bytes give them:
    [height] and the three velocities in -255..255, [uptime] in
    0..65280, [flytime] in 0..65025, [battery] in 0..255, [wifi] and
    [rec_command_id] in 0..255255.  This holds along any interleaving of
    sends, speed switches, resets, stops and receive turns, torn frames
    and failed sends included. *)
Theorem telemetry_bounds (cs : list call) (t : tello) :
  telemetry_in_range t -> telemetry_in_range (run cs t).
Proof.
  revert t. induction cs as [|c cs IH]; intros t Ht; [exact Ht|].
  change (run (c :: cs) t) with (run cs (step c t)).
  apply IH, step_in_range, Ht.
Qed.

Lemma telemetry_bounds_witness :
  telemetry_in_range fresh /\
  telemetry_in_range
    (run [Receive (Datagram sample_telemetry); CallReset;
          Receive RecvFailure; Receive (Datagram (firstn 16 sample_telemetry))]
       fresh).
Proof.
  assert (H : telemetry_in_range fresh)
    by (unfold telemetry_in_range; cbn; lia).
  split; [exact H|]. apply telemetry_bounds. exact H.
Defined.
